(** * csv-data-cleansing: a shallow embedding of [main.py]

    The program reads a CSV export into a pandas DataFrame, splits it into
    first occurrences and duplicates of the [ids] column, normalises the
    fields of both parts, inserts them into two database tables and writes
    the duplicates to a CSV file and the clean rows to a JSON file.

    The development has these parts:
    - [Py]: the Python built-ins the program calls (string methods,
      [datetime.strptime] and [strftime], [str], [int]);
    - [Pd]: the pandas objects and operations it calls (Series, DataFrame,
      [isna], [duplicated], [to_numeric], [astype], [apply], ...);
    - [DataCleaner]: the methods of the class of that name, one definition
      per method, in the order of the source;
    - [Spec]: the notions the statements are written with, and example
      frames and collaborators;
    - the lemmas and theorems, by method. *)

From Stdlib Require Import ZArith Ascii String List Bool Lia.
From Stdlib Require Import Floats.SpecFloat.
From stdpp Require Import base option list gmap strings.

Local Open Scope string_scope.
Local Open Scope Z_scope.

(* ===================================================================== *)
(** * Python built-ins *)
(* ===================================================================== *)

Module Py.

(** A Python [str] is modelled as a [string] of one-byte characters, read as
    the code points 0..255. *)

(** ** Exceptions *)

Inductive exn :=
| KeyError (key : string)
| ValueError
| TypeError
| AttributeError
| OverflowError
| IntCastingNaNError
| OperationalError
| OSError.

Inductive result (A : Type) :=
| Ok (a : A)
| Raise (e : exn).
Arguments Ok {A} a.
Arguments Raise {A} e.

Definition bind {A B} (r : result A) (k : A -> result B) : result B :=
  match r with
  | Ok a => k a
  | Raise e => Raise e
  end.

Fixpoint mapM {A B} (f : A -> result B) (l : list A) : result (list B) :=
  match l with
  | [] => Ok []
  | x :: l' => bind (f x) (fun y => bind (mapM f l') (fun ys => Ok (y :: ys)))
  end.

(** ** Characters *)

Definition code (c : ascii) : Z := Z.of_nat (nat_of_ascii c).

(** [str.isspace] on the code points below 256: tab, line feed, vertical
    tab, form feed, carriage return, the four separators 28..31, space,
    next-line (133) and no-break space (160). *)
Definition isspace (c : ascii) : bool :=
  let n := code c in
  ((9 <=? n) && (n <=? 13)) || ((28 <=? n) && (n <=? 32)) || (n =? 133) || (n =? 160).

(** The regular expression class [\d] on the code points below 256. *)
Definition isdigit (c : ascii) : bool :=
  let n := code c in (48 <=? n) && (n <=? 57).

Definition islower_ascii (c : ascii) : bool :=
  let n := code c in (97 <=? n) && (n <=? 122).

(** The ASCII letters made capitals, as a comparison without regard to
    case of an ASCII word does. *)
Definition upper_ascii_char (c : ascii) : ascii :=
  if islower_ascii c then ascii_of_nat (nat_of_ascii c - 32) else c.

Fixpoint upper_ascii (s : string) : string :=
  match s with
  | EmptyString => EmptyString
  | String c r => String (upper_ascii_char c) (upper_ascii r)
  end.

(** [str.upper] on one character, on the code points below 256: the letters
    [a]..[z] and the accented letters 224..254 (the division sign 247
    apart) lose 32, the sharp s (223) becomes [SS]. The capitals of the
    micro sign (181) and of the y with diaeresis (255) lie above 255 and
    cannot be written here: these two characters are left as they are. *)
Definition upper_char (c : ascii) : string :=
  let n := code c in
  if ((97 <=? n) && (n <=? 122)) || ((224 <=? n) && (n <=? 254) && negb (n =? 247))
  then String (ascii_of_nat (nat_of_ascii c - 32)) EmptyString
  else if n =? 223 then String "S" (String "S" EmptyString)
  else String c EmptyString.

(** ** String methods *)

Fixpoint upper (s : string) : string :=
  match s with
  | EmptyString => EmptyString
  | String c r => upper_char c ++ upper r
  end.

Fixpoint lstrip_by (p : ascii -> bool) (s : string) : string :=
  match s with
  | EmptyString => EmptyString
  | String c r => if p c then lstrip_by p r else s
  end.

Fixpoint rstrip_by (p : ascii -> bool) (s : string) : string :=
  match s with
  | EmptyString => EmptyString
  | String c r =>
      match rstrip_by p r with
      | EmptyString => if p c then EmptyString else String c EmptyString
      | r' => String c r'
      end
  end.

Definition strip_by (p : ascii -> bool) (s : string) : string :=
  lstrip_by p (rstrip_by p s).

(** [s.strip()]: every leading and trailing whitespace character goes. *)
Definition strip (s : string) : string := strip_by isspace s.

Fixpoint mem_char (c : ascii) (chars : string) : bool :=
  match chars with
  | EmptyString => false
  | String d r => Ascii.eqb c d || mem_char c r
  end.

(** [s.strip(chars)]: every leading and trailing character that is one of
    [chars] goes. *)
Definition strip_chars (chars : string) (s : string) : string :=
  strip_by (fun c => mem_char c chars) s.

(** [s.replace(c, '')] for a one-character [c]. *)
Fixpoint remove_char (c : ascii) (s : string) : string :=
  match s with
  | EmptyString => EmptyString
  | String d r => if Ascii.eqb d c then remove_char c r else String d (remove_char c r)
  end.

(** [s.split(sep)] for a one-character separator. *)
Fixpoint split (sep : ascii) (s : string) : list string :=
  match s with
  | EmptyString => [EmptyString]
  | String c r =>
      if Ascii.eqb c sep then EmptyString :: split sep r
      else match split sep r with
           | h :: t => String c h :: t
           | [] => [String c EmptyString]
           end
  end.

(** Truth value of a string: non-empty. *)
Definition nonempty (s : string) : bool :=
  match s with
  | EmptyString => false
  | String _ _ => true
  end.

(** ** Decimal numerals *)

Definition digit_char (n : Z) : ascii := ascii_of_nat (48 + Z.to_nat n).

Definition digit_val (c : ascii) : Z := code c - 48.

(** [str(n)] of a non-negative [int], least significant digit last, by
    repeated division; [fuel] bounds the number of digits. *)
Fixpoint digits_of (fuel : nat) (n : Z) (acc : string) : string :=
  match fuel with
  | O => acc
  | S fuel' =>
      let acc' := String (digit_char (n mod 10)) acc in
      if n / 10 =? 0 then acc' else digits_of fuel' (n / 10) acc'
  end.

Definition str_of_nonneg (n : Z) : string :=
  digits_of (S (Z.to_nat (Z.log2 n))) n EmptyString.

(** [str(n)] of an [int]. *)
Definition str_of_int (n : Z) : string :=
  if n <? 0 then String "-" (str_of_nonneg (- n)) else str_of_nonneg n.

(** [int(s)] of a string of ASCII digits in which blanks are skipped, as in
    [int(' 5')]. *)
Fixpoint int_of_digits (acc : Z) (s : string) : Z :=
  match s with
  | EmptyString => acc
  | String c r => if isdigit c then int_of_digits (10 * acc + digit_val c) r else int_of_digits acc r
  end.

(** ** Dates: [datetime.strptime] and [strftime] *)

Record date := Date { year : Z; month : Z; day : Z }.

Definition is_leap (y : Z) : bool :=
  ((y mod 4 =? 0) && negb (y mod 100 =? 0)) || (y mod 400 =? 0).

Definition days_in_month (y m : Z) : Z :=
  if m =? 2 then (if is_leap y then 29 else 28)
  else if (m =? 4) || (m =? 6) || (m =? 9) || (m =? 11) then 30
  else 31.

(** The check the [datetime] constructor makes: year in 1..9999, month in
    1..12, day within the month. *)
Definition valid_date (d : date) : bool :=
  (1 <=? year d) && (year d <=? 9999) &&
  (1 <=? month d) && (month d <=? 12) &&
  (1 <=? day d) && (day d <=? days_in_month (year d) (month d)).

(** A character class, and a regular-expression alternative as the sequence
    of classes it matches. *)
Definition cls := ascii -> bool.

Definition one (c : ascii) : cls := fun x => Ascii.eqb x c.
Definition range (lo hi : ascii) : cls := fun x => (code lo <=? code x) && (code x <=? code hi).

Inductive field := FDay | FMonth | FYear.

(** The regular expressions [_strptime] compiles the directives to:
    [%d] is [3[0-1]|[1-2]\d|0[1-9]|[1-9]| [1-9]], [%m] is
    [1[0-2]|0[1-9]|[1-9]] and [%Y] is [\d\d\d\d], alternatives in this
    order. *)
Definition alternatives (f : field) : list (list cls) :=
  match f with
  | FDay => [ [one "3"; range "0" "1"]; [range "1" "2"; isdigit]; [one "0"; range "1" "9"];
              [range "1" "9"]; [one " "; range "1" "9"] ]
  | FMonth => [ [one "1"; range "0" "2"]; [one "0"; range "1" "9"]; [range "1" "9"] ]
  | FYear => [ [isdigit; isdigit; isdigit; isdigit] ]
  end.

Inductive tok :=
| Lit (c : ascii)
| Dir (f : field).

(** A format string as a token sequence. Only the directives the program
    uses are known; any other character after [%] is taken literally. *)
Fixpoint compile_format (fmt : string) : list tok :=
  match fmt with
  | EmptyString => []
  | String "%" (String "d" r) => Dir FDay :: compile_format r
  | String "%" (String "m" r) => Dir FMonth :: compile_format r
  | String "%" (String "Y" r) => Dir FYear :: compile_format r
  | String c r => Lit c :: compile_format r
  end.

(** One alternative against the front of [s]: the matched text and the
    rest. *)
Fixpoint match_alt (a : list cls) (s : string) : option (string * string) :=
  match a with
  | [] => Some (EmptyString, s)
  | p :: a' =>
      match s with
      | EmptyString => None
      | String c r =>
          if p c then
            match match_alt a' r with
            | Some (txt, rest) => Some (String c txt, rest)
            | None => None
            end
          else None
      end
  end.

(** [re.match] of the compiled format: a backtracking match from the start
    of [s], alternatives tried from left to right, the first overall match
    wins. The result is the text of each group and the unmatched rest. *)
Fixpoint match_toks (ts : list tok) (s : string) : option (list (field * string) * string) :=
  match ts with
  | [] => Some ([], s)
  | Lit c :: ts' =>
      match s with
      | EmptyString => None
      | String c' r => if Ascii.eqb c' c then match_toks ts' r else None
      end
  | Dir f :: ts' =>
      (fix try (alts : list (list cls)) : option (list (field * string) * string) :=
         match alts with
         | [] => None
         | a :: alts' =>
             match match_alt a s with
             | Some (txt, rest) =>
                 match match_toks ts' rest with
                 | Some (groups, r) => Some ((f, txt) :: groups, r)
                 | None => try alts'
                 end
             | None => try alts'
             end
         end) (alternatives f)
  end.

Definition field_eqb (f g : field) : bool :=
  match f, g with
  | FDay, FDay | FMonth, FMonth | FYear, FYear => true
  | _, _ => false
  end.

Fixpoint group (f : field) (groups : list (field * string)) : option Z :=
  match groups with
  | [] => None
  | (g, txt) :: rest => if field_eqb f g then Some (int_of_digits 0 txt) else group f rest
  end.

(** [datetime.strptime(s, fmt)], the date part: [None] stands for the
    [ValueError] raised when the text does not match, when unconverted data
    remains after the match, or when the date does not exist. A directive
    missing from the format takes its default (1900-01-01). *)
Definition strptime (s fmt : string) : option date :=
  match match_toks (compile_format fmt) s with
  | Some (groups, EmptyString) =>
      let d := {| year := default 1900 (group FYear groups);
                  month := default 1 (group FMonth groups);
                  day := default 1 (group FDay groups) |} in
      if valid_date d then Some d else None
  | _ => None
  end.

Definition pad2 (n : Z) : string :=
  String (digit_char (n / 10 mod 10)) (String (digit_char (n mod 10)) EmptyString).

Definition pad4 (n : Z) : string :=
  String (digit_char (n / 1000 mod 10)) (String (digit_char (n / 100 mod 10)) (pad2 n)).

End Py.

(* ===================================================================== *)
(** * pandas *)
(* ===================================================================== *)

Module Pd.
Import Py.

(** ** Cell values *)

(** A float64 is a [spec_float] of the binary64 format. *)
Definition float := spec_float.

Definition nan : float := S754_nan.

Definition is_nan (f : float) : bool :=
  match f with
  | S754_nan => true
  | _ => false
  end.

Definition is_finite (f : float) : bool :=
  match f with
  | S754_zero _ | S754_finite _ _ _ => true
  | _ => false
  end.

(** The float64 nearest to an integer (ties to even), as in the conversion
    of an int64 to a float64. *)
Definition float_of_Z (n : Z) : float := binary_normalize 53 1024 n 0 false.

(** The integer part of a finite float, rounded toward zero. *)
Definition trunc (f : float) : Z :=
  match f with
  | S754_finite s m e =>
      let a := if 0 <=? e then Z.pos m * 2 ^ e else Z.pos m / 2 ^ (- e) in
      if s then - a else a
  | _ => 0
  end.

(** Whether the float [f] and the integer [n] are the same number. *)
Definition float_eq_Z (f : float) (n : Z) : bool :=
  match f with
  | S754_zero _ => n =? 0
  | S754_finite s m e =>
      let a := if s then Z.neg m else Z.pos m in
      if 0 <=? e then a * 2 ^ e =? n else a =? n * 2 ^ (- e)
  | _ => false
  end.

(** What a cell of a DataFrame, or a value handed to one of the methods,
    can be: [None], a [str], an integer, a float (a missing CSV cell is the
    float NaN) or a list of strings (what [_parse_array] returns). Boolean
    and datetime cells are not modelled. *)
Inductive value :=
| VNone
| VStr (s : string)
| VInt (n : Z)
| VFloat (f : float)
| VList (l : list string).

Definition NaN : value := VFloat nan.

Inductive Timestamp :=
| NaT
| Stamp (d : date).

(** ** What the source does not determine

    The behaviour of the libraries and of the platform that the program
    relies on and that is taken as given here. *)
Class Runtime := {
  (** [repr] of a float that is not NaN, as in [str(2019.0) = '2019.0']. *)
  repr_float : float -> string;
  (** [repr] of a list of strings, as in [str(['a', 'b'])]. *)
  repr_list : list string -> string;
  (** The float pandas reads from a decimal numeral that is not an int64
      numeral (it has a fraction, an exponent or too many digits); NaN when
      the conversion gives up. *)
  parse_decimal : string -> float;
  (** The int64 a cast gives for a finite float64 outside the int64 range. *)
  int64_of_huge : float -> Z;
  (** The truth value numpy gives an empty array: [Some false] with a
      deprecation warning, or an error ([None]) from numpy 2.2 on. *)
  empty_array_truth : option bool;
  (** [pd.to_datetime(s, dayfirst=True)] on a string: a timestamp, [NaT], or
      an exception. *)
  to_datetime : string -> result Timestamp;
  (** What [strftime('%Y')] writes for a year below 1000: the C library
      and the version of Python decide whether zeros are put before the
      digits (Python 3.11 on glibc writes [999], others write [0999]). *)
  short_year : Z -> string;
  (** What [pd.to_numeric(s, errors='coerce').fillna(0).astype(int)] gives
      for an object column that holds an integer beyond int64 which the
      converter keeps as an integer (the cells are given): pandas then works
      with a uint64 array, whose cast wraps around, or gives the column back
      unconverted, by rules that are not modelled. The column keeps its
      length. *)
  coerce_wide : list value -> result (list Z);
  coerce_wide_length : forall xs ns, coerce_wide xs = Ok ns -> length ns = length xs;
}.

Section WithRuntime.
Context {rt : Runtime}.

(** [%Y] as [strftime] writes it: the four digits of a year from 1000 on
    (a date has no year above 9999). *)
Definition strftime_year (y : Z) : string :=
  if 1000 <=? y then pad4 y else short_year y.

(** [d.strftime('%Y-%m-%d')]. *)
Definition strftime_iso (d : date) : string :=
  strftime_year (year d) ++ "-" ++ pad2 (month d) ++ "-" ++ pad2 (day d).

(** [str(v)]. *)
Definition py_str (v : value) : string :=
  match v with
  | VNone => "None"
  | VStr s => s
  | VInt n => str_of_int n
  | VFloat f => if is_nan f then "nan" else repr_float f
  | VList l => repr_list l
  end.

(** [isinstance(v, str)] and [isinstance(v, list)]. *)
Definition is_str (v : value) : bool :=
  match v with
  | VStr _ => true
  | _ => false
  end.

Definition is_list (v : value) : bool :=
  match v with
  | VList _ => true
  | _ => false
  end.

(** [v == s] for a string [s]. *)
Definition eq_str (v : value) (s : string) : bool :=
  match v with
  | VStr s' => String.eqb s' s
  | _ => false
  end.

(** [pd.isna] answers with one boolean for a scalar and with an array of
    booleans, one per element, for a list. *)
Inductive truth :=
| Scalar (b : bool)
| Array (bs : list bool).

Definition isna (v : value) : truth :=
  match v with
  | VNone => Scalar true
  | VFloat f => Scalar (is_nan f)
  | VStr _ | VInt _ => Scalar false
  | VList l => Array (map (fun _ => false) l)
  end.

Definition notna (v : value) : truth :=
  match isna v with
  | Scalar b => Scalar (negb b)
  | Array bs => Array (map negb bs)
  end.

(** The truth value of such an answer where the program tests it in an [if]:
    an array of two or more elements has none ([ValueError]). *)
Definition truthy (t : truth) : result bool :=
  match t with
  | Scalar b => Ok b
  | Array [] =>
      match empty_array_truth with
      | Some b => Ok b
      | None => Raise ValueError
      end
  | Array [b] => Ok b
  | Array _ => Raise ValueError
  end.

(** ** Numerals, as [to_numeric] reads them *)

Inductive num :=
| NInt (n : Z)
| NFloat (f : float).

Definition isspace_ascii (c : ascii) : bool :=
  let n := code c in (n =? 32) || ((9 <=? n) && (n <=? 13)).

Fixpoint span (p : ascii -> bool) (s : string) : string * string :=
  match s with
  | EmptyString => (EmptyString, EmptyString)
  | String c r =>
      if p c then let (a, b) := span p r in (String c a, b)
      else (EmptyString, s)
  end.

Definition take_sign (s : string) : bool * string :=
  match s with
  | String "-" r => (true, r)
  | String "+" r => (false, r)
  | _ => (false, s)
  end.

Record numeral := { neg : bool; int_digits : string; is_int : bool }.

(** The shape of a decimal numeral: blanks, a sign, digits, a fraction, an
    exponent, blanks, with at least one digit before the exponent and at
    least one in it. [is_int] says that there is neither a fraction point
    nor an exponent. *)
Definition scan_numeral (s : string) : option numeral :=
  let (sg, s1) := take_sign (lstrip_by isspace_ascii s) in
  let (ds, s2) := span isdigit s1 in
  let '(point, fs, s3) :=
    match s2 with
    | String "." r => let (fs, r') := span isdigit r in (true, fs, r')
    | _ => (false, EmptyString, s2)
    end in
  if negb (nonempty ds || nonempty fs) then None else
  let '(expo, s4) :=
    match s3 with
    | String c r =>
        if Ascii.eqb c "e" || Ascii.eqb c "E" then
          let (es, r') := span isdigit (snd (take_sign r)) in
          if nonempty es then (true, r') else (false, s3)
        else (false, s3)
    | EmptyString => (false, s3)
    end in
  match lstrip_by isspace_ascii s4 with
  | EmptyString => Some {| neg := sg; int_digits := ds; is_int := negb point && negb expo |}
  | _ => None
  end.

Definition in_int64 (n : Z) : bool := (- 2 ^ 63 <=? n) && (n <? 2 ^ 63).

(** The spellings of the infinities and of NaN that are read when the
    numeral scan fails, compared without regard to case. *)
Definition special_float (s : string) : option float :=
  let u := upper_ascii s in
  if String.eqb u "NAN" || String.eqb u "-NAN" || String.eqb u "+NAN" then Some nan
  else if String.eqb u "INF" || String.eqb u "+INF" || String.eqb u "INFINITY" || String.eqb u "+INFINITY"
  then Some (S754_infinity false)
  else if String.eqb u "-INF" || String.eqb u "-INFINITY" then Some (S754_infinity true)
  else None.

(** One string under [errors='coerce']: an int64 numeral gives the integer,
    any other numeral a float, everything else NaN. (A numeral from 2^63 to
    2^64 - 1 is kept by pandas as an unsigned integer; a column with such a
    cell is not read this way, see [wide_cell] and [coerce_integer].) *)
Definition parse_number (s : string) : num :=
  match scan_numeral s with
  | Some nm =>
      let n := int_of_digits 0 (int_digits nm) in
      let n := if neg nm then - n else n in
      if is_int nm && in_int64 n then NInt n else NFloat (parse_decimal s)
  | None =>
      match special_float s with
      | Some f => NFloat f
      | None => NFloat nan
      end
  end.

(** A cell that holds an integer outside the int64 range which the
    converter does not read as a float: a numeral of the uint64 range beyond
    int64, or a Python [int] that is no int64. *)
Definition wide_cell (v : value) : bool :=
  match v with
  | VStr s =>
      match scan_numeral s with
      | Some nm =>
          let n := int_of_digits 0 (int_digits nm) in
          is_int nm && negb (neg nm) && (2 ^ 63 <=? n) && (n <? 2 ^ 64)
      | None => false
      end
  | VInt n => negb (in_int64 n)
  | _ => false
  end.

Definition to_numeric_cell (v : value) : num :=
  match v with
  | VNone => NFloat nan
  | VStr s => parse_number s
  | VInt n => NInt n
  | VFloat f => NFloat f
  | VList _ => NFloat nan
  end.

Definition is_NInt (x : num) : bool :=
  match x with
  | NInt _ => true
  | NFloat _ => false
  end.

Definition num_int (x : num) : Z :=
  match x with
  | NInt n => n
  | NFloat f => trunc f
  end.

Definition num_float (x : num) : float :=
  match x with
  | NInt n => float_of_Z n
  | NFloat f => f
  end.

(** [int(v)]. (Underscores between the digits of a string, which [int]
    accepts, are not modelled.) *)
Definition py_int (v : value) : result Z :=
  match v with
  | VInt n => Ok n
  | VFloat f =>
      if is_nan f then Raise ValueError
      else if is_finite f then Ok (trunc f) else Raise OverflowError
  | VStr s =>
      match scan_numeral (strip s) with
      | Some nm =>
          if is_int nm then
            let n := int_of_digits 0 (int_digits nm) in Ok (if neg nm then - n else n)
          else Raise ValueError
      | None => Raise ValueError
      end
  | VNone | VList _ => Raise TypeError
  end.

(** ** Series *)

(** A column with its dtype: int64, float64 or object. *)
Inductive Series :=
| Int64 (xs : list Z)
| Float64 (xs : list float)
| Object (xs : list value).

Definition values (s : Series) : list value :=
  match s with
  | Int64 xs => map VInt xs
  | Float64 xs => map VFloat xs
  | Object xs => xs
  end.

Definition series_len (s : Series) : nat := length (values s).

(** Selection by a boolean mask: the elements whose mask bit is set. *)
Fixpoint select {A} (mask : list bool) (l : list A) : list A :=
  match mask, l with
  | b :: mask', x :: l' => if b then x :: select mask' l' else select mask' l'
  | _, _ => []
  end.

Definition series_select (mask : list bool) (s : Series) : Series :=
  match s with
  | Int64 xs => Int64 (select mask xs)
  | Float64 xs => Float64 (select mask xs)
  | Object xs => Object (select mask xs)
  end.

(** [s.apply(f)] for an [f] that returns [None], strings or lists: the
    results in an object column; an empty Series is returned as it is,
    without a call of [f]. An exception of [f] leaves [apply]. *)
Definition apply (f : value -> result value) (s : Series) : result Series :=
  match values s with
  | [] => Ok s
  | vs => bind (mapM f vs) (fun ws => Ok (Object ws))
  end.

(** One cell under [.str.upper()]: a string is upper-cased, a missing value
    stays, anything else becomes NaN. *)
Definition upper_cell (v : value) : value :=
  match v with
  | VStr s => VStr (upper s)
  | VNone => VNone
  | _ => NaN
  end.

Definition is_null (v : value) : bool :=
  match v with
  | VNone => true
  | VFloat f => is_nan f
  | _ => false
  end.

Definition is_number (v : value) : bool :=
  match v with
  | VInt _ => true
  | VFloat f => negb (is_nan f)
  | _ => false
  end.

(** The object columns the [.str] accessor refuses: those whose values, the
    missing ones apart, are numbers and nothing else (with a string or a
    list among them, or with no value at all, the accessor is there). *)
Definition numbers_only (xs : list value) : bool :=
  existsb is_number xs && forallb (fun v => is_null v || is_number v) xs.

(** [s.str.upper()]: the [.str] accessor exists on an object column that
    does not hold numbers only. *)
Definition str_upper (s : Series) : result Series :=
  match s with
  | Object xs => if numbers_only xs then Raise AttributeError else Ok (Object (map upper_cell xs))
  | Int64 _ | Float64 _ => Raise AttributeError
  end.

(** [pd.to_numeric(s, errors='coerce')]: a numeric column is returned as it
    is; an object column becomes int64 when every cell is an integer and
    float64, the integers rounded to floats, as soon as one cell is a float
    or cannot be read. *)
Definition to_numeric (s : Series) : Series :=
  match s with
  | Int64 _ | Float64 _ => s
  | Object xs =>
      let ns := map to_numeric_cell xs in
      if forallb is_NInt ns then Int64 (map num_int ns) else Float64 (map num_float ns)
  end.

Definition fill_float (f : float) : float := if is_nan f then S754_zero false else f.

Definition fill_value (v : value) : value :=
  match v with
  | VNone => VInt 0
  | VFloat f => if is_nan f then VInt 0 else v
  | _ => v
  end.

(** [s.fillna(0)]. *)
Definition fillna0 (s : Series) : Series :=
  match s with
  | Int64 _ => s
  | Float64 xs => Float64 (map fill_float xs)
  | Object xs => Object (map fill_value xs)
  end.

Definition int64_of_float (f : float) : Z :=
  let n := trunc f in if in_int64 n then n else int64_of_huge f.

(** [s.astype(int)]: the floats are truncated, and a float column with a NaN
    or an infinity in it is refused. *)
Definition astype_int (s : Series) : result Series :=
  match s with
  | Int64 _ => Ok s
  | Float64 xs =>
      if forallb is_finite xs then Ok (Int64 (map int64_of_float xs))
      else Raise IntCastingNaNError
  | Object xs => bind (mapM py_int xs) (fun ns => Ok (Int64 ns))
  end.

(** [s.astype(str)]. *)
Definition astype_str (s : Series) : Series :=
  Object (map (fun v => VStr (py_str v)) (values s)).

(** [s.replace(a, b)] for strings [a] and [b]: the cells equal to [a]. *)
Definition replace (a b : string) (s : Series) : Series :=
  match s with
  | Object xs => Object (map (fun v => if eq_str v a then VStr b else v) xs)
  | Int64 _ | Float64 _ => s
  end.

(** ** DataFrame *)

(** The row labels and the columns in their order. *)
Record DataFrame := { index : list nat; columns : list (string * Series) }.

Definition column_names (df : DataFrame) : list string := map fst (columns df).

(** [col in df.columns]. *)
Definition has_column (col : string) (df : DataFrame) : bool :=
  existsb (String.eqb col) (column_names df).

Fixpoint lookup_column (col : string) (cols : list (string * Series)) : option Series :=
  match cols with
  | [] => None
  | (c, s) :: rest => if String.eqb c col then Some s else lookup_column col rest
  end.

(** [df[col]]. *)
Definition getitem (df : DataFrame) (col : string) : result Series :=
  match lookup_column col (columns df) with
  | Some s => Ok s
  | None => Raise (KeyError col)
  end.

Fixpoint set_column (col : string) (s : Series) (cols : list (string * Series)) : list (string * Series) :=
  match cols with
  | [] => [(col, s)]
  | (c, s') :: rest => if String.eqb c col then (c, s) :: rest else (c, s') :: set_column col s rest
  end.

(** [df[col] = s]: the column is replaced where it stands, or added last. *)
Definition setitem (df : DataFrame) (col : string) (s : Series) : DataFrame :=
  {| index := index df; columns := set_column col s (columns df) |}.

(** [df[mask]] for a boolean mask. *)
Definition getitem_mask (df : DataFrame) (mask : list bool) : DataFrame :=
  {| index := select mask (index df);
     columns := map (fun cs => (fst cs, series_select mask (snd cs))) (columns df) |}.

(** [len(df)] and [df.empty]. *)
Definition len (df : DataFrame) : nat := length (index df).

Definition empty (df : DataFrame) : bool :=
  (Nat.eqb (len df) 0) || (Nat.eqb (length (columns df)) 0).

(** Equality of two keys in the hash table of [duplicated]: missing values
    are equal to each other, an integer and a float are equal when they are
    the same number. (A list is no key of a hash table; lists never stand in
    the [ids] column, and are compared as values here.) *)
Definition key_eqb (a b : value) : bool :=
  match a, b with
  | VNone, VNone => true
  | VStr s, VStr t => String.eqb s t
  | VInt m, VInt n => m =? n
  | VFloat f, VFloat g => (is_nan f && is_nan g) || SFeqb f g
  | VInt n, VFloat f | VFloat f, VInt n => float_eq_Z f n
  | VList l, VList k => bool_decide (l = k)
  | _, _ => false
  end.

(** The mask of [duplicated(keep='first')] over a key column, scanned in
    order: a row is marked when its key was seen in an earlier row. *)
Fixpoint duplicated_from (seen : list value) (keys : list value) : list bool :=
  match keys with
  | [] => []
  | k :: keys' => existsb (key_eqb k) seen :: duplicated_from (k :: seen) keys'
  end.

(** [df.duplicated(subset=[col], keep='first')]. *)
Definition duplicated (df : DataFrame) (col : string) : result (list bool) :=
  bind (getitem df col) (fun s => Ok (duplicated_from [] (values s))).

(** A row as [iterrows] yields it: the cells by column name. *)
Definition row := list (string * value).

Definition is_numeric (s : Series) : bool :=
  match s with
  | Object _ => false
  | Int64 _ | Float64 _ => true
  end.

Definition is_float64 (s : Series) : bool :=
  match s with
  | Float64 _ => true
  | _ => false
  end.

(** The cells of a column as the rows carry them: a frame whose columns are
    all numeric, one of them float64, hands its integers out as floats. *)
Definition row_values (df : DataFrame) (s : Series) : list value :=
  match s with
  | Int64 xs =>
      if forallb (fun cs => is_numeric (snd cs)) (columns df)
         && existsb (fun cs => is_float64 (snd cs)) (columns df)
      then map (fun n => VFloat (float_of_Z n)) xs
      else map VInt xs
  | _ => values s
  end.

Definition row_at (df : DataFrame) (i : nat) : row :=
  map (fun cs => (fst cs, default VNone (row_values df (snd cs) !! i))) (columns df).

(** [df.iterrows()]: the label and the row, in index order. *)
Definition iterrows (df : DataFrame) : list (nat * row) :=
  imap (fun i lbl => (lbl, row_at df i)) (index df).

(** [row[col]]. *)
Fixpoint row_get (r : row) (col : string) : result value :=
  match r with
  | [] => Raise (KeyError col)
  | (c, v) :: rest => if String.eqb c col then Ok v else row_get rest col
  end.

(** A frame is well formed when its labels are distinct, its column names
    are distinct and every column has one cell per label. *)
Definition wf (df : DataFrame) : Prop :=
  NoDup (index df) /\ NoDup (column_names df) /\
  Forall (fun cs => series_len (snd cs) = length (index df)) (columns df).

End WithRuntime.

End Pd.

(* ===================================================================== *)
(** * The program: class [DataCleaner] *)
(* ===================================================================== *)

Module DataCleaner.
Import Py Pd.

(** ** The world the methods act on *)

(** An [INSERT] statement as [insert_to_database] builds it. *)
Record statement := { table : string; stmt_columns : list string; stmt_values : list value }.

(** A JSON value of the export. *)
Inductive json :=
| JStr (s : string)
| JInt (n : Z)
| JArr (l : list string).

(** The content of a file the program writes: a CSV file by its header and
    rows, the JSON file by its [row_count] and [data]. *)
Inductive file :=
| CsvFile (header : list string) (rows : list (list value))
| JsonFile (row_count : nat) (data : list (list (string * json))).

(** The collaborators: the database server, the file system. *)
Record Env := {
  (** whether the [n]-th call of [psycopg2.connect] of the run succeeds *)
  connect : nat -> bool;
  (** whether the store accepts a statement, given those it accepted *)
  execute : list statement -> statement -> bool;
  (** [SELECT COUNT( * )] on a table; [None] when the query fails *)
  select_count : list statement -> string -> option Z;
  (** [conn.cursor()], [conn.commit()], [cursor.close()] and [conn.close()]:
      the exception the call raises, if any *)
  open_cursor : list statement -> option exn;
  commit : list statement -> option exn;
  close_cursor : list statement -> option exn;
  close_connection : list statement -> option exn;
  (** [pd.read_csv(path)]; [None] when it raises *)
  csv_source : string -> option DataFrame;
  (** whether the file at a path can be written *)
  writable : string -> bool;
}.

(** The attributes [__init__] sets (the connection settings play no part in
    what is modelled). *)
Record Self := { source_path : string; target_path : string; test_datetime : string }.

(** DataFrames are objects: a variable holds a reference into [heap], and an
    assignment to a column changes the object every holder sees. *)
Abbreviation loc := nat.

(** [store] holds the statements [cursor.execute] completed without an
    exception, in their order; what a transaction that is not committed
    leaves behind is the server's matter. *)
Record World := {
  heap : list DataFrame;
  connections : nat;
  store : list statement;
  files : list (string * file);
}.

Definition M (A : Type) : Type := World -> World * result A.

Definition ret {A} (a : A) : M A := fun w => (w, Ok a).

Definition raise {A} (e : exn) : M A := fun w => (w, Raise e).

Definition bindM {A B} (m : M A) (k : A -> M B) : M B :=
  fun w =>
    match m w with
    | (w', Ok a) => k a w'
    | (w', Raise e) => (w', Raise e)
    end.

Notation "'let*' x ':=' m 'in' k" := (bindM m (fun x => k))
  (at level 10, x name, m at level 100, k at level 200).
Notation "'do' m 'in' k" := (bindM m (fun _ => k))
  (at level 10, m at level 100, k at level 200).

Definition lift {A} (r : result A) : M A := fun w => (w, r).

(** [try: m except Exception: h]. *)
Definition catch {A} (m : M A) (h : exn -> M A) : M A :=
  fun w =>
    match m w with
    | (w', Ok a) => (w', Ok a)
    | (w', Raise e) => h e w'
    end.

Fixpoint for_each {A} (l : list A) (body : A -> M unit) : M unit :=
  match l with
  | [] => ret tt
  | x :: l' => do body x in for_each l' body
  end.

Definition set_heap (h : list DataFrame) (w : World) : World :=
  {| heap := h; connections := connections w; store := store w; files := files w |}.

(** A new DataFrame object. *)
Definition alloc (df : DataFrame) : M loc :=
  fun w => (set_heap (heap w ++ [df]) w, Ok (length (heap w))).

Definition deref (l : loc) : M DataFrame :=
  fun w =>
    match heap w !! l with
    | Some df => (w, Ok df)
    | None => (w, Raise (KeyError "dangling reference"))
    end.

Definition assign (l : loc) (df : DataFrame) : M unit :=
  fun w => (set_heap (<[l := df]> (heap w)) w, Ok tt).

(** [df.copy()]. *)
Definition copy (l : loc) : M loc := let* df := deref l in alloc df.

(** [df[mask]]: a new object. *)
Definition getitem_mask_obj (l : loc) (mask : list bool) : M loc :=
  let* df := deref l in alloc (getitem_mask df mask).

(** [os.path.join(dir, name)] for a relative [name]. *)
Fixpoint ends_with_slash (s : string) : bool :=
  match s with
  | EmptyString => false
  | String c EmptyString => Ascii.eqb c "/"
  | String _ r => ends_with_slash r
  end.

Definition path_join (dir name : string) : string :=
  if negb (nonempty dir) || ends_with_slash dir then dir ++ name else dir ++ "/" ++ name.

Section Methods.
Context {rt : Runtime} (env : Env) (self : Self).

(** ** [get_db_connection]

    Up to five attempts; the fifth failure is raised. The pause between
    attempts and the log lines are not modelled. *)
Definition try_connect : M bool :=
  fun w =>
    ({| heap := heap w; connections := S (connections w); store := store w; files := files w |},
     Ok (connect env (connections w))).

Fixpoint connect_loop (attempts : nat) : M unit :=
  match attempts with
  | O => raise OperationalError
  | S k =>
      let* ok := try_connect in
      if ok then ret tt
      else match k with
           | O => raise OperationalError
           | S _ => connect_loop k
           end
  end.

Definition max_retries : nat := 5.

Definition get_db_connection : M unit := connect_loop max_retries.

(** ** [read_csv] *)
Definition read_csv (filename : string) : M loc :=
  match csv_source env (path_join (source_path self) filename) with
  | Some df => alloc df
  | None => raise OSError
  end.

(** ** [clean_data]

    [duplicates_mask = df.duplicated(subset=['ids'], keep='first')], then
    [df[~duplicates_mask].copy()] and [df[duplicates_mask].copy()]. *)
Definition clean_data (df : loc) : M (loc * loc) :=
  let* d := deref df in
  let* duplicates_mask := lift (duplicated d "ids") in
  let* c0 := getitem_mask_obj df (map negb duplicates_mask) in
  let* clean_data := copy c0 in
  let* d0 := getitem_mask_obj df duplicates_mask in
  let* duplicate_data := copy d0 in
  ret (clean_data, duplicate_data).

(** ** [_parse_date] *)

Definition date_formats : list string :=
  [ "%d/%m/%Y"; "%m/%d/%Y"; "%Y-%m-%d"; "%d-%m-%Y"; "%Y/%m/%d"; "%d.%m.%Y"; "%Y%m%d" ].

(** The [for fmt in date_formats] loop: the first format that parses. *)
Fixpoint first_format (fmts : list string) (s : string) : option date :=
  match fmts with
  | [] => None
  | fmt :: rest =>
      match strptime s fmt with
      | Some d => Some d
      | None => first_format rest s
      end
  end.

(** [ts.strftime('%Y-%m-%d')]: [NaT] does not support it. *)
Definition timestamp_strftime (ts : Timestamp) : result string :=
  match ts with
  | NaT => Raise ValueError
  | Stamp d => Ok (strftime_iso d)
  end.

Definition _parse_date (date_str : value) : result value :=
  bind (truthy (isna date_str)) (fun na =>
  if na || eq_str date_str "" then Ok VNone
  else
    let date_str := strip (py_str date_str) in
    match first_format date_formats date_str with
    | Some parsed_date => Ok (VStr (strftime_iso parsed_date))
    | None =>
        match bind (to_datetime date_str) timestamp_strftime with
        | Ok s => Ok (VStr s)
        | Raise _ => Ok (VStr date_str)
        end
    end).

(** ** [_parse_array] *)

Definition quote : ascii := "'".
Definition dquote : ascii := ascii_of_nat 34.

Definition _parse_array (value : value) : result Pd.value :=
  bind (truthy (isna value)) (fun na =>
  if na || eq_str value "" then Ok (VList [])
  else
    match value with
    | VStr s =>
        let s := remove_char dquote (remove_char quote (strip_chars "[]" s)) in
        if nonempty s
        then Ok (VList (filter (fun item => nonempty item = true) (map strip (split "," s))))
        else Ok (VList [])
    | _ => Ok (VList [])
    end).

(** ** [transform_data] *)

(** [if col in df.columns: df[col] = f(df[col])] on the object at [l]. *)
Definition update_column (l : loc) (col : string) (f : Series -> result Series) : M unit :=
  let* df := deref l in
  if has_column col df then
    let* s := lift (getitem df col) in
    let* s' := lift (f s) in
    assign l (setitem df col s')
  else ret tt.

Definition numeric_columns : list string :=
  [ "monthly_listeners"; "popularity"; "followers"; "num_releases"; "num_tracks" ].

(** An object column that holds an integer beyond int64 which the
    converter keeps as an integer. *)
Definition has_wide (s : Series) : bool :=
  match s with
  | Object xs => existsb wide_cell xs
  | Int64 _ | Float64 _ => false
  end.

(** [pd.to_numeric(s, errors='coerce').fillna(0).astype(int)]; on a column
    for which [has_wide] holds the three calls give what the runtime says. *)
Definition coerce_integer (s : Series) : result Series :=
  if has_wide s then bind (coerce_wide (values s)) (fun ns => Ok (Int64 ns))
  else astype_int (fillna0 (to_numeric s)).

(** [s.astype(str).replace('nan', '').replace('None', '')]. *)
Definition blank_sentinels (s : Series) : result Series :=
  Ok (replace "None" "" (replace "nan" "" (astype_str s))).

Definition transform_data (df : loc) : M loc :=
  let* df_transformed := copy df in
  do update_column df_transformed "dates" (apply _parse_date) in
  do update_column df_transformed "names" str_upper in
  do for_each numeric_columns (fun col => update_column df_transformed col coerce_integer) in
  do for_each ["genres"; "feat_track_ids"] (fun col => update_column df_transformed col (apply _parse_array)) in
  do for_each ["first_release"; "last_release"] (fun col => update_column df_transformed col blank_sentinels) in
  ret df_transformed.

(** ** [insert_to_database] *)

Definition array_columns : list string := [ "genres"; "feat_track_ids" ].

Definition insert_value (cv : string * value) : value :=
  if existsb (String.eqb (fst cv)) array_columns
  then (if is_list (snd cv) then snd cv else VList [])
  else snd cv.

(** The statement for one row: its columns and values, the array columns
    made lists, and for a rejected row [reject_reason] last. *)
Definition insert_statement (table_name : string) (is_reject : bool) (r : row) : statement :=
  let columns := map fst r in
  let values := map insert_value r in
  {| table := table_name;
     stmt_columns := if is_reject then columns ++ ["reject_reason"] else columns;
     stmt_values := if is_reject then values ++ [VStr "Duplicate ID"] else values |}.

(** [cursor.execute] inside its [try]: a refused statement is counted and
    skipped. *)
Definition execute_insert (st : statement) : M unit :=
  fun w =>
    if execute env (store w) st
    then ({| heap := heap w; connections := connections w; store := store w ++ [st]; files := files w |}, Ok tt)
    else (w, Ok tt).

(** A call on the connection or on the cursor, outside the [try] of the
    rows: its exception leaves the method. *)
Definition db_call (outcome : list statement -> option exn) : M unit :=
  fun w =>
    match outcome (store w) with
    | None => (w, Ok tt)
    | Some e => (w, Raise e)
    end.

Definition insert_to_database (df : loc) (table_name : string) (is_reject : bool) : M unit :=
  do get_db_connection in
  do db_call (open_cursor env) in
  let* d := deref df in
  do for_each (iterrows d) (fun ir => execute_insert (insert_statement table_name is_reject (snd ir))) in
  do db_call (commit env) in
  do db_call (close_cursor env) in
  db_call (close_connection env).

(** ** [save_to_csv] *)

Definition write_file (path : string) (content : file) : M unit :=
  fun w =>
    if writable env path
    then ({| heap := heap w; connections := connections w; store := store w; files := files w ++ [(path, content)] |}, Ok tt)
    else (w, Raise OSError).

(** [df.to_csv(filepath, index=False)]: the header and the cells. *)
Definition csv_rows (d : DataFrame) : list (list value) :=
  imap (fun i _ => map (fun cs => default VNone (values (snd cs) !! i)) (columns d)) (index d).

Definition csv_of (d : DataFrame) : file := CsvFile (column_names d) (csv_rows d).

Definition save_to_csv (df : loc) (filename : string) : M unit :=
  let* d := deref df in
  write_file (path_join (target_path self) filename) (csv_of d).

(** ** [save_to_json] *)

(** [str(row[col]) if pd.notna(row[col]) else ""]. *)
Definition json_str_or_empty (r : row) (col : string) : result json :=
  bind (row_get r col) (fun v =>
  bind (truthy (notna v)) (fun present =>
  Ok (JStr (if present then py_str v else "")))).

(** [str(row[col])]. *)
Definition json_str (r : row) (col : string) : result json :=
  bind (row_get r col) (fun v => Ok (JStr (py_str v))).

(** [int(row[col]) if pd.notna(row[col]) else 0]. *)
Definition json_int (r : row) (col : string) : result json :=
  bind (row_get r col) (fun v =>
  bind (truthy (notna v)) (fun present =>
  if present then bind (py_int v) (fun n => Ok (JInt n)) else Ok (JInt 0))).

(** [row[col] if isinstance(row[col], list) else []]. *)
Definition json_array (r : row) (col : string) : result json :=
  bind (row_get r col) (fun v =>
  Ok (JArr match v with VList l => l | _ => [] end)).

(** [str(row[col]) if pd.notna(row[col]) and str(row[col]) not in
    ['nan', 'None', ''] else ""]. *)
Definition json_release (r : row) (col : string) : result json :=
  bind (row_get r col) (fun v =>
  bind (truthy (notna v)) (fun present =>
  let s := py_str v in
  Ok (JStr (if present && negb (existsb (String.eqb s) ["nan"; "None"; ""]) then s else "")))).

Definition json_fields : list (string * (row -> string -> result json)) :=
  [ ("dates", json_str_or_empty);
    ("ids", json_str);
    ("names", json_str);
    ("monthly_listeners", json_int);
    ("popularity", json_int);
    ("followers", json_int);
    ("genres", json_array);
    ("first_release", json_release);
    ("last_release", json_release);
    ("num_releases", json_int);
    ("num_tracks", json_int);
    ("playlists_found", json_str_or_empty);
    ("feat_track_ids", json_array) ].

(** The [record] dictionary of one row, its entries in the order written. *)
Definition json_record (r : row) : result (list (string * json)) :=
  mapM (fun kf => bind (snd kf r (fst kf)) (fun j => Ok (fst kf, j))) json_fields.

Definition save_to_json (df : loc) (filename : string) : M unit :=
  let* d := deref df in
  let* data_list := lift (mapM (fun ir => json_record (snd ir)) (iterrows d)) in
  write_file (path_join (target_path self) filename) (JsonFile (len d) data_list).

(** ** [get_table_count] *)
Definition get_table_count (table_name : string) : M Z :=
  catch (do get_db_connection in
         do db_call (open_cursor env) in
         let* count := (fun w => (w, match select_count env (store w) table_name with
                                     | Some n => Ok n
                                     | None => Raise OperationalError
                                     end)) in
         do db_call (close_cursor env) in
         do db_call (close_connection env) in
         ret count)
        (fun _ => ret 0).

(** ** [run] *)
Definition run : M unit :=
  let* df := read_csv "scrap.csv" in
  let* cd := clean_data df in
  let clean_data := fst cd in
  let duplicate_data := snd cd in
  let* clean_data_transformed := transform_data clean_data in
  let* duplicate_data_transformed := transform_data duplicate_data in
  let* c := deref clean_data_transformed in
  do (if negb (empty c) then insert_to_database clean_data_transformed "data" false else ret tt) in
  let* d := deref duplicate_data_transformed in
  do (if negb (empty d) then insert_to_database duplicate_data_transformed "data_reject" true else ret tt) in
  let csv_filename := "data_reject_" ++ test_datetime self ++ ".csv" in
  let* raw := deref duplicate_data in
  do (if negb (empty raw) then save_to_csv duplicate_data csv_filename else ret tt) in
  let json_filename := "data_" ++ test_datetime self ++ ".json" in
  do save_to_json clean_data_transformed json_filename in
  do get_table_count "data" in
  do get_table_count "data_reject" in
  ret tt.

End Methods.

End DataCleaner.

(* ===================================================================== *)
(** * Notions the statements use *)
(* ===================================================================== *)

Module Spec.
Import Py Pd DataCleaner.

Section Strip.
Variable p : ascii -> bool.

Fixpoint all_chars (s : string) : bool :=
  match s with
  | EmptyString => true
  | String c r => p c && all_chars r
  end.

Definition head_in (s : string) : bool :=
  match s with
  | EmptyString => false
  | String c _ => p c
  end.

Fixpoint last_in (s : string) : bool :=
  match s with
  | EmptyString => false
  | String c EmptyString => p c
  | String _ r => last_in r
  end.

End Strip.

#[global] Instance field_eq_dec : EqDecision field.
Proof. solve_decision. Defined.

(** The month and the day of an ISO date, written with two digits each, are
    matched as such and read back as the numbers they are. *)
Definition month_day_ok (m dd : Z) : bool :=
  bool_decide (match_toks [Lit "-"; Dir FMonth; Lit "-"; Dir FDay] ("-" ++ pad2 m ++ "-" ++ pad2 dd)
               = Some ([(FMonth, pad2 m); (FDay, pad2 dd)], ""))
  && (int_of_digits 0 (pad2 m) =? m) && (int_of_digits 0 (pad2 dd) =? dd).


(** The array parser as the specification words it: one leading [[] and one
    trailing []] are removed if present, all quote characters are removed,
    the rest is split at the commas, each piece is trimmed and the empty
    pieces are dropped. *)
Definition drop_leading (c : ascii) (s : string) : string :=
  match s with
  | EmptyString => EmptyString
  | String d r => if Ascii.eqb d c then r else s
  end.

Fixpoint drop_trailing (c : ascii) (s : string) : string :=
  match s with
  | EmptyString => EmptyString
  | String d EmptyString => if Ascii.eqb d c then EmptyString else s
  | String d r => String d (drop_trailing c r)
  end.

Definition remove_quotes (s : string) : string :=
  remove_char dquote (remove_char quote s).

Definition pieces (s : string) : list string :=
  filter (fun item => nonempty item = true) (map strip (split "," (remove_quotes s))).

Definition spec_parseDelimitedArray (s : string) : list string :=
  pieces (drop_trailing "]" (drop_leading "[" s)).

Definition is_bracket (c : ascii) : bool := mem_char c "[]".

(** The position of the [j]-th set bit of a mask. *)
Fixpoint pos (mask : list bool) (j : nat) : option nat :=
  match mask with
  | [] => None
  | b :: mask' =>
      if b then match j with
                | O => Some O
                | S j' => S <$> pos mask' j'
                end
      else S <$> pos mask' j
  end.

(** The key of row [i] occurred in an earlier row. *)
Definition seen_before (keys : list value) (i : nat) : Prop :=
  exists j kj ki, (j < i)%nat /\ keys !! j = Some kj /\ keys !! i = Some ki /\ key_eqb ki kj = true.

(** ** The frame [transform_data] builds

    [transform_data] works on a copy, one column after the other; the
    resulting frame is this function of the frame it is given. *)
Section Transform.
Context {rt : Runtime}.

(** [if col in df.columns: df[col] = f(df[col])] as a function of the
    frame. *)
Definition update_frame (col : string) (f : Series -> result Series) (df : DataFrame)
  : result DataFrame :=
  if has_column col df then
    bind (getitem df col) (fun s => bind (f s) (fun s' => Ok (setitem df col s')))
  else Ok df.

Fixpoint run_steps (steps : list (string * (Series -> result Series))) (df : DataFrame)
  : result DataFrame :=
  match steps with
  | [] => Ok df
  | (col, f) :: rest => bind (update_frame col f df) (run_steps rest)
  end.

(** The column updates of [transform_data], in its order. *)
Definition transform_steps : list (string * (Series -> result Series)) :=
  [("dates", apply _parse_date); ("names", str_upper)]
  ++ map (fun col => (col, coerce_integer)) numeric_columns
  ++ map (fun col => (col, apply _parse_array)) ["genres"; "feat_track_ids"]
  ++ map (fun col => (col, blank_sentinels)) ["first_release"; "last_release"].

Definition transform_frame (df : DataFrame) : result DataFrame :=
  run_steps transform_steps df.

(** The step a run of updates applies to a column, if any. *)
Fixpoint step_for (col : string) (steps : list (string * (Series -> result Series)))
  : option (Series -> result Series) :=
  match steps with
  | [] => None
  | (c, f) :: rest => if String.eqb c col then Some f else step_for col rest
  end.

(** One cell under [astype(str).replace('nan', '').replace('None', '')]. *)
Definition blank_cell (v : value) : value :=
  let t := py_str v in
  VStr (if String.eqb t "nan" then "" else if String.eqb t "None" then "" else t).

End Transform.

(** The integer of a cell that a uint64 array can hold. *)
Definition uint64_cell (v : value) : option Z :=
  match v with
  | VStr s =>
      match scan_numeral s with
      | Some nm =>
          let n := int_of_digits 0 (int_digits nm) in
          if is_int nm && negb (neg nm) && (n <? 2 ^ 64) then Some n else None
      | None => None
      end
  | VInt n => if (0 <=? n) && (n <? 2 ^ 64) then Some n else None
  | _ => None
  end.

(** The cast of a uint64 to int64 wraps around. *)
Definition wrap_uint64 (v : value) : Z :=
  match uint64_cell v with
  | Some n => if n <? 2 ^ 63 then n else n - 2 ^ 64
  | None => 0
  end.

(** A column of integers that all fit a uint64 array is cast cell by cell;
    any other column with an integer beyond int64 is given up on. *)
Definition example_coerce_wide (xs : list value) : result (list Z) :=
  if forallb (fun v => match uint64_cell v with Some _ => true | None => false end) xs
  then Ok (map wrap_uint64 xs)
  else Raise OverflowError.

Definition example_coerce_wide_length (xs : list value) (ns : list Z) :
  example_coerce_wide xs = Ok ns -> length ns = length xs :=
  match forallb (fun v => match uint64_cell v with Some _ => true | None => false end) xs as b
        return ((if b then Ok (map wrap_uint64 xs) else Raise OverflowError) = Ok ns ->
                length ns = length xs)
  with
  | true => fun H =>
      match H in (_ = r)
            return (match r with Ok ns' => length ns' = length xs | Raise _ => True end)
      with eq_refl => length_map wrap_uint64 xs end
  | false => fun H =>
      match H in (_ = r)
            return (match r with Ok _ => length ns = length xs | Raise _ => True end)
      with eq_refl => I end
  end.

(** A runtime to run the examples on. Its general-purpose date parser reads
    the empty string as [NaT], day-first dates written with blanks
    ([13 04 2024]) as dates when they lie in the years a timestamp can hold,
    and nothing else; floats print as integers with [.0] (right for the
    whole numbers of the examples), lists in single quotes; a numeral with a
    fraction or an exponent is given up on; a year below 1000 is written
    without zeros before it, as glibc does; a column of integers of the
    uint64 range is cast with wrap-around. *)
Definition example_runtime : Runtime :=
  {| repr_float := fun f =>
       if is_finite f then str_of_int (trunc f) ++ ".0"
       else match f with
            | S754_infinity true => "-inf"
            | _ => "inf"
            end;
     repr_list := fun l =>
       "[" ++ String.concat ", " (map (fun s => "'" ++ s ++ "'") l) ++ "]";
     parse_decimal := fun _ => nan;
     int64_of_huge := fun _ => - 2 ^ 63;
     empty_array_truth := Some false;
     to_datetime := fun s =>
       if String.eqb s "" then Ok NaT
       else match strptime s "%d %m %Y" with
            | Some d => if (1678 <=? year d) && (year d <=? 2261) then Ok (Stamp d)
                        else Raise ValueError
            | None => Raise ValueError
            end;
     short_year := str_of_int;
     coerce_wide := example_coerce_wide;
     coerce_wide_length := example_coerce_wide_length |}.

(** ** The files of a run *)


Definition json_path (self : Self) : string :=
  path_join (target_path self) ("data_" ++ test_datetime self ++ ".json").

(** ** The sinks of a run *)

(** Between two worlds: the DataFrame objects are the same, the store has
    accepted more statements, all of them in [P], and more files were
    written, all of them in [Q]. *)
Definition sinks_grow (P : statement -> Prop) (Q : string * file -> Prop) (w w' : World) : Prop :=
  heap w' = heap w /\
  exists sts fs, store w' = (store w ++ sts)%list /\ files w' = (files w ++ fs)%list /\ Forall P sts /\ Forall Q fs.

Section RunSinks.
Context {rt : Runtime} (env : Env) (self : Self).

(** The part of [run] after the two transformations. *)
Definition run_sinks (clean_data_transformed duplicate_data_transformed duplicate_data : loc) : M unit :=
  let* c := deref clean_data_transformed in
  do (if negb (empty c) then insert_to_database env clean_data_transformed "data" false else ret tt) in
  let* d := deref duplicate_data_transformed in
  do (if negb (empty d) then insert_to_database env duplicate_data_transformed "data_reject" true else ret tt) in
  let csv_filename := "data_reject_" ++ test_datetime self ++ ".csv" in
  let* raw := deref duplicate_data in
  do (if negb (empty raw) then save_to_csv env self duplicate_data csv_filename else ret tt) in
  let json_filename := "data_" ++ test_datetime self ++ ".json" in
  do save_to_json env self clean_data_transformed json_filename in
  do get_table_count env "data" in
  do get_table_count env "data_reject" in
  ret tt.

End RunSinks.



(** ** Example frames *)

(** A frame as [read_csv] gives it for a file of four rows with the ids 1,
    2, 1, 3: text columns are object columns with NaN for the empty cells,
    a numeric column is int64 when complete and float64 when a cell is
    empty. *)
Definition sample_frame : DataFrame :=
  {| index := [0; 1; 2; 3]%nat;
     columns :=
       [ ("dates", Object [VStr "13/04/2024"; VStr "2024-04-14"; VStr " 04/15/2024 "; NaN]);
         ("ids", Int64 [1; 2; 1; 3]);
         ("names", Object [VStr "Alice"; VStr "bob"; VStr "alice"; NaN]);
         ("monthly_listeners", Int64 [10; 20; 30; 40]);
         ("popularity", Float64 [float_of_Z 5; nan; float_of_Z 7; float_of_Z 8]);
         ("followers", Object [VStr "42"; VStr "abc"; VStr "43"; NaN]);
         ("genres", Object [VStr "[rock, 'pop']"; NaN; VStr "[rock]"; VStr "jazz"]);
         ("first_release", Object [VStr "2019"; NaN; VStr "2019"; VStr "unknown"]);
         ("last_release", Float64 [float_of_Z 2021; nan; float_of_Z 2021; float_of_Z 2023]);
         ("num_releases", Int64 [3; 1; 3; 2]);
         ("num_tracks", Int64 [30; 10; 30; 20]);
         ("playlists_found", Object [VStr "top50"; NaN; VStr "top50"; VStr "indie"]);
         ("feat_track_ids", Object [VStr "[t1, t2]"; NaN; VStr "[t1]"; NaN]) ] |}.

(** A frame without array columns. *)
Definition plain_frame : DataFrame :=
  {| index := [0; 1]%nat;
     columns :=
       [ ("ids", Int64 [1; 2]);
         ("dates", Object [VStr "13/04/2024"; VStr "soon"]);
         ("names", Object [VStr "Alice"; NaN]);
         ("followers", Object [VStr "42"; VStr "abc"]);
         ("first_release", Object [VStr "2019"; NaN]) ] |}.

(** What [transform_data] makes of it. *)
Definition plain_frame_transformed : DataFrame :=
  {| index := [0; 1]%nat;
     columns :=
       [ ("ids", Int64 [1; 2]);
         ("dates", Object [VStr "2024-04-13"; VStr "soon"]);
         ("names", Object [VStr "ALICE"; NaN]);
         ("followers", Int64 [42; 0]);
         ("first_release", Object [VStr "2019"; VStr ""]) ] |}.

(** One row whose genres cell names one genre, and one with two. *)
Definition one_genre_frame : DataFrame :=
  {| index := [0]%nat; columns := [ ("ids", Int64 [1]); ("genres", Object [VStr "[rock]"]) ] |}.

Definition two_genres_frame : DataFrame :=
  {| index := [0]%nat; columns := [ ("ids", Int64 [1]); ("genres", Object [VStr "[rock, pop]"]) ] |}.

(** One row whose date cell is blank. *)
Definition blank_date_frame : DataFrame :=
  {| index := [0]%nat; columns := [ ("ids", Int64 [1]); ("dates", Object [VStr "  "]) ] |}.

(** One row whose followers cell reads [inf], in a numeric column (float64)
    and in a text column. *)
Definition infinite_frame : DataFrame :=
  {| index := [0]%nat;
     columns := [ ("ids", Int64 [1]); ("followers", Float64 [S754_infinity false]) ] |}.

Definition infinite_text_frame : DataFrame :=
  {| index := [0; 1]%nat;
     columns := [ ("ids", Int64 [1; 2]); ("followers", Object [VStr "n/a"; VStr "inf"]) ] |}.

(** The column [col] of the frame at reference [l]. *)
Definition column_at (w : World) (l : loc) (col : string) : option Series :=
  heap w !! l ≫= fun d => lookup_column col (columns d).

(** A world that holds one frame, at reference 0, and nothing else. *)
Definition world_of (df : DataFrame) : World :=
  {| heap := [df]; connections := 0; store := []; files := [] |}.

(** ** An example run *)

(** Collaborators for the examples: the first connection attempt of the run
    fails and the later ones succeed, the store accepts every statement and
    counts the rows of a table, the source directory holds the sample file,
    every file can be written. *)
Definition example_env : Env :=
  {| connect := fun n => negb (Nat.eqb n 0);
     execute := fun _ _ => true;
     select_count := fun sts t =>
       Some (Z.of_nat (length (filter (fun st => String.eqb (table st) t = true) sts)));
     open_cursor := fun _ => None;
     commit := fun _ => None;
     close_cursor := fun _ => None;
     close_connection := fun _ => None;
     csv_source := fun path =>
       if String.eqb path "./source/scrap.csv" then Some sample_frame else None;
     writable := fun _ => true |}.

Definition example_self : Self :=
  {| source_path := "./source"; target_path := "./target"; test_datetime := "20240413120000" |}.

Definition empty_world : World :=
  {| heap := []; connections := 0; store := []; files := [] |}.

(** ** The database

    The world after [k] more connection attempts. *)
Definition after_attempts (k : nat) (w : World) : World :=
  {| heap := heap w; connections := (connections w + k)%nat; store := store w; files := files w |}.


(** ** Lists of strings as text

    An item the array parser can give back: not empty, without a comma or a
    quote character, and without whitespace at either end. *)
Definition clean_item (item : string) : bool :=
  nonempty item
  && negb (mem_char "," item) && negb (mem_char quote item) && negb (mem_char dquote item)
  && negb (head_in isspace item) && negb (last_in isspace item).

(** A list of strings written the way Python prints one whose items hold
    no quote, backslash or control character: in brackets, each item between
    single quotes, a comma and a space between two items. *)
Fixpoint render_tail (items : list string) : string :=
  match items with
  | [] => ""
  | item :: rest => ", '" ++ item ++ "'" ++ render_tail rest
  end.

Definition render_list (items : list string) : string :=
  match items with
  | [] => "[]"
  | item :: rest => "['" ++ item ++ "'" ++ render_tail rest ++ "]"
  end.

(** The items after the first as the parser splits them, the quotes gone. *)
Fixpoint plain_tail (items : list string) : string :=
  match items with
  | [] => ""
  | item :: rest => ", " ++ item ++ plain_tail rest
  end.

(** ** Dates as text

    A date written in a format in full: the day and the month with two
    digits, the year with four (with zeros before a year below 1000). *)
Fixpoint render_toks (ts : list tok) (d : date) : string :=
  match ts with
  | [] => ""
  | Lit c :: rest => String c (render_toks rest d)
  | Dir FDay :: rest => pad2 (day d) ++ render_toks rest d
  | Dir FMonth :: rest => pad2 (month d) ++ render_toks rest d
  | Dir FYear :: rest => pad4 (year d) ++ render_toks rest d
  end.

Definition date_text (fmt : string) (d : date) : string := render_toks (compile_format fmt) d.

(** The date with the day and the month of [d] exchanged. *)
Definition swap_day_month (d : date) : date :=
  {| year := year d; month := day d; day := month d |}.

End Spec.

Example strip_ex : Py.strip "  13/04/2024  " = "13/04/2024".
Proof. reflexivity. Qed.
Example split_ex : Py.split "," "a,,b" = ["a"; ""; "b"].
Proof. reflexivity. Qed.
Example strptime_ex1 : Py.strptime "13/04/2024" "%d/%m/%Y" = Some (Py.Date 2024 4 13).
Proof. reflexivity. Qed.
Example strptime_ex2 : Py.strptime "04/13/2024" "%d/%m/%Y" = None.
Proof. reflexivity. Qed.
Example strptime_ex3 : Py.strptime "202411" "%Y%m%d" = Some (Py.Date 2024 1 1).
Proof. reflexivity. Qed.
Example strptime_ex4 : Py.strptime "2024111" "%Y%m%d" = Some (Py.Date 2024 11 1).
Proof. reflexivity. Qed.
Example strptime_ex5 : Py.strptime "2024-04- 5" "%Y-%m-%d" = Some (Py.Date 2024 4 5).
Proof. reflexivity. Qed.
Example strptime_ex6 : Py.strptime "1/2/20245" "%d/%m/%Y" = None.
Proof. reflexivity. Qed.
Example strptime_ex7 : Py.strptime "2023-02-29" "%Y-%m-%d" = None.
Proof. reflexivity. Qed.
Example strftime_ex :
  @Pd.strftime_iso Spec.example_runtime (Py.Date 2024 4 13) = "2024-04-13"
  /\ @Pd.strftime_iso Spec.example_runtime (Py.Date 999 2 1) = "999-02-01".
Proof. split; reflexivity. Qed.
(** [caf] and e with acute accent (code point 233), [stra], sharp s (223)
    and [e]. *)
Example upper_ex :
  Py.upper ("caf" ++ String (ascii_of_nat 233) "") = "CAF" ++ String (ascii_of_nat 201) ""
  /\ Py.upper ("stra" ++ String (ascii_of_nat 223) "e") = "STRASSE".
Proof. split; reflexivity. Qed.
(** A numeral beyond int64 that a uint64 holds is wrapped around by the
    cast, on a runtime that does as numpy does. *)
Example coerce_integer_wide_ex :
  @DataCleaner.coerce_integer Spec.example_runtime (Pd.Object [Pd.VStr "18446744073709551615"])
  = Py.Ok (Pd.Int64 [-1])
  /\ @DataCleaner.coerce_integer Spec.example_runtime (Pd.Object [Pd.VStr "42"; Pd.VStr "abc"])
     = Py.Ok (Pd.Int64 [42; 0]).
Proof. split; vm_compute; reflexivity. Qed.
(** The [.str] accessor is refused on an object column of numbers. *)
Example str_upper_ex :
  Pd.str_upper (Pd.Object [Pd.VInt 1; Pd.NaN]) = Py.Raise Py.AttributeError
  /\ Pd.str_upper (Pd.Object [Pd.VStr "abc"; Pd.VInt 1; Pd.NaN])
     = Py.Ok (Pd.Object [Pd.VStr "ABC"; Pd.NaN; Pd.NaN]).
Proof. split; reflexivity. Qed.
Example str_of_int_ex : Py.str_of_int (-1203) = "-1203" /\ Py.str_of_int 0 = "0" /\ Py.str_of_int 7 = "7".
Proof. repeat split; reflexivity. Qed.
(* ===================================================================== *)
(** * Strings *)
(* ===================================================================== *)

Import Py Pd DataCleaner Spec.

Lemma append_cons (c : ascii) (r s : string) : String c r ++ s = String c (r ++ s).
Proof. reflexivity. Qed.

Lemma append_nil_l (s : string) : "" ++ s = s.
Proof. reflexivity. Qed.

Lemma append_nil_r (s : string) : s ++ "" = s.
Proof. induction s as [|c r IH]; [reflexivity | now rewrite append_cons, IH]. Qed.

Lemma append_assoc (a b c : string) : (a ++ b) ++ c = a ++ b ++ c.
Proof. induction a as [|x a IH]; [reflexivity | now rewrite !append_cons, IH]. Qed.

Section StripFacts.
Variable p : ascii -> bool.

Lemma lstrip_by_decomp (s : string) :
  exists a, s = a ++ lstrip_by p s /\ all_chars p a = true /\ head_in p (lstrip_by p s) = false.
Proof.
  induction s as [|c r (a & Ha & Hall & Hh)]; simpl.
  - exists "". auto.
  - destruct (p c) eqn:Hc.
    + exists (String c a). rewrite append_cons. simpl. rewrite Hc, Hall. split; [congruence | auto].
    + exists "". simpl. rewrite Hc. auto.
Qed.

Lemma rstrip_by_decomp (s : string) :
  exists b, s = rstrip_by p s ++ b /\ all_chars p b = true /\ last_in p (rstrip_by p s) = false.
Proof.
  induction s as [|c r (b & Hb & Hall & Hl)]; simpl.
  - exists "". auto.
  - destruct (rstrip_by p r) as [|d r'] eqn:Hr.
    + rewrite append_nil_l in Hb. destruct (p c) eqn:Hc.
      * exists (String c b). rewrite append_nil_l. simpl. rewrite Hc, Hall. split; [congruence | auto].
      * exists b. rewrite append_cons, append_nil_l. simpl. rewrite Hc. split; [congruence | auto].
    + exists b. split; [rewrite append_cons; congruence | split; [assumption |]].
      simpl. simpl in Hl. exact Hl.
Qed.

Lemma rstrip_by_fixed (s : string) : last_in p s = false -> rstrip_by p s = s.
Proof.
  induction s as [|c r IH]; simpl; [reflexivity |].
  destruct r as [|d r'].
  - simpl. intros ->. reflexivity.
  - intros H. rewrite (IH H). reflexivity.
Qed.

Lemma lstrip_by_fixed (s : string) : head_in p s = false -> lstrip_by p s = s.
Proof. destruct s as [|c r]; simpl; [reflexivity | intros ->; reflexivity]. Qed.

Lemma last_in_lstrip (s : string) : last_in p s = false -> last_in p (lstrip_by p s) = false.
Proof.
  induction s as [|c r IH]; simpl; [reflexivity |].
  destruct (p c) eqn:Hc.
  - destruct r as [|d r']; [simpl; reflexivity |]. intros H. apply IH, H.
  - intros H. simpl. rewrite Hc. exact H.
Qed.

Lemma strip_by_decomp (s : string) :
  exists a b, s = a ++ strip_by p s ++ b /\ all_chars p a = true /\ all_chars p b = true /\
              head_in p (strip_by p s) = false /\ last_in p (strip_by p s) = false.
Proof.
  unfold strip_by.
  destruct (rstrip_by_decomp s) as (b & Hb & Hallb & Hl).
  destruct (lstrip_by_decomp (rstrip_by p s)) as (a & Ha & Halla & Hh).
  exists a, b. repeat split; try assumption.
  - rewrite Hb at 1. rewrite Ha at 1. apply append_assoc.
  - apply last_in_lstrip, Hl.
Qed.

Lemma strip_by_fixed (s : string) :
  head_in p s = false -> last_in p s = false -> strip_by p s = s.
Proof.
  intros Hh Hl. unfold strip_by. rewrite (rstrip_by_fixed s Hl). apply lstrip_by_fixed, Hh.
Qed.

Lemma strip_by_idem (s : string) : strip_by p (strip_by p s) = strip_by p s.
Proof.
  destruct (strip_by_decomp s) as (a & b & _ & _ & _ & Hh & Hl).
  apply strip_by_fixed; assumption.
Qed.

End StripFacts.

(* ===================================================================== *)
(** * Dates *)
(* ===================================================================== *)


Lemma digit_table :
  forallb (fun n => isdigit (digit_char n) && (digit_val (digit_char n) =? n)) (seqZ 0 10) = true.
Proof. reflexivity. Qed.

Lemma digit_char_spec (n : Z) :
  0 <= n < 10 -> isdigit (digit_char n) = true /\ digit_val (digit_char n) = n.
Proof.
  intros H. pose proof digit_table as T. rewrite forallb_forall in T.
  specialize (T n ltac:(apply list_elem_of_In, elem_of_seqZ; lia)).
  apply andb_true_iff in T as [T1 T2]. apply Z.eqb_eq in T2. auto.
Qed.

Lemma isdigit_digit_char (n : Z) : 0 <= n < 10 -> isdigit (digit_char n) = true.
Proof. intros H. apply digit_char_spec, H. Qed.

Lemma digit_val_digit_char (n : Z) : 0 <= n < 10 -> digit_val (digit_char n) = n.
Proof. intros H. apply digit_char_spec, H. Qed.

Lemma isdigit_not_sep (c x : ascii) :
  isdigit c = true -> isdigit x = false -> Ascii.eqb c x = false.
Proof.
  intros Hc Hx. destruct (Ascii.eqb c x) eqn:E; [|reflexivity].
  apply Ascii.eqb_eq in E. congruence.
Qed.

Lemma match_year (a b c e : ascii) (rest : string) (ts : list tok) :
  isdigit a = true -> isdigit b = true -> isdigit c = true -> isdigit e = true ->
  match_toks (Dir FYear :: ts) (String a (String b (String c (String e rest)))) =
  match match_toks ts rest with
  | Some (groups, r) => Some ((FYear, String a (String b (String c (String e "")))) :: groups, r)
  | None => None
  end.
Proof.
  intros Ha Hb Hc He. cbn [match_toks alternatives match_alt]. rewrite Ha, Hb, Hc, He. reflexivity.
Qed.

Section IsoText.
Context {rt : Runtime}.

(** From the year 1000 on a date is written with the four digits of its
    year. *)
Lemma strftime_iso_chars (d : date) :
  1000 <= year d ->
  strftime_iso d =
  String (digit_char (year d / 1000 mod 10)) (String (digit_char (year d / 100 mod 10))
  (String (digit_char (year d / 10 mod 10)) (String (digit_char (year d mod 10))
  (String "-" (pad2 (month d) ++ "-" ++ pad2 (day d)))))).
Proof.
  intros Hy. unfold strftime_iso, strftime_year.
  rewrite (proj2 (Z.leb_le 1000 (year d)) Hy). reflexivity.
Qed.

End IsoText.

Lemma month_day_table :
  forallb (fun m => forallb (month_day_ok m) (seqZ 1 31)) (seqZ 1 12) = true.
Proof. vm_compute. reflexivity. Qed.

Lemma month_day_match (m dd : Z) :
  1 <= m <= 12 -> 1 <= dd <= 31 -> month_day_ok m dd = true.
Proof.
  intros Hm Hd. pose proof month_day_table as T.
  rewrite forallb_forall in T. specialize (T m).
  rewrite forallb_forall in T. apply T.
  - apply list_elem_of_In, elem_of_seqZ. lia.
  - apply list_elem_of_In, elem_of_seqZ. lia.
Qed.

Lemma valid_date_bounds (d : date) :
  valid_date d = true ->
  1 <= year d <= 9999 /\ 1 <= month d <= 12 /\ 1 <= day d <= 31.
Proof.
  unfold valid_date, days_in_month. intros H.
  repeat (apply andb_true_iff in H; destruct H as [H ?]).
  repeat match goal with H : (_ <=? _) = true |- _ => apply Z.leb_le in H end.
  repeat split; try lia.
  repeat match goal with H : context [if ?b then _ else _] |- _ => destruct b end; lia.
Qed.

Lemma year_digits (y : Z) :
  0 <= y <= 9999 ->
  int_of_digits 0 (String (digit_char (y / 1000 mod 10)) (String (digit_char (y / 100 mod 10))
    (String (digit_char (y / 10 mod 10)) (String (digit_char (y mod 10)) "")))) = y.
Proof.
  intros H. cbn [int_of_digits].
  rewrite !isdigit_digit_char by (apply Z.mod_pos_bound; lia).
  rewrite !digit_val_digit_char by (apply Z.mod_pos_bound; lia).
  cbn [int_of_digits]. 
  pose proof (Z.div_mod y 10 ltac:(lia)). pose proof (Z.div_mod (y/10) 10 ltac:(lia)).
  pose proof (Z.div_mod (y/100) 10 ltac:(lia)). 
  assert (y / 10 / 10 = y / 100) by (rewrite Z.div_div by lia; reflexivity).
  assert (y / 100 / 10 = y / 1000) by (rewrite Z.div_div by lia; reflexivity).
  assert (y / 1000 mod 10 = y / 1000) by (apply Z.mod_small; split; [apply Z.div_pos; lia | apply Z.div_lt_upper_bound; lia]).
  lia.
Qed.

(** The ISO rendering of a date from the year 1000 on parses back to it. *)
Lemma strptime_strftime_iso {rt : Runtime} (d : date) :
  valid_date d = true -> 1000 <= year d -> strptime (strftime_iso d) "%Y-%m-%d" = Some d.
Proof.
  intros Hv Hlate. destruct (valid_date_bounds d Hv) as (Hy & Hm & Hd).
  pose proof (month_day_match (month d) (day d) Hm Hd) as T.
  unfold month_day_ok in T. apply andb_true_iff in T as [T T3]. apply andb_true_iff in T as [T1 T2].
  apply bool_decide_eq_true in T1. apply Z.eqb_eq in T2, T3.
  unfold strptime. rewrite (strftime_iso_chars d Hlate).
  change (compile_format "%Y-%m-%d") with [Dir FYear; Lit "-"; Dir FMonth; Lit "-"; Dir FDay].
  rewrite match_year by (apply isdigit_digit_char, Z.mod_pos_bound; lia).
  change (String "-" (pad2 (month d) ++ "-" ++ pad2 (day d))) with ("-" ++ pad2 (month d) ++ "-" ++ pad2 (day d)).
  rewrite T1. cbn [group field_eqb default].
  rewrite T2, T3, year_digits by lia.
  destruct d as [y m dd]. cbn [year month day] in *. unfold id. rewrite Hv. reflexivity.
Qed.


Lemma strptime_valid (s fmt : string) (d : date) :
  strptime s fmt = Some d -> valid_date d = true.
Proof.
  unfold strptime. destruct (match_toks _ s) as [[g [|c r]]|]; try discriminate.
  match goal with |- context [valid_date ?x] => destruct (valid_date x) eqn:E end; [|discriminate].
  intros [= <-]. exact E.
Qed.


Lemma first_format_none (fmts : list string) (s : string) :
  (forall fmt, In fmt fmts -> strptime s fmt = None) -> first_format fmts s = None.
Proof.
  induction fmts as [|f fmts IH]; intros H; simpl; [reflexivity|].
  rewrite (H f) by (left; reflexivity). apply IH. intros fmt Hin. apply H. right. exact Hin.
Qed.

Lemma first_format_valid (fmts : list string) (s : string) (d : date) :
  first_format fmts s = Some d -> valid_date d = true.
Proof.
  induction fmts as [|f fmts IH]; simpl; [discriminate|].
  destruct (strptime s f) eqn:E; [|exact IH].
  intros [= <-]. eapply strptime_valid, E.
Qed.

Lemma eqb_nonempty (s : string) : s <> "" -> String.eqb s "" = false.
Proof. intros H. apply String.eqb_neq. exact H. Qed.

Section ParseDate.
Context {rt : Runtime}.

Lemma parse_date_str (s : string) :
  s <> "" ->
  _parse_date (VStr s) =
  match first_format date_formats (strip s) with
  | Some d => Ok (VStr (strftime_iso d))
  | None =>
      match bind (to_datetime (strip s)) timestamp_strftime with
      | Ok t => Ok (VStr t)
      | Raise _ => Ok (VStr (strip s))
      end
  end.
Proof.
  intros H. unfold _parse_date. cbn [isna truthy bind eq_str py_str orb].
  rewrite (eqb_nonempty s H). reflexivity.
Qed.


(** C3 (as the code has it). A null input (None or NaN) and the empty string
    give [None]; it is the JSON export that writes a null date as the empty
    string. *)
Theorem parse_date_null_or_empty :
  _parse_date VNone = Ok VNone /\ _parse_date NaN = Ok VNone /\ _parse_date (VStr "") = Ok VNone
  /\ (forall r : row, json_str_or_empty (("dates", VNone) :: r) "dates" = Ok (JStr "")).
Proof. repeat split; reflexivity. Qed.

(** C4 (as the code has it). When the seven formats and the general-purpose
    parse all fail on the trimmed text, the result is the trimmed text: the
    input without its surrounding whitespace. *)
Theorem parse_date_fallback_is_trimmed_input (s : string) :
  s <> "" ->
  (forall fmt, In fmt date_formats -> strptime (strip s) fmt = None) ->
  (forall d, to_datetime (strip s) <> Ok (Stamp d)) ->
  _parse_date (VStr s) = Ok (VStr (strip s)).
Proof.
  intros Hs Hfmt Hgen. rewrite (parse_date_str s Hs), (first_format_none _ _ Hfmt).
  destruct (to_datetime (strip s)) as [[|d]|e]; cbn [bind timestamp_strftime]; try reflexivity.
  exfalso. apply (Hgen d). reflexivity.
Qed.

End ParseDate.



(** C3 as the specification states it fails: the empty string gives [None],
    not the empty string. *)
Lemma parse_date_empty_is_not_empty_string :
  @_parse_date example_runtime (VStr "") <> Ok (VStr "").
Proof. discriminate. Qed.

(** C4 as the specification states it fails: the surrounding blanks of an
    unparseable text are not returned. *)
Lemma parse_date_fallback_drops_whitespace :
  @_parse_date example_runtime (VStr " not-a-date ") = Ok (VStr "not-a-date")
  /\ @_parse_date example_runtime (VStr " not-a-date ") <> Ok (VStr " not-a-date ").
Proof. split; [reflexivity | discriminate]. Qed.

Lemma parse_date_fallback_is_trimmed_input_witness :
  @_parse_date example_runtime (VStr " not-a-date ") = Ok (VStr (strip " not-a-date ")).
Proof.
  apply (@parse_date_fallback_is_trimmed_input example_runtime " not-a-date ").
  - discriminate.
  - intros fmt Hin. repeat (destruct Hin as [<- | Hin]; [reflexivity|]). destruct Hin.
  - intros d. discriminate.
Defined.

(* ===================================================================== *)
(** * The array parser *)
(* ===================================================================== *)

Section StripUnique.
Variable p : ascii -> bool.

Lemma rstrip_by_all (b : string) : all_chars p b = true -> rstrip_by p b = "".
Proof.
  induction b as [|c b IH]; simpl; [reflexivity|].
  intros H. apply andb_true_iff in H as [Hc Hb]. rewrite (IH Hb), Hc. reflexivity.
Qed.

Lemma rstrip_by_app_all (x b : string) :
  all_chars p b = true -> rstrip_by p (x ++ b) = rstrip_by p x.
Proof.
  intros Hb. induction x as [|c x IH].
  - rewrite append_nil_l. apply rstrip_by_all, Hb.
  - rewrite append_cons. simpl. rewrite IH. reflexivity.
Qed.

Lemma lstrip_by_app_all (a x : string) :
  all_chars p a = true -> lstrip_by p (a ++ x) = lstrip_by p x.
Proof.
  induction a as [|c a IH]; [reflexivity|].
  cbn [all_chars]. intros H. apply andb_true_iff in H as [Hc Ha].
  rewrite append_cons. cbn [lstrip_by]. rewrite Hc. apply IH, Ha.
Qed.

Lemma last_in_app (a t : string) : t <> "" -> last_in p (a ++ t) = last_in p t.
Proof.
  intros Ht. induction a as [|c a IH]; [reflexivity|].
  rewrite append_cons. simpl. rewrite IH.
  destruct (a ++ t) eqn:E; [|reflexivity].
  destruct a; [rewrite append_nil_l in E; contradiction | rewrite append_cons in E; discriminate].
Qed.

(** Stripping is determined by its description: whatever is left between a
    prefix and a suffix of stripped characters, and has none at either end,
    is the result. *)
Lemma strip_by_unique (s a t b : string) :
  s = a ++ t ++ b -> all_chars p a = true -> all_chars p b = true ->
  head_in p t = false -> last_in p t = false -> strip_by p s = t.
Proof.
  intros -> Ha Hb Hh Hl. unfold strip_by.
  rewrite <- append_assoc, rstrip_by_app_all by assumption.
  destruct t as [|c t].
  - rewrite append_nil_r, rstrip_by_all by assumption. reflexivity.
  - rewrite rstrip_by_fixed by (rewrite last_in_app by discriminate; exact Hl).
    rewrite lstrip_by_app_all by assumption. apply lstrip_by_fixed, Hh.
Qed.

End StripUnique.

Lemma drop_leading_decomp (c : ascii) (s : string) :
  exists a, s = a ++ drop_leading c s /\ (a = "" \/ a = String c "").
Proof.
  destruct s as [|d r]; simpl.
  - exists "". auto.
  - destruct (Ascii.eqb d c) eqn:E.
    + apply Ascii.eqb_eq in E as ->. exists (String c ""). auto.
    + exists "". auto.
Qed.

Lemma drop_trailing_decomp (c : ascii) (s : string) :
  exists b, s = drop_trailing c s ++ b /\ (b = "" \/ b = String c "").
Proof.
  induction s as [|d r (b & Hb & Hc)].
  - exists "". auto.
  - destruct r as [|e r'].
    + simpl. destruct (Ascii.eqb d c) eqn:E.
      * apply Ascii.eqb_eq in E as ->. exists (String c ""). auto.
      * exists "". rewrite append_nil_r. auto.
    + exists b. split; [|exact Hc].
      change (drop_trailing c (String d (String e r'))) with (String d (drop_trailing c (String e r'))).
      rewrite append_cons, <- Hb. reflexivity.
Qed.

Lemma filter_pieces_nil :
  filter (fun item : string => nonempty item = true) (map strip (split "," "")) = [].
Proof. reflexivity. Qed.

Section ParseArray.
Context {rt : Runtime}.

Lemma parse_array_str (s : string) :
  _parse_array (VStr s) = Ok (VList (pieces (strip_chars "[]" s))).
Proof.
  unfold _parse_array, pieces, remove_quotes. cbn [isna truthy bind eq_str orb].
  destruct s as [|c r]; [reflexivity|]. cbn [String.eqb].
  destruct (nonempty _) eqn:E; [reflexivity|].
  destruct (remove_char dquote _); [reflexivity | discriminate].
Qed.

(** C5 (as the code has it). A string loses every leading and trailing
    bracket character (not one of each), then all quote characters; it is
    split at the commas, the pieces are trimmed and the empty ones dropped.
    Where removing one leading [[] and one trailing []] leaves no bracket at
    either end, this is what the specification describes. *)
Theorem parse_array_strips_all_brackets :
  (forall s : string,
     _parse_array (VStr s)
     = Ok (VList (filter (fun item => nonempty item = true)
                    (map strip (split "," (remove_char dquote (remove_char quote
                       (strip_chars "[]" s))))))))
  /\ (forall s : string, exists a b,
        s = a ++ strip_chars "[]" s ++ b /\
        all_chars is_bracket a = true /\ all_chars is_bracket b = true /\
        head_in is_bracket (strip_chars "[]" s) = false /\
        last_in is_bracket (strip_chars "[]" s) = false)
  /\ (forall s : string,
        head_in is_bracket (drop_trailing "]" (drop_leading "[" s)) = false ->
        last_in is_bracket (drop_trailing "]" (drop_leading "[" s)) = false ->
        _parse_array (VStr s) = Ok (VList (spec_parseDelimitedArray s)))
  /\ _parse_array (VStr ("[a, 'b', " ++ String dquote ("c" ++ String dquote "]")))
     = Ok (VList ["a"; "b"; "c"])
  /\ _parse_array (VStr "") = Ok (VList [])
  /\ _parse_array VNone = Ok (VList [])
  /\ _parse_array NaN = Ok (VList []).
Proof.
  split; [exact parse_array_str|].
  split; [intros s; apply (strip_by_decomp is_bracket)|].
  split; [|repeat split; reflexivity].
  intros s Hh Hl. rewrite parse_array_str. unfold spec_parseDelimitedArray. do 2 f_equal. f_equal.
  change (strip_chars "[]" s) with (strip_by is_bracket s).
  destruct (drop_leading_decomp "[" s) as (a & Ha & Ha').
  destruct (drop_trailing_decomp "]" (drop_leading "[" s)) as (b & Hb & Hb').
  apply (strip_by_unique is_bracket s a _ b); try assumption.
  - rewrite Ha at 1. rewrite Hb at 1. reflexivity.
  - destruct Ha' as [-> | ->]; reflexivity.
  - destruct Hb' as [-> | ->]; reflexivity.
Qed.

(** C6 (as the code has it). On every input that is not a list the parser
    returns a list of strings, the empty one unless the input is a string; a
    list of one element gives the empty list; a list of two or more
    elements is refused, because the null test has no truth value on it. *)
Theorem parse_array_total_off_lists :
  (forall v : value, is_list v = false ->
     exists l, _parse_array v = Ok (VList l) /\ (is_str v = false -> l = []))
  /\ (forall x : string, _parse_array (VList [x]) = Ok (VList []))
  /\ (forall (x y : string) (l : list string), _parse_array (VList (x :: y :: l)) = Raise ValueError).
Proof.
  split; [|split; reflexivity].
  intros v Hv. destruct v as [|s|n|f|l]; try discriminate.
  - exists []. split; reflexivity.
  - rewrite parse_array_str. eexists. split; [reflexivity | discriminate].
  - exists []. split; reflexivity.
  - exists []. unfold _parse_array. cbn. destruct (is_nan f); split; reflexivity.
Qed.

End ParseArray.

(** C5 as the specification states it fails: two opening and two closing
    brackets all go, where the specification removes one of each. *)
Lemma parse_array_strips_more_than_one_bracket :
  @_parse_array example_runtime (VStr "[[a]]") = Ok (VList ["a"])
  /\ spec_parseDelimitedArray "[[a]]" = ["[a]"]
  /\ @_parse_array example_runtime (VStr "[[a]]") <> Ok (VList (spec_parseDelimitedArray "[[a]]")).
Proof. repeat split; [reflexivity.. | discriminate]. Qed.

Lemma parse_array_strips_all_brackets_witness :
  @_parse_array example_runtime (VStr "[rock, 'pop']") = Ok (VList (spec_parseDelimitedArray "[rock, 'pop']")).
Proof.
  apply (proj1 (proj2 (proj2 (@parse_array_strips_all_brackets example_runtime)))); reflexivity.
Defined.

(** C6 as the specification states it fails: a list of two strings is not
    mapped to the empty list, the call raises. *)
Lemma parse_array_raises_on_a_list :
  @_parse_array example_runtime (VList ["rock"; "pop"]) = Raise ValueError.
Proof. reflexivity. Qed.

Lemma parse_array_total_off_lists_witness :
  exists l, @_parse_array example_runtime (VInt 7) = Ok (VList l) /\ (is_str (VInt 7) = false -> l = []).
Proof.
  apply (proj1 (@parse_array_total_off_lists example_runtime) (VInt 7)). reflexivity.
Defined.

(* ===================================================================== *)
(** * Masks and duplicates *)
(* ===================================================================== *)

Section Select.
Context {A : Type}.
Implicit Types (mask : list bool) (l : list A).

Lemma select_nil_r mask : select mask (@nil A) = [].
Proof. destruct mask as [|[] ?]; reflexivity. Qed.

Lemma select_lookup mask l j : select mask l !! j = pos mask j ≫= (l !!.).
Proof.
  revert l j. induction mask as [|b mask IH]; intros l j; [reflexivity|].
  destruct l as [|x l].
  - rewrite select_nil_r. simpl. destruct b, j; simpl; try destruct (pos mask _); reflexivity.
  - destruct b; simpl.
    + destruct j as [|j]; simpl; [reflexivity|]. rewrite IH. destruct (pos mask j); reflexivity.
    + rewrite IH. destruct (pos mask j); reflexivity.
Qed.

Lemma select_sublist mask l : select mask l `sublist_of` l.
Proof.
  revert l. induction mask as [|b mask IH]; intros [|x l]; simpl; try apply sublist_nil_l.
  destruct b; [apply sublist_skip, IH | apply sublist_cons, IH].
Qed.

Lemma select_partition mask l :
  (length l <= length mask)%nat -> select (map negb mask) l ++ select mask l ≡ₚ l.
Proof.
  revert l. induction mask as [|b mask IH]; intros [|x l] H; simpl in *; try reflexivity; try lia.
  destruct b; simpl.
  - rewrite <- Permutation_middle. constructor. apply IH. lia.
  - constructor. apply IH. lia.
Qed.

Lemma elem_of_select mask l x :
  x ∈ select mask l <-> exists i, l !! i = Some x /\ mask !! i = Some true.
Proof.
  revert l. induction mask as [|b mask IH]; intros l.
  - simpl. split; [intros H; inversion H | intros (i & _ & H); discriminate].
  - destruct l as [|y l].
    + rewrite select_nil_r. split; [intros H; inversion H | intros (i & H & _); discriminate].
    + destruct b; simpl.
      * rewrite elem_of_cons, IH. split.
        -- intros [-> | (i & H1 & H2)]; [exists O; auto | exists (S i); auto].
        -- intros ([|i] & H1 & H2); simpl in *; [left; congruence | right; eauto].
      * rewrite IH. split.
        -- intros (i & H1 & H2). exists (S i). auto.
        -- intros ([|i] & H1 & H2); simpl in *; [discriminate | eauto].
Qed.

Lemma select_map {B} (f : A -> B) mask l : select mask (map f l) = map f (select mask l).
Proof.
  revert l. induction mask as [|b mask IH]; intros [|x l]; simpl; try reflexivity.
  destruct b; simpl; rewrite IH; reflexivity.
Qed.

End Select.

Lemma lookup_map_negb (mask : list bool) (i : nat) (b : bool) :
  mask !! i = Some b -> map negb mask !! i = Some (negb b).
Proof. intros H. rewrite list_lookup_fmap, H. reflexivity. Qed.

(** ** The mask of [duplicated] *)

Lemma duplicated_from_length (seen keys : list value) :
  length (duplicated_from seen keys) = length keys.
Proof. revert seen. induction keys as [|k keys IH]; intros seen; simpl; [|rewrite IH]; reflexivity. Qed.

Lemma duplicated_from_lookup (seen keys : list value) (i : nat) (k : value) :
  keys !! i = Some k ->
  duplicated_from seen keys !! i = Some (existsb (key_eqb k) (rev (take i keys) ++ seen)).
Proof.
  revert seen i. induction keys as [|k0 keys IH]; intros seen i H; [discriminate|].
  destruct i as [|i]; simpl in *.
  - injection H as ->. reflexivity.
  - rewrite (IH _ _ H). rewrite <- app_assoc. reflexivity.
Qed.

Lemma duplicated_from_seen_before (keys : list value) (i : nat) (k : value) :
  keys !! i = Some k ->
  (duplicated_from [] keys !! i = Some true <-> seen_before keys i) /\
  (duplicated_from [] keys !! i = Some false <-> ~ seen_before keys i).
Proof.
  intros H. rewrite (duplicated_from_lookup _ _ _ _ H), app_nil_r.
  assert (existsb (key_eqb k) (rev (take i keys)) = true <-> seen_before keys i) as E.
  { rewrite existsb_exists. split.
    - intros (x & Hin & Hx). rewrite <- in_rev in Hin.
      apply list_elem_of_In, list_elem_of_lookup in Hin as [j Hj].
      apply lookup_take_Some in Hj as [Hj Hlt]. exists j, x, k. auto.
    - intros (j & kj & ki & Hlt & Hj & Hi & Heq). rewrite H in Hi. injection Hi as <-.
      exists kj. split; [|exact Heq].
      rewrite <- in_rev. apply list_elem_of_In, list_elem_of_lookup. exists j.
      apply lookup_take_Some. auto. }
  split.
  - rewrite <- E. split; [congruence | intros ->; reflexivity].
  - rewrite <- E. destruct (existsb _ _); split; congruence.
Qed.

(* ===================================================================== *)
(** * Deduplication: [clean_data] *)
(* ===================================================================== *)

(** ** Rows of a selection *)

Lemma upcast_flag_select (df : DataFrame) (mask : list bool) :
  forallb (fun cs => is_numeric (snd cs)) (columns (getitem_mask df mask))
  && existsb (fun cs => is_float64 (snd cs)) (columns (getitem_mask df mask))
  = forallb (fun cs => is_numeric (snd cs)) (columns df)
    && existsb (fun cs => is_float64 (snd cs)) (columns df).
Proof.
  unfold getitem_mask. cbn [columns]. f_equal.
  - induction (columns df) as [|[c s] cols IH]; [reflexivity|].
    cbn [map forallb fst snd]. rewrite IH. destruct s; reflexivity.
  - induction (columns df) as [|[c s] cols IH]; [reflexivity|].
    cbn [map existsb fst snd]. rewrite IH. destruct s; reflexivity.
Qed.

Lemma row_values_select (df : DataFrame) (mask : list bool) (s : Series) :
  row_values (getitem_mask df mask) (series_select mask s) = select mask (row_values df s).
Proof.
  destruct s as [xs|xs|xs]; cbn [series_select row_values values].
  - rewrite upcast_flag_select. destruct (_ && _); rewrite select_map; reflexivity.
  - rewrite select_map. reflexivity.
  - reflexivity.
Qed.

Lemma row_at_select (df : DataFrame) (mask : list bool) (j p : nat) :
  pos mask j = Some p -> row_at (getitem_mask df mask) j = row_at df p.
Proof.
  intros Hp. unfold row_at. cbn [getitem_mask columns]. rewrite map_map.
  apply map_ext. intros [c s]. cbn [fst snd].
  change {| index := select mask (index df);
            columns := map (fun cs => (fst cs, series_select mask (snd cs))) (columns df) |}
    with (getitem_mask df mask).
  rewrite row_values_select, select_lookup, Hp. reflexivity.
Qed.

(** The rows of [df[mask]] are the rows of [df] that the mask selects. *)
Lemma iterrows_getitem_mask (df : DataFrame) (mask : list bool) :
  iterrows (getitem_mask df mask) = select mask (iterrows df).
Proof.
  apply list_eq. intros j. unfold iterrows at 1.
  rewrite list_lookup_imap, select_lookup.
  change (index (getitem_mask df mask)) with (select mask (index df)). rewrite select_lookup.
  destruct (pos mask j) as [p|] eqn:Hp; [|reflexivity]. cbn [mbind option_bind].
  unfold iterrows. rewrite list_lookup_imap.
  destruct (index df !! p); [|reflexivity]. rewrite (row_at_select _ _ _ _ Hp). reflexivity.
Qed.

Lemma length_iterrows (df : DataFrame) : length (iterrows df) = len df.
Proof. unfold iterrows, len. apply length_imap. Qed.

Lemma iterrows_labels (df : DataFrame) : map fst (iterrows df) = index df.
Proof.
  unfold iterrows. apply list_eq. intros i.
  rewrite list_lookup_fmap, list_lookup_imap. destruct (index df !! i); reflexivity.
Qed.

Lemma NoDup_iterrows (df : DataFrame) : NoDup (index df) -> NoDup (iterrows df).
Proof. intros H. apply (NoDup_fmap_1 fst). rewrite iterrows_labels. exact H. Qed.

(** ** Running the methods *)

Lemma deref_eq (l : loc) (w : World) (df : DataFrame) :
  heap w !! l = Some df -> deref l w = (w, Ok df).
Proof. intros H. unfold deref. rewrite H. reflexivity. Qed.

Lemma bindM_ok {A B} (m : M A) (k : A -> M B) (w w' : World) (a : A) :
  m w = (w', Ok a) -> bindM m k w = k a w'.
Proof. intros H. unfold bindM. rewrite H. reflexivity. Qed.

Lemma bindM_raise {A B} (m : M A) (k : A -> M B) (w w' : World) (e : exn) :
  m w = (w', Raise e) -> bindM m k w = (w', Raise e).
Proof. intros H. unfold bindM. rewrite H. reflexivity. Qed.

Lemma copy_eq (l : loc) (w : World) (df : DataFrame) :
  heap w !! l = Some df -> copy l w = (set_heap (heap w ++ [df]) w, Ok (length (heap w))).
Proof. intros H. unfold copy. rewrite (bindM_ok _ _ _ _ _ (deref_eq l w df H)). reflexivity. Qed.

Lemma getitem_mask_obj_eq (l : loc) (mask : list bool) (w : World) (df : DataFrame) :
  heap w !! l = Some df ->
  getitem_mask_obj l mask w
  = (set_heap (heap w ++ [getitem_mask df mask]) w, Ok (length (heap w))).
Proof.
  intros H. unfold getitem_mask_obj. rewrite (bindM_ok _ _ _ _ _ (deref_eq l w df H)). reflexivity.
Qed.

Lemma getitem_length (df : DataFrame) (col : string) (s : Series) :
  wf df -> getitem df col = Ok s -> series_len s = len df.
Proof.
  intros (_ & _ & Hlen). unfold getitem.
  destruct (lookup_column col (columns df)) as [s'|] eqn:E; [|discriminate]. intros [= <-].
  induction (columns df) as [|[c s0] cols IH]; [discriminate|].
  apply Forall_cons in Hlen as [H0 Hrest]. simpl in E.
  destruct (String.eqb c col); [injection E as <-; exact H0 | exact (IH Hrest E)].
Qed.

(** The run of [clean_data]: four new objects, the two selections and their
    copies; the copies are returned. *)
Lemma clean_data_eq (w : World) (l : loc) (df : DataFrame) (ids : Series) :
  heap w !! l = Some df -> getitem df "ids" = Ok ids ->
  let mask := duplicated_from [] (values ids) in
  let C := getitem_mask df (map negb mask) in
  let D := getitem_mask df mask in
  clean_data l w
  = (set_heap ((((heap w ++ [C]) ++ [C]) ++ [D]) ++ [D]) w,
     Ok (S (length (heap w)), S (S (S (length (heap w)))))).
Proof.
  intros Hl Hids mask C D.
  apply lookup_lt_Some in Hl as Hlt. unfold clean_data.
  rewrite (bindM_ok _ _ _ _ _ (deref_eq l w df Hl)).
  rewrite (bindM_ok _ _ w w mask) by (unfold lift, duplicated; rewrite Hids; reflexivity).
  rewrite (bindM_ok _ _ _ _ _ (getitem_mask_obj_eq l _ w df Hl)). fold C.
  erewrite bindM_ok by (apply copy_eq; cbn [heap set_heap]; apply list_lookup_middle; reflexivity).
  cbn [heap set_heap].
  erewrite bindM_ok
    by (apply getitem_mask_obj_eq; cbn [heap set_heap];
        rewrite !lookup_app_l by (rewrite ?length_app; simpl; lia); exact Hl).
  fold D. cbn [heap set_heap].
  erewrite bindM_ok
    by (apply copy_eq; cbn [heap set_heap]; apply list_lookup_middle; rewrite !length_app; simpl; lia).
  unfold ret, set_heap. cbn [heap connections store files]. rewrite !length_app. cbn [length].
  repeat f_equal; lia.
Qed.

(** C1. [clean_data] splits a well-formed frame with an [ids] column into
    two new frames and leaves the frame itself as it was. Taken together
    the rows of the two frames are the rows of the frame (as multisets),
    each in the order they have in the frame; a row is in the duplicate
    frame exactly when its key (a missing key like any other) occurred in
    an earlier row, and in the clean frame otherwise. *)
Theorem clean_data_partitions (w : World) (l : loc) (df : DataFrame) (ids : Series) :
  heap w !! l = Some df -> wf df -> getitem df "ids" = Ok ids ->
  exists w' c d clean_frame duplicate_frame,
    clean_data l w = (w', Ok (c, d)) /\
    heap w' !! c = Some clean_frame /\ heap w' !! d = Some duplicate_frame /\
    heap w' !! l = Some df /\
    iterrows clean_frame ++ iterrows duplicate_frame ≡ₚ iterrows df /\
    iterrows clean_frame `sublist_of` iterrows df /\
    iterrows duplicate_frame `sublist_of` iterrows df /\
    (forall i r, iterrows df !! i = Some r ->
       (r ∈ iterrows duplicate_frame <-> seen_before (values ids) i) /\
       (r ∈ iterrows clean_frame <-> ~ seen_before (values ids) i)) /\
    key_eqb NaN NaN = true.
Proof.
  intros Hl Hwf Hids.
  set (mask := duplicated_from [] (values ids)).
  set (C := getitem_mask df (map negb mask)). set (D := getitem_mask df mask).
  exists (set_heap ((((heap w ++ [C]) ++ [C]) ++ [D]) ++ [D]) w),
         (S (length (heap w))), (S (S (S (length (heap w))))), C, D.
  assert (Hlen : length mask = length (iterrows df)).
  { unfold mask. rewrite duplicated_from_length, length_iterrows.
    apply (getitem_length df "ids" ids Hwf Hids). }
  split; [|split; [|split; [|split; [|split; [|split; [|split; [|split]]]]]]].
  - apply (clean_data_eq w l df ids Hl Hids).
  - cbn [heap set_heap]. rewrite !lookup_app_l by (rewrite ?length_app; simpl; lia).
    apply list_lookup_middle. rewrite length_app. simpl. lia.
  - cbn [heap set_heap]. apply list_lookup_middle. rewrite !length_app. simpl. lia.
  - cbn [heap set_heap]. apply lookup_lt_Some in Hl as Hlt.
    rewrite !lookup_app_l by (rewrite ?length_app; simpl; lia). exact Hl.
  - unfold C, D. rewrite !iterrows_getitem_mask. apply select_partition. lia.
  - unfold C. rewrite iterrows_getitem_mask. apply select_sublist.
  - unfold D. rewrite iterrows_getitem_mask. apply select_sublist.
  - intros i r Hr.
    assert (exists k, values ids !! i = Some k) as [k Hk].
    { apply lookup_lt_is_Some. apply lookup_lt_Some in Hr.
      unfold mask in Hlen. rewrite duplicated_from_length in Hlen. lia. }
    destruct (duplicated_from_seen_before (values ids) i k Hk) as [Ht Hf]. fold mask in Ht, Hf.
    pose proof (NoDup_iterrows df (proj1 Hwf)) as Hnd.
    assert (Hmi : exists b, mask !! i = Some b).
    { apply lookup_lt_is_Some. apply lookup_lt_Some in Hr. lia. }
    destruct Hmi as [b Hb].
    unfold C, D. rewrite !iterrows_getitem_mask, !elem_of_select. split.
    + rewrite <- Ht. split.
      * intros (i' & Hr' & Hm). rewrite (NoDup_lookup _ _ _ _ Hnd Hr Hr'). exact Hm.
      * intros Hm. exists i. auto.
    + rewrite <- Hf. split.
      * intros (i' & Hr' & Hm). rewrite <- (NoDup_lookup _ _ _ _ Hnd Hr Hr') in Hm.
        rewrite (lookup_map_negb _ _ _ Hb) in Hm. destruct b; [discriminate | exact Hb].
      * intros Hm. exists i. split; [exact Hr|]. rewrite (lookup_map_negb _ _ _ Hm). reflexivity.
  - reflexivity.
Qed.

Lemma wf_sample_frame : wf sample_frame.
Proof.
  split; [|split].
  - apply NoDup_ListNoDup. repeat constructor; simpl; intuition discriminate.
  - apply NoDup_ListNoDup. repeat constructor; simpl; intuition discriminate.
  - repeat constructor.
Qed.

(** C1 on the sample frame, whose ids are 1, 2, 1 and 3. *)
Lemma clean_data_partitions_witness :
  exists w' c d clean_frame duplicate_frame,
    clean_data 0%nat (world_of sample_frame) = (w', Ok (c, d)) /\
    heap w' !! c = Some clean_frame /\ heap w' !! d = Some duplicate_frame /\
    heap w' !! 0%nat = Some sample_frame /\
    iterrows clean_frame ++ iterrows duplicate_frame ≡ₚ iterrows sample_frame /\
    iterrows clean_frame `sublist_of` iterrows sample_frame /\
    iterrows duplicate_frame `sublist_of` iterrows sample_frame /\
    (forall i r, iterrows sample_frame !! i = Some r ->
       (r ∈ iterrows duplicate_frame <-> seen_before (values (Int64 [1; 2; 1; 3])) i) /\
       (r ∈ iterrows clean_frame <-> ~ seen_before (values (Int64 [1; 2; 1; 3])) i)) /\
    key_eqb NaN NaN = true.
Proof.
  apply (clean_data_partitions (world_of sample_frame) 0%nat sample_frame (Int64 [1; 2; 1; 3])).
  - reflexivity.
  - exact wf_sample_frame.
  - reflexivity.
Defined.

(** The sample frame, computed: the rows labelled 0, 1 and 3 are clean and
    the row labelled 2 is the duplicate; of two rows without a key the
    second is a duplicate. *)
Example clean_data_sample :
  (let w' := fst (clean_data 0%nat (world_of sample_frame)) in
   snd (clean_data 0%nat (world_of sample_frame)) = Ok (2%nat, 4%nat) /\
   index <$> heap w' !! 2%nat = Some [0; 1; 3]%nat /\
   index <$> heap w' !! 4%nat = Some [2]%nat)
  /\ duplicated_from [] [NaN; VStr "a"; NaN; VStr "a"; VStr "b"] = [false; false; true; true; false].
Proof. vm_compute. repeat split; reflexivity. Qed.

(* ===================================================================== *)
(** * [transform_data] and the frame it builds *)
(* ===================================================================== *)

(** ** [transform_data] as a function of the frame *)

Lemma set_heap_id (w : World) : set_heap (heap w) w = w.
Proof. destruct w; reflexivity. Qed.

Lemma set_heap_set_heap (h h' : list DataFrame) (w : World) :
  set_heap h (set_heap h' w) = set_heap h w.
Proof. reflexivity. Qed.

Lemma has_column_getitem (col : string) (df : DataFrame) :
  has_column col df = true -> exists s, getitem df col = Ok s.
Proof.
  unfold has_column, getitem, column_names.
  induction (columns df) as [|[c s] cols IH]; simpl; [discriminate|].
  rewrite String.eqb_sym. destruct (String.eqb c col); [eauto | exact IH].
Qed.

Section TransformRun.
Context {rt : Runtime}.

Lemma update_column_eq (l : loc) (col : string) (f : Series -> result Series)
      (w : World) (df : DataFrame) :
  heap w !! l = Some df ->
  update_column l col f w =
  match update_frame col f df with
  | Ok df' => (set_heap (<[l := df']> (heap w)) w, Ok tt)
  | Raise e => (w, Raise e)
  end.
Proof.
  intros Hl. unfold update_column, update_frame.
  rewrite (bindM_ok _ _ _ _ _ (deref_eq l w df Hl)).
  destruct (has_column col df) eqn:Hc.
  - destruct (has_column_getitem col df Hc) as [s Hs]. rewrite Hs. cbn [bind].
    rewrite (bindM_ok _ _ w w s) by reflexivity.
    destruct (f s) as [s'|e] eqn:Hf.
    + rewrite (bindM_ok _ _ w w s') by reflexivity. reflexivity.
    + apply bindM_raise. reflexivity.
  - unfold ret. rewrite list_insert_id by exact Hl. rewrite set_heap_id. reflexivity.
Qed.

(** A run of column updates on the object at [l]: on success the object
    holds the frame [run_steps] computes; in any case only that object can
    have changed. *)
Lemma for_each_update_eq (l : loc) (steps : list (string * (Series -> result Series)))
      (w : World) (df : DataFrame) :
  heap w !! l = Some df ->
  exists x,
    for_each steps (fun cf => update_column l (fst cf) (snd cf)) w
    = (set_heap (<[l := x]> (heap w)) w,
       match run_steps steps df with Ok _ => Ok tt | Raise e => Raise e end)
    /\ (forall df', run_steps steps df = Ok df' -> x = df').
Proof.
  revert w df. induction steps as [|[col f] steps IH]; intros w df Hl.
  - exists df. cbn [for_each run_steps]. unfold ret.
    rewrite list_insert_id by exact Hl. rewrite set_heap_id. split; [reflexivity | congruence].
  - cbn [for_each run_steps fst snd]. unfold bindM at 1. rewrite (update_column_eq l col f w df Hl).
    destruct (update_frame col f df) as [df1|e] eqn:Hu; cbn [bind].
    + assert (Hl1 : heap (set_heap (<[l:=df1]> (heap w)) w) !! l = Some df1).
      { cbn [heap set_heap]. apply list_lookup_insert_eq. eapply lookup_lt_Some, Hl. }
      destruct (IH _ df1 Hl1) as (x & Hx & Hdf'). exists x. rewrite Hx.
      cbn [heap set_heap]. rewrite list_insert_insert_eq. split; [reflexivity | exact Hdf'].
    + exists df. rewrite list_insert_id by exact Hl. rewrite set_heap_id.
      split; [reflexivity | discriminate].
Qed.

End TransformRun.

Section TransformData.
Context {rt : Runtime}.

Lemma transform_data_steps (l : loc) (w : World) :
  transform_data l w
  = (let* l' := copy l in
     do for_each transform_steps (fun cf => update_column l' (fst cf) (snd cf)) in
     ret l') w.
Proof.
  unfold transform_data, bindM. destruct (copy l w) as [w1 [l'|e]]; [|reflexivity].
  unfold transform_steps, numeric_columns. cbn [for_each map app fst snd]. unfold bindM, ret.
  repeat match goal with
         | |- context [update_column ?a ?c ?f ?x] =>
             destruct (update_column a c f x) as [? [[]|?]]; try reflexivity
         end.
Qed.

(** [transform_data] allocates one new object and touches nothing else: on
    success the object holds [transform_frame] of the frame it was given. *)
Lemma transform_data_eq (l : loc) (w : World) (df : DataFrame) :
  heap w !! l = Some df ->
  exists x,
    transform_data l w
    = (set_heap (heap w ++ [x]) w,
       match transform_frame df with Ok _ => Ok (length (heap w)) | Raise e => Raise e end)
    /\ (forall df', transform_frame df = Ok df' -> x = df').
Proof.
  intros Hl. rewrite transform_data_steps. rewrite (bindM_ok _ _ _ _ _ (copy_eq l w df Hl)).
  set (w1 := set_heap (heap w ++ [df]) w).
  assert (Hl1 : heap w1 !! length (heap w) = Some df).
  { unfold w1. cbn [heap set_heap]. apply list_lookup_middle. reflexivity. }
  destruct (for_each_update_eq (length (heap w)) transform_steps w1 df Hl1) as (x & Hx & Hdf').
  exists x. split; [|exact Hdf'].
  unfold bindM at 1. rewrite Hx. unfold transform_frame.
  assert (set_heap (<[length (heap w) := x]> (heap w1)) w1 = set_heap (heap w ++ [x]) w) as E.
  { unfold w1. cbn [heap set_heap]. rewrite set_heap_set_heap.
    rewrite (insert_app_r_alt (heap w) [df] (length (heap w)) x) by lia.
    rewrite Nat.sub_diag. reflexivity. }
  rewrite E. destruct (run_steps transform_steps df); reflexivity.
Qed.

End TransformData.

(* ===================================================================== *)
(** * A second transformation *)
(* ===================================================================== *)

(** ** A second pass over a date *)

Lemma isdigit_not_slash (c : ascii) : isdigit c = true -> Ascii.eqb c "/" = false.
Proof. intros H. apply isdigit_not_sep; [exact H | reflexivity]. Qed.

(** A text that starts with three digits matches no format that starts with
    a day or a month followed by a slash. *)
Lemma day_slash_fails (a b c : ascii) (r : string) (ts : list tok) (f : field) :
  f = FDay \/ f = FMonth ->
  isdigit b = true -> isdigit c = true ->
  match_toks (Dir f :: Lit "/" :: ts) (String a (String b (String c r))) = None.
Proof.
  intros Hf Hb Hc.
  pose proof (isdigit_not_slash b Hb) as Eb. pose proof (isdigit_not_slash c Hc) as Ec.
  destruct Hf as [-> | ->]; cbn [match_toks alternatives match_alt];
    repeat match goal with
           | |- context [if ?t then _ else _] =>
               first [rewrite Eb | rewrite Ec | destruct t eqn:?]; cbn [match_toks]
           end; reflexivity.
Qed.

Section IsoAgain.
Context {rt : Runtime}.

Lemma slash_formats_fail_on_iso (d : date) :
  1000 <= year d ->
  strptime (strftime_iso d) "%d/%m/%Y" = None /\ strptime (strftime_iso d) "%m/%d/%Y" = None.
Proof.
  intros Hlate. rewrite (strftime_iso_chars d Hlate). unfold strptime.
  change (compile_format "%d/%m/%Y") with [Dir FDay; Lit "/"; Dir FMonth; Lit "/"; Dir FYear].
  change (compile_format "%m/%d/%Y") with [Dir FMonth; Lit "/"; Dir FDay; Lit "/"; Dir FYear].
  rewrite !day_slash_fails by (auto; apply isdigit_digit_char, Z.mod_pos_bound; lia).
  split; reflexivity.
Qed.

Lemma first_format_iso (d : date) :
  valid_date d = true -> 1000 <= year d -> first_format date_formats (strftime_iso d) = Some d.
Proof.
  intros Hv Hlate. destruct (slash_formats_fail_on_iso d Hlate) as [H1 H2].
  unfold date_formats. cbn [first_format].
  rewrite H1, H2, (strptime_strftime_iso d Hv Hlate). reflexivity.
Qed.

Lemma strip_iso (d : date) : 1000 <= year d -> strip (strftime_iso d) = strftime_iso d.
Proof.
  intros Hlate. apply strip_by_fixed.
  - rewrite (strftime_iso_chars d Hlate). cbn [head_in].
    pose proof (isdigit_digit_char (year d / 1000 mod 10) ltac:(apply Z.mod_pos_bound; lia)) as H.
    destruct (isspace _) eqn:E; [|reflexivity].
    revert H E. generalize (digit_char (year d / 1000 mod 10)).
    intros [[] [] [] [] [] [] [] []]; vm_compute; congruence.
  - rewrite (strftime_iso_chars d Hlate). unfold pad2.
    change (String "-" (?a ++ "-" ++ ?b)) with (String "-" (a ++ String "-" b)).
    cbv [String.append last_in].
    pose proof (isdigit_digit_char (day d mod 10) ltac:(apply Z.mod_pos_bound; lia)) as H.
    destruct (isspace _) eqn:E; [|reflexivity].
    revert H E. generalize (digit_char (day d mod 10)).
    intros [[] [] [] [] [] [] [] []]; vm_compute; congruence.
Qed.

Lemma iso_nonempty (d : date) : 1000 <= year d -> strftime_iso d <> "".
Proof. intros Hlate. rewrite (strftime_iso_chars d Hlate). discriminate. Qed.

End IsoAgain.

Lemma strip_idem (s : string) : strip (strip s) = strip s.
Proof. apply strip_by_idem. Qed.

Section DateAgain.
Context {rt : Runtime}.
Hypothesis to_datetime_valid :
  forall s d, to_datetime s = Ok (Stamp d) -> valid_date d = true /\ 1000 <= year d.

Lemma parse_date_iso (d : date) :
  valid_date d = true -> 1000 <= year d ->
  _parse_date (VStr (strftime_iso d)) = Ok (VStr (strftime_iso d)).
Proof.
  intros Hv Hlate.
  rewrite (parse_date_str _ (iso_nonempty d Hlate)), (strip_iso d Hlate), (first_format_iso d Hv Hlate).
  reflexivity.
Qed.

(** The text [_parse_date] works on once the null and empty tests are
    passed. *)
Lemma parse_date_text (v : value) :
  truthy (isna v) = Ok false -> eq_str v "" = false ->
  _parse_date v =
  match first_format date_formats (strip (py_str v)) with
  | Some d => Ok (VStr (strftime_iso d))
  | None =>
      match bind (to_datetime (strip (py_str v))) timestamp_strftime with
      | Ok t => Ok (VStr t)
      | Raise _ => Ok (VStr (strip (py_str v)))
      end
  end.
Proof. intros Hna He. unfold _parse_date. rewrite Hna. cbn [bind orb]. rewrite He. reflexivity. Qed.

(** A date cell that [_parse_date] produced is left as it is by a second
    call, unless it is the empty string or a date before the year 1000. *)
Lemma parse_date_again (v v' : value) :
  _parse_date v = Ok v' -> v' <> VStr "" ->
  (forall d, first_format date_formats (strip (py_str v)) = Some d -> 1000 <= year d) ->
  _parse_date v' = Ok v'.
Proof.
  intros H Hne Hlate. unfold _parse_date in H.
  destruct (truthy (isna v)) as [na|e] eqn:Hna; [|discriminate]. cbn [bind] in H.
  destruct (na || eq_str v "") eqn:Hb; [injection H as <-; reflexivity|].
  destruct (first_format date_formats (strip (py_str v))) as [d|] eqn:Hf.
  - injection H as <-. apply parse_date_iso; [eapply first_format_valid, Hf | apply Hlate; reflexivity].
  - destruct (to_datetime (strip (py_str v))) as [[|d]|e] eqn:Ht; cbn [bind timestamp_strftime] in H;
      injection H as <-.
    + assert (strip (py_str v) <> "") as Hs by (intros E; apply Hne; rewrite E; reflexivity).
      rewrite (parse_date_str _ Hs), strip_idem, Hf, Ht. reflexivity.
    + apply parse_date_iso; eapply to_datetime_valid, Ht.
    + assert (strip (py_str v) <> "") as Hs by (intros E; apply Hne; rewrite E; reflexivity).
      rewrite (parse_date_str _ Hs), strip_idem, Hf, Ht. reflexivity.
Qed.

End DateAgain.

(** ** Columns of a frame *)

Lemma lookup_set_column_eq (col : string) (s : Series) (cols : list (string * Series)) :
  lookup_column col (set_column col s cols) = Some s.
Proof.
  induction cols as [|[c s0] cols IH]; simpl.
  - rewrite String.eqb_refl. reflexivity.
  - destruct (String.eqb c col) eqn:E; simpl; rewrite E; [reflexivity | exact IH].
Qed.

Lemma lookup_set_column_ne (col col' : string) (s : Series) (cols : list (string * Series)) :
  col <> col' -> lookup_column col' (set_column col s cols) = lookup_column col' cols.
Proof.
  intros Hne. induction cols as [|[c s0] cols IH]; simpl.
  - apply String.eqb_neq in Hne. rewrite Hne. reflexivity.
  - destruct (String.eqb c col) eqn:E; simpl.
    + apply String.eqb_eq in E as ->. apply String.eqb_neq in Hne. rewrite Hne. reflexivity.
    + destruct (String.eqb c col'); [reflexivity | exact IH].
Qed.

Lemma set_column_id (col : string) (s : Series) (cols : list (string * Series)) :
  lookup_column col cols = Some s -> set_column col s cols = cols.
Proof.
  induction cols as [|[c s0] cols IH]; simpl; [discriminate|].
  destruct (String.eqb c col) eqn:E.
  - intros [= ->]. reflexivity.
  - intros H. rewrite (IH H). reflexivity.
Qed.

Lemma has_column_lookup (col : string) (df : DataFrame) :
  has_column col df = match lookup_column col (columns df) with Some _ => true | None => false end.
Proof.
  unfold has_column, column_names.
  induction (columns df) as [|[c s] cols IH]; simpl; [reflexivity|].
  rewrite String.eqb_sym. destruct (String.eqb c col); [reflexivity | exact IH].
Qed.

Lemma update_frame_lookup (col : string) (f : Series -> result Series) (df : DataFrame) :
  update_frame col f df =
  match lookup_column col (columns df) with
  | Some s => bind (f s) (fun s' => Ok (setitem df col s'))
  | None => Ok df
  end.
Proof.
  unfold update_frame, getitem. rewrite has_column_lookup.
  destruct (lookup_column col (columns df)); reflexivity.
Qed.

Lemma step_for_notin (col : string) (steps : list (string * (Series -> result Series))) :
  ~ In col (map fst steps) -> step_for col steps = None.
Proof.
  induction steps as [|[c f] steps IH]; simpl; [reflexivity|].
  intros H. destruct (String.eqb c col) eqn:E.
  - apply String.eqb_eq in E. tauto.
  - apply IH. tauto.
Qed.

Lemma step_for_in (col : string) (f : Series -> result Series)
      (steps : list (string * (Series -> result Series))) :
  NoDup (map fst steps) -> In (col, f) steps -> step_for col steps = Some f.
Proof.
  induction steps as [|[c g] steps IH]; simpl; [tauto|].
  intros Hnd [H | H].
  - injection H as -> ->. rewrite String.eqb_refl. reflexivity.
  - apply NoDup_cons in Hnd as [Hc Hnd].
    destruct (String.eqb c col) eqn:E.
    + apply String.eqb_eq in E as ->. exfalso. apply Hc.
      apply list_elem_of_In. apply (in_map fst _ _ H).
    + exact (IH Hnd H).
Qed.

(** What a run of column updates does to each column: the column with a
    step is replaced by the result of its step, every other column stays. *)
Lemma run_steps_lookup (steps : list (string * (Series -> result Series)))
      (df df' : DataFrame) (col : string) :
  NoDup (map fst steps) ->
  run_steps steps df = Ok df' ->
  match lookup_column col (columns df) with
  | None => lookup_column col (columns df') = None
  | Some s =>
      match step_for col steps with
      | None => lookup_column col (columns df') = Some s
      | Some f => exists s', f s = Ok s' /\ lookup_column col (columns df') = Some s'
      end
  end.
Proof.
  revert df. induction steps as [|[c f] steps IH]; intros df Hnd Hrun.
  - injection Hrun as <-. simpl. destruct (lookup_column col (columns df)); reflexivity.
  - apply NoDup_cons in Hnd as [Hc Hnd]. cbn [run_steps] in Hrun.
    rewrite update_frame_lookup in Hrun.
    destruct (lookup_column c (columns df)) as [s0|] eqn:Hs0.
    + destruct (f s0) as [s1|e] eqn:Hf; [|discriminate]. cbn [bind] in Hrun.
      specialize (IH _ Hnd Hrun). cbn [setitem columns] in IH. cbn [step_for].
      destruct (String.eqb c col) eqn:E.
      * apply String.eqb_eq in E as <-. rewrite Hs0.
        rewrite lookup_set_column_eq in IH.
        rewrite step_for_notin in IH by (intros Hin; apply Hc, list_elem_of_In, Hin).
        eauto.
      * apply String.eqb_neq in E. rewrite lookup_set_column_ne in IH by exact E. exact IH.
    + cbn [bind] in Hrun. specialize (IH _ Hnd Hrun). cbn [step_for].
      destruct (String.eqb c col) eqn:E; [|exact IH].
      apply String.eqb_eq in E as <-. rewrite Hs0 in *. exact IH.
Qed.

(** A run of column updates changes nothing when every step maps the column
    it finds to itself. *)
Lemma run_steps_fixed (steps : list (string * (Series -> result Series))) (df : DataFrame) :
  (forall col f s, In (col, f) steps -> lookup_column col (columns df) = Some s -> f s = Ok s) ->
  run_steps steps df = Ok df.
Proof.
  induction steps as [|[c f] steps IH]; intros H; [reflexivity|].
  cbn [run_steps]. rewrite update_frame_lookup.
  destruct (lookup_column c (columns df)) as [s|] eqn:Hs.
  - rewrite (H c f s (or_introl eq_refl) Hs). cbn [bind]. unfold setitem.
    rewrite (set_column_id _ _ _ Hs).
    replace {| index := index df; columns := columns df |} with df by (destruct df; reflexivity).
    apply IH. intros col g s' Hin. apply H. right. exact Hin.
  - cbn [bind]. apply IH. intros col g s' Hin. apply H. right. exact Hin.
Qed.

(** ** The steps applied to their own results *)

Lemma upper_app (a b : string) : upper (a ++ b) = upper a ++ upper b.
Proof.
  induction a as [|c a IH]; [reflexivity|].
  rewrite append_cons. cbn [upper]. rewrite IH, append_assoc. reflexivity.
Qed.

Lemma upper_char_idem (c : ascii) : upper (upper_char c) = upper_char c.
Proof. destruct c as [[] [] [] [] [] [] [] []]; reflexivity. Qed.

Lemma upper_idem (s : string) : upper (upper s) = upper s.
Proof.
  induction s as [|c s IH]; [reflexivity|].
  cbn [upper]. rewrite upper_app, upper_char_idem, IH. reflexivity.
Qed.

Lemma upper_cell_idem (v : value) : upper_cell (upper_cell v) = upper_cell v.
Proof. destruct v; simpl; try reflexivity. rewrite upper_idem. reflexivity. Qed.

(** No cell of an upper-cased column is a number. *)
Lemma numbers_only_upper (xs : list value) : numbers_only (map upper_cell xs) = false.
Proof.
  unfold numbers_only.
  assert (E : existsb is_number (map upper_cell xs) = false).
  { induction xs as [|v xs IH]; [reflexivity|]. cbn [map existsb]. rewrite IH.
    destruct v; reflexivity. }
  rewrite E. reflexivity.
Qed.

Lemma str_upper_again (s s' : Series) : str_upper s = Ok s' -> str_upper s' = Ok s'.
Proof.
  destruct s as [xs|xs|xs]; try discriminate. cbn [str_upper].
  destruct (numbers_only xs); [discriminate|]. intros [= <-]. cbn [str_upper].
  rewrite numbers_only_upper, map_map. do 2 f_equal. apply map_ext. intros v. apply upper_cell_idem.
Qed.

Section StepsAgain.
Context {rt : Runtime}.

Lemma astype_int_is_int64 (s s' : Series) : astype_int s = Ok s' -> exists xs, s' = Int64 xs.
Proof.
  destruct s as [xs|xs|xs]; cbn [astype_int].
  - intros [= <-]. eauto.
  - destruct (forallb is_finite xs); [|discriminate]. intros [= <-]. eauto.
  - destruct (mapM py_int xs); [|discriminate]. intros [= <-]. eauto.
Qed.

Lemma coerce_integer_is_int64 (s s' : Series) :
  coerce_integer s = Ok s' -> exists xs, s' = Int64 xs.
Proof.
  unfold coerce_integer. destruct (has_wide s); [|apply astype_int_is_int64].
  destruct (coerce_wide (values s)) as [ns|e]; [|discriminate]. intros [= <-]. eauto.
Qed.

Lemma coerce_integer_again (s s' : Series) : coerce_integer s = Ok s' -> coerce_integer s' = Ok s'.
Proof. intros H. apply coerce_integer_is_int64 in H as [xs ->]. reflexivity. Qed.

Lemma blank_sentinels_cells (s : Series) :
  blank_sentinels s = Ok (Object (map blank_cell (values s))).
Proof.
  unfold blank_sentinels, astype_str, replace. rewrite !map_map. do 2 f_equal.
  apply map_ext. intros v. unfold blank_cell. cbn [eq_str].
  destruct (String.eqb (py_str v) "nan") eqn:E1; [reflexivity|]. cbn [eq_str].
  destruct (String.eqb (py_str v) "None"); reflexivity.
Qed.

Lemma blank_cell_idem (v : value) : blank_cell (blank_cell v) = blank_cell v.
Proof.
  unfold blank_cell at 2 3.
  destruct (String.eqb (py_str v) "nan") eqn:E1; [reflexivity|].
  destruct (String.eqb (py_str v) "None") eqn:E2; [reflexivity|].
  unfold blank_cell. cbn [py_str]. rewrite E1, E2. reflexivity.
Qed.

Lemma blank_sentinels_again (s s' : Series) :
  blank_sentinels s = Ok s' -> blank_sentinels s' = Ok s'.
Proof.
  rewrite blank_sentinels_cells. intros [= <-]. rewrite blank_sentinels_cells.
  cbn [values]. rewrite map_map. do 2 f_equal. apply map_ext. intros v. apply blank_cell_idem.
Qed.

Lemma mapM_ok_inv {A B} (f : A -> result B) (l : list A) (l' : list B) :
  mapM f l = Ok l' -> Forall2 (fun x y => f x = Ok y) l l'.
Proof.
  revert l'. induction l as [|x l IH]; intros l'; simpl.
  - intros [= <-]. constructor.
  - destruct (f x) as [y|e] eqn:Hx; [|discriminate]. cbn [bind].
    destruct (mapM f l) as [ys|e]; [|discriminate]. cbn [bind]. intros [= <-].
    constructor; [exact Hx | apply IH; reflexivity].
Qed.

Lemma mapM_fixed {A} (f : A -> result A) (l : list A) :
  Forall (fun x => f x = Ok x) l -> mapM f l = Ok l.
Proof.
  induction 1 as [|x l Hx _ IH]; simpl; [reflexivity|]. rewrite Hx, IH. reflexivity.
Qed.

Hypothesis to_datetime_valid :
  forall s d, to_datetime s = Ok (Stamp d) -> valid_date d = true /\ 1000 <= year d.

Lemma apply_parse_date_again (s s' : Series) :
  apply _parse_date s = Ok s' -> VStr "" ∉ values s' ->
  (forall v d, v ∈ values s -> first_format date_formats (strip (py_str v)) = Some d ->
               1000 <= year d) ->
  apply _parse_date s' = Ok s'.
Proof.
  unfold apply at 1. destruct (values s) as [|v vs] eqn:Hv.
  - intros [= <-] _ _. unfold apply. rewrite Hv. reflexivity.
  - destruct (mapM _parse_date (v :: vs)) as [ws|e] eqn:Hm; [|discriminate]. cbn [bind].
    intros [= <-] Hne Hlate. cbn [values] in Hne. unfold apply. cbn [values].
    apply mapM_ok_inv in Hm.
    assert (mapM _parse_date ws = Ok ws) as E.
    { apply mapM_fixed. apply Forall_forall. intros x Hx.
      apply list_elem_of_lookup in Hx as Hi. destruct Hi as [i Hi].
      destruct (Forall2_lookup_r _ _ _ _ _ Hm Hi) as (y & Hy & Hyx).
      apply (parse_date_again to_datetime_valid y x Hyx); [intros ->; exact (Hne Hx)|].
      intros d Hd. apply (Hlate y d); [|exact Hd].
      eapply list_elem_of_lookup_2, Hy. }
    destruct ws as [|x ws]; [reflexivity|]. rewrite E. reflexivity.
Qed.

End StepsAgain.

(** ** The whole transformation, twice *)

Lemma transform_steps_names :
  NoDup (map fst (@transform_steps example_runtime)) /\
  forall rt : Runtime, map fst (@transform_steps rt) = map fst (@transform_steps example_runtime).
Proof.
  split; [|reflexivity].
  apply NoDup_ListNoDup. repeat constructor; simpl; intuition discriminate.
Qed.

Section TransformAgain.
Context {rt : Runtime}.
Hypothesis to_datetime_valid :
  forall s d, to_datetime s = Ok (Stamp d) -> valid_date d = true /\ 1000 <= year d.

Lemma transform_steps_NoDup : NoDup (map fst transform_steps).
Proof. rewrite (proj2 transform_steps_names rt). exact (proj1 transform_steps_names). Qed.

Lemma transform_frame_again (df df1 : DataFrame) :
  has_column "genres" df = false -> has_column "feat_track_ids" df = false ->
  transform_frame df = Ok df1 ->
  (forall dates, getitem df1 "dates" = Ok dates -> VStr "" ∉ values dates) ->
  (forall dates v d, getitem df "dates" = Ok dates -> v ∈ values dates ->
     first_format date_formats (strip (py_str v)) = Some d -> 1000 <= year d) ->
  transform_frame df1 = Ok df1.
Proof.
  intros Hg Hf Hrun Hdates Hlate. apply run_steps_fixed. intros col f s1 Hin Hs1.
  pose proof (run_steps_lookup transform_steps df df1 col transform_steps_NoDup Hrun) as L.
  rewrite (step_for_in col f _ transform_steps_NoDup Hin) in L.
  rewrite has_column_lookup in Hg, Hf.
  destruct (lookup_column col (columns df)) as [s|] eqn:Hs; [|congruence].
  destruct L as (s' & Hfs & Hs'). assert (s' = s1) as -> by congruence.
  unfold transform_steps, numeric_columns in Hin. cbn [map app] in Hin.
  repeat (destruct Hin as [Hin | Hin];
          [injection Hin as <- <-;
           first [ eapply coerce_integer_again; eassumption
                 | eapply blank_sentinels_again; eassumption
                 | eapply str_upper_again; eassumption
                 | idtac ] |]);
    try (exfalso; rewrite Hs in *; discriminate); try destruct Hin.
  apply (apply_parse_date_again to_datetime_valid s s1 Hfs).
  - apply Hdates. unfold getitem. rewrite Hs1. reflexivity.
  - intros v d. apply Hlate. unfold getitem. rewrite Hs. reflexivity.
Qed.

(** C8 (as the code has it). The general-purpose parser returns calendar
    dates of the year 1000 or later (a pandas timestamp cannot be earlier
    than 1677). Then a frame that has no array column, once transformed, is
    transformed into itself, provided no date cell of the result is the
    empty string and no date cell of the input is read by a fixed format as
    a date before the year 1000, whose text [strftime] may render with
    fewer than four year digits: the second call builds a new frame equal
    to the first result. *)
Theorem transform_data_again_without_arrays (w w1 : World) (l l1 : loc) (df df1 : DataFrame) :
  heap w !! l = Some df ->
  has_column "genres" df = false -> has_column "feat_track_ids" df = false ->
  transform_data l w = (w1, Ok l1) ->
  heap w1 !! l1 = Some df1 ->
  (forall dates, getitem df1 "dates" = Ok dates -> VStr "" ∉ values dates) ->
  (forall dates v d, getitem df "dates" = Ok dates -> v ∈ values dates ->
     first_format date_formats (strip (py_str v)) = Some d -> 1000 <= year d) ->
  exists w2 l2, transform_data l1 w1 = (w2, Ok l2) /\ heap w2 !! l2 = Some df1.
Proof.
  intros Hl Hg Hf Hrun Hl1 Hdates Hlate.
  destruct (transform_data_eq l w df Hl) as (x & Hx & Hdf1). rewrite Hx in Hrun.
  destruct (transform_frame df) as [df1'|e] eqn:Ht; [|discriminate].
  injection Hrun as <- <-. rewrite (Hdf1 df1' eq_refl) in *.
  assert (df1' = df1) as ->.
  { cbn [heap set_heap] in Hl1. rewrite list_lookup_middle in Hl1 by reflexivity. congruence. }
  destruct (transform_data_eq _ _ df1 Hl1) as (y & Hy & Hdf2).
  rewrite (transform_frame_again df df1 Hg Hf Ht Hdates Hlate) in Hy, Hdf2.
  rewrite (Hdf2 df1 eq_refl) in Hy.
  eexists _, _. split; [exact Hy|].
  cbn [heap set_heap]. apply list_lookup_middle. rewrite length_app. reflexivity.
Qed.

End TransformAgain.

(** C8 as the specification states it fails. A genres cell that names one
    genre becomes a one-element list, and the second transformation makes it
    the empty list; with two genres the second transformation raises. A
    blank date becomes the empty string and then [None]. *)
Lemma transform_data_is_not_idempotent :
  (let w1 := fst (@transform_data example_runtime 0%nat (world_of one_genre_frame)) in
   let w2 := fst (@transform_data example_runtime 1%nat w1) in
   snd (@transform_data example_runtime 0%nat (world_of one_genre_frame)) = Ok 1%nat /\
   snd (@transform_data example_runtime 1%nat w1) = Ok 2%nat /\
   column_at w1 1 "genres" = Some (Object [VList ["rock"]]) /\
   column_at w2 2 "genres" = Some (Object [VList []]))
  /\ (let w1 := fst (@transform_data example_runtime 0%nat (world_of two_genres_frame)) in
      snd (@transform_data example_runtime 0%nat (world_of two_genres_frame)) = Ok 1%nat /\
      column_at w1 1 "genres" = Some (Object [VList ["rock"; "pop"]]) /\
      snd (@transform_data example_runtime 1%nat w1) = Raise ValueError)
  /\ (let w1 := fst (@transform_data example_runtime 0%nat (world_of blank_date_frame)) in
      let w2 := fst (@transform_data example_runtime 1%nat w1) in
      snd (@transform_data example_runtime 0%nat (world_of blank_date_frame)) = Ok 1%nat /\
      snd (@transform_data example_runtime 1%nat w1) = Ok 2%nat /\
      column_at w1 1 "dates" = Some (Object [VStr ""]) /\
      column_at w2 2 "dates" = Some (Object [VNone])).
Proof. vm_compute. repeat split; reflexivity. Qed.

Lemma example_to_datetime_valid (s : string) (d : date) :
  @to_datetime example_runtime s = Ok (Stamp d) -> valid_date d = true /\ 1000 <= year d.
Proof.
  cbn [to_datetime example_runtime]. destruct (String.eqb s ""); [discriminate|].
  destruct (strptime s "%d %m %Y") as [d'|] eqn:E; [|discriminate].
  destruct ((1678 <=? year d') && (year d' <=? 2261)) eqn:Hy; [|discriminate].
  intros [= <-]. split; [eapply strptime_valid, E | lia].
Qed.

Lemma transform_data_again_without_arrays_witness :
  exists w2 l2,
    @transform_data example_runtime 1%nat
       (fst (@transform_data example_runtime 0%nat (world_of plain_frame))) = (w2, Ok l2) /\
    heap w2 !! l2 = Some plain_frame_transformed.
Proof.
  apply (@transform_data_again_without_arrays example_runtime example_to_datetime_valid
           (world_of plain_frame)
           (fst (@transform_data example_runtime 0%nat (world_of plain_frame)))
           0%nat 1%nat plain_frame plain_frame_transformed).
  - reflexivity.
  - reflexivity.
  - reflexivity.
  - vm_compute. reflexivity.
  - vm_compute. reflexivity.
  - intros dates [= <-]. cbn [values]. intros H.
    repeat (apply elem_of_cons in H as [H | H]; [discriminate|]). inversion H.
  - intros dates v d [= <-]. cbn [values]. intros H.
    repeat (apply elem_of_cons in H as [-> | H];
            [vm_compute; intros E; first [discriminate E | injection E as <-; discriminate] |]).
    inversion H.
Defined.
(* ===================================================================== *)
(** * The shape of a frame through the transformation *)
(* ===================================================================== *)

Lemma set_column_names (col : string) (s s' : Series) (cols : list (string * Series)) :
  lookup_column col cols = Some s -> map fst (set_column col s' cols) = map fst cols.
Proof.
  induction cols as [|[c s0] cols IH]; simpl; [discriminate|].
  destruct (String.eqb c col) eqn:E; [reflexivity|].
  intros H. simpl. rewrite (IH H). reflexivity.
Qed.

Lemma set_column_lengths (n : nat) (col : string) (s' : Series) (cols : list (string * Series)) :
  series_len s' = n ->
  Forall (fun cs => series_len (snd cs) = n) cols ->
  Forall (fun cs => series_len (snd cs) = n) (set_column col s' cols).
Proof.
  intros Hs'. induction 1 as [|[c s0] cols H0 Hr IH]; simpl.
  - repeat constructor. exact Hs'.
  - destruct (String.eqb c col).
    + constructor; [exact Hs' | exact Hr].
    + constructor; [exact H0 | exact IH].
Qed.

Lemma lookup_column_length (n : nat) (col : string) (s : Series) (cols : list (string * Series)) :
  Forall (fun cs => series_len (snd cs) = n) cols ->
  lookup_column col cols = Some s -> series_len s = n.
Proof.
  induction 1 as [|[c s0] cols H0 _ IH]; simpl; [discriminate|].
  destruct (String.eqb c col); [intros [= <-]; exact H0 | exact IH].
Qed.

Lemma mapM_length {A B} (f : A -> result B) (l : list A) (l' : list B) :
  mapM f l = Ok l' -> length l' = length l.
Proof. intros H. apply mapM_ok_inv in H. symmetry. eapply Forall2_length, H. Qed.

Section StepShapes.
Context {rt : Runtime}.

Lemma apply_length (f : value -> result value) (s s' : Series) :
  apply f s = Ok s' -> series_len s' = series_len s.
Proof.
  unfold apply, series_len. destruct (values s) as [|v vs] eqn:E.
  - intros [= <-]. rewrite E. reflexivity.
  - destruct (mapM f (v :: vs)) as [ws|e] eqn:Hm; [|discriminate]. intros [= <-].
    cbn [values]. apply (mapM_length _ _ _ Hm).
Qed.

Lemma str_upper_length (s s' : Series) : str_upper s = Ok s' -> series_len s' = series_len s.
Proof.
  destruct s as [xs|xs|xs]; try discriminate. cbn [str_upper].
  destruct (numbers_only xs); [discriminate|]. intros [= <-]. unfold series_len. cbn [values].
  apply length_map.
Qed.

Lemma coerce_integer_length (s s' : Series) :
  coerce_integer s = Ok s' -> series_len s' = series_len s.
Proof.
  unfold coerce_integer, series_len. destruct (has_wide s).
  { destruct (coerce_wide (values s)) as [ns|e] eqn:Hw; [|discriminate]. intros [= <-].
    cbn [values]. rewrite length_map. apply (coerce_wide_length _ _ Hw). }
  assert (L1 : length (values (fillna0 (to_numeric s))) = length (values s)).
  { destruct s as [xs|xs|xs]; cbn [to_numeric fillna0 values]; rewrite ?length_map; try reflexivity.
    destruct (forallb is_NInt (map to_numeric_cell xs)); cbn [fillna0 values]; rewrite !length_map;
      reflexivity. }
  rewrite <- L1. generalize (fillna0 (to_numeric s)). intros t.
  destruct t as [xs|xs|xs]; cbn [astype_int values].
  - intros [= <-]. reflexivity.
  - destruct (forallb is_finite xs); [|discriminate]. intros [= <-]. cbn [values].
    rewrite !length_map. reflexivity.
  - destruct (mapM py_int xs) as [ns|e] eqn:Hm; [|discriminate]. intros [= <-]. cbn [values].
    rewrite length_map. apply (mapM_length _ _ _ Hm).
Qed.

Lemma blank_sentinels_length (s s' : Series) :
  blank_sentinels s = Ok s' -> series_len s' = series_len s.
Proof.
  rewrite blank_sentinels_cells. intros [= <-]. unfold series_len. cbn [values]. apply length_map.
Qed.

Lemma transform_steps_lengths (col : string) (f : Series -> result Series) (s s' : Series) :
  In (col, f) transform_steps -> f s = Ok s' -> series_len s' = series_len s.
Proof.
  unfold transform_steps, numeric_columns. cbn [map app]. intros Hin.
  repeat (destruct Hin as [Hin | Hin];
          [injection Hin as <- <-;
           first [ apply apply_length | apply str_upper_length
                 | apply coerce_integer_length | apply blank_sentinels_length ] |]).
  destruct Hin.
Qed.

Lemma run_steps_shape (steps : list (string * (Series -> result Series))) (df df' : DataFrame) (n : nat) :
  (forall col f s s', In (col, f) steps -> f s = Ok s' -> series_len s' = series_len s) ->
  run_steps steps df = Ok df' ->
  index df' = index df /\ column_names df' = column_names df /\
  (Forall (fun cs => series_len (snd cs) = n) (columns df) ->
   Forall (fun cs => series_len (snd cs) = n) (columns df')).
Proof.
  revert df. induction steps as [|[c f] steps IH]; intros df Hlen Hrun.
  - injection Hrun as <-. auto.
  - cbn [run_steps] in Hrun. rewrite update_frame_lookup in Hrun.
    assert (Hlen' : forall col g s s', In (col, g) steps -> g s = Ok s' -> series_len s' = series_len s).
    { intros col g s s' Hin. apply (Hlen col g s s'). right. exact Hin. }
    destruct (lookup_column c (columns df)) as [s|] eqn:Hs; [|exact (IH df Hlen' Hrun)].
    destruct (f s) as [s1|e] eqn:Hf; [|discriminate]. cbn [bind] in Hrun.
    destruct (IH _ Hlen' Hrun) as (Hi & Hn & Hl). cbn [setitem index columns] in *.
    split; [exact Hi|]. split.
    + rewrite Hn. unfold column_names. cbn [columns]. apply (set_column_names _ _ _ _ Hs).
    + intros Hall. apply Hl. apply set_column_lengths; [|exact Hall].
      rewrite (Hlen c f s s1 (or_introl eq_refl) Hf). apply (lookup_column_length n c s _ Hall Hs).
Qed.

End StepShapes.

Lemma iterrows_columns (d : DataFrame) (ir : nat * row) :
  ir ∈ iterrows d -> map fst (snd ir) = column_names d.
Proof.
  intros Hin. apply list_elem_of_lookup in Hin as [i Hi]. unfold iterrows in Hi.
  rewrite list_lookup_imap in Hi. destruct (index d !! i); [|discriminate].
  injection Hi as <-. cbn [snd]. unfold row_at, column_names. rewrite map_map. reflexivity.
Qed.

(* ===================================================================== *)
(** * The run and its sinks *)
(* ===================================================================== *)

(** ** What each method does to the sinks *)

Lemma sinks_grow_refl P Q (w : World) : sinks_grow P Q w w.
Proof. split; [reflexivity|]. exists [], []. rewrite !app_nil_r. auto. Qed.

Lemma sinks_grow_trans P Q (w1 w2 w3 : World) :
  sinks_grow P Q w1 w2 -> sinks_grow P Q w2 w3 -> sinks_grow P Q w1 w3.
Proof.
  intros (H1 & s1 & f1 & Hs1 & Hf1 & HP1 & HQ1) (H2 & s2 & f2 & Hs2 & Hf2 & HP2 & HQ2).
  split; [congruence|]. exists (s1 ++ s2)%list, (f1 ++ f2)%list.
  rewrite Hs2, Hs1, Hf2, Hf1, !app_assoc. repeat split; try reflexivity; apply Forall_app; auto.
Qed.

Lemma sinks_grow_connections P Q (w : World) (n : nat) :
  sinks_grow P Q w {| heap := heap w; connections := n; store := store w; files := files w |}.
Proof. split; [reflexivity|]. exists [], []. cbn. rewrite !app_nil_r. auto. Qed.

Section Sinks.
Context {rt : Runtime} (env : Env) (self : Self).
Variables (P : statement -> Prop) (Q : string * file -> Prop).

Lemma connect_loop_sinks (n : nat) (w : World) :
  sinks_grow P Q w (fst (connect_loop env n w)).
Proof.
  revert w. induction n as [|n IH]; intros w; [apply sinks_grow_refl|].
  cbn [connect_loop]. unfold bindM, try_connect.
  destruct (connect env (connections w)); [apply sinks_grow_connections|].
  destruct n as [|n]; [apply sinks_grow_connections|].
  eapply sinks_grow_trans; [apply sinks_grow_connections | apply IH].
Qed.

Lemma for_each_insert_sinks (table_name : string) (is_reject : bool) (rows : list (nat * row)) (w : World) :
  Forall (fun ir => P (insert_statement table_name is_reject (snd ir))) rows ->
  sinks_grow P Q w
    (fst (for_each rows (fun ir => execute_insert env (insert_statement table_name is_reject (snd ir))) w))
  /\ snd (for_each rows (fun ir => execute_insert env (insert_statement table_name is_reject (snd ir))) w)
     = Ok tt.
Proof.
  revert w. induction rows as [|ir rows IH]; intros w Hrows.
  - split; [apply sinks_grow_refl | reflexivity].
  - apply Forall_cons in Hrows as [Hir Hrows]. cbn [for_each]. unfold bindM, execute_insert at 1 3.
    destruct (execute env (store w) _).
    + destruct (IH {| heap := heap w; connections := connections w;
                      store := store w ++ [insert_statement table_name is_reject (snd ir)];
                      files := files w |} Hrows) as [IH1 IH2].
      split; [|exact IH2].
      eapply sinks_grow_trans; [|exact IH1].
      split; [reflexivity|]. eexists [_], []. cbn. rewrite app_nil_r. auto.
    + apply IH, Hrows.
Qed.

Lemma insert_to_database_sinks (l : loc) (table_name : string) (is_reject : bool)
      (w : World) (d : DataFrame) :
  heap w !! l = Some d ->
  Forall (fun ir => P (insert_statement table_name is_reject (snd ir))) (iterrows d) ->
  sinks_grow P Q w (fst (insert_to_database env l table_name is_reject w)).
Proof.
  intros Hl Hrows. unfold insert_to_database, get_db_connection.
  pose proof (connect_loop_sinks max_retries w) as Hc.
  unfold bindM at 1. destruct (connect_loop env max_retries w) as [w1 [[]|e]]; [|exact Hc].
  cbn [fst] in Hc. assert (Hl1 : heap w1 !! l = Some d) by (rewrite (proj1 Hc); exact Hl).
  unfold bindM at 1, db_call at 1. destruct (open_cursor env (store w1)); [exact Hc|].
  rewrite (bindM_ok _ _ _ _ _ (deref_eq l w1 d Hl1)).
  destruct (for_each_insert_sinks table_name is_reject (iterrows d) w1 Hrows) as [Hg Hok].
  unfold bindM at 1.
  destruct (for_each (iterrows d) _ w1) as [w2 r]. cbn [fst snd] in Hg, Hok. subst r.
  pose proof (sinks_grow_trans _ _ _ _ _ Hc Hg) as Hw2.
  unfold bindM, db_call.
  destruct (commit env (store w2)); [exact Hw2|].
  destruct (close_cursor env (store w2)); [exact Hw2|].
  destruct (close_connection env (store w2)); exact Hw2.
Qed.

Lemma write_file_sinks (path : string) (content : file) (w : World) :
  Q (path, content) ->
  sinks_grow P Q w (fst (write_file env path content w)) /\
  (snd (write_file env path content w) = Ok tt ->
   (path, content) ∈ files (fst (write_file env path content w))).
Proof.
  intros HQ. unfold write_file. destruct (writable env path); cbn [fst snd].
  - split.
    + split; [reflexivity|]. exists [], [(path, content)]. cbn. rewrite app_nil_r. auto.
    + intros _. cbn [files]. apply elem_of_app. right. apply list_elem_of_singleton. reflexivity.
  - split; [apply sinks_grow_refl | discriminate].
Qed.


Lemma save_to_json_sinks (l : loc) (filename : string) (w : World) (d : DataFrame) :
  heap w !! l = Some d ->
  (forall n data, Q (path_join (target_path self) filename, JsonFile n data)) ->
  sinks_grow P Q w (fst (save_to_json env self l filename w)).
Proof.
  intros Hl HQ. unfold save_to_json. rewrite (bindM_ok _ _ _ _ _ (deref_eq l w d Hl)).
  unfold bindM, lift. destruct (mapM _ (iterrows d)) as [data|e]; [|apply sinks_grow_refl].
  apply write_file_sinks, HQ.
Qed.

Lemma get_table_count_sinks (table_name : string) (w : World) :
  sinks_grow P Q w (fst (get_table_count env table_name w)) /\
  exists n, snd (get_table_count env table_name w) = Ok n.
Proof.
  unfold get_table_count, catch, get_db_connection, bindM.
  pose proof (connect_loop_sinks max_retries w) as Hc.
  destruct (connect_loop env max_retries w) as [w1 [[]|e]]; cbn [fst] in Hc.
  - unfold db_call. destruct (open_cursor env (store w1)); [cbn [fst snd ret]; eauto|].
    destruct (select_count env (store w1) table_name); [|cbn [fst snd ret]; eauto].
    destruct (close_cursor env (store w1)); [cbn [fst snd ret]; eauto|].
    destruct (close_connection env (store w1)); cbn [fst snd ret]; eauto.
  - cbn [fst snd ret]. eauto.
Qed.

End Sinks.

(** ** What the store takes *)



Section Taken.
Context {rt : Runtime} (env : Env).





End Taken.

Lemma column_names_getitem_mask (df : DataFrame) (mask : list bool) :
  column_names (getitem_mask df mask) = column_names df.
Proof. unfold column_names. cbn [getitem_mask columns]. rewrite map_map. reflexivity. Qed.

Section Run.
Context {rt : Runtime} (env : Env) (self : Self).

Lemma run_unfold :
  run env self =
  (let* df := read_csv env self "scrap.csv" in
   let* cd := clean_data df in
   let* clean_data_transformed := transform_data (fst cd) in
   let* duplicate_data_transformed := transform_data (snd cd) in
   run_sinks env self clean_data_transformed duplicate_data_transformed (snd cd)).
Proof. reflexivity. Qed.

Variables (C1 D1 D : DataFrame).




End Run.


Section RunTheorem.
Context {rt : Runtime} (env : Env) (self : Self).



End RunTheorem.


(** The example run, computed: three clean rows go to [data], the second
    row with id 1 goes to [data_reject] with its reason, and the CSV file
    holds that row as it was read. *)
Example example_run :
  let w' := fst (@run example_runtime example_env example_self empty_world) in
  snd (@run example_runtime example_env example_self empty_world) = Ok tt /\
  map table (store w') = ["data"; "data"; "data"; "data_reject"] /\
  map (fun st => default VNone (stmt_values st !! 1%nat)) (store w') = [VInt 1; VInt 2; VInt 3; VInt 1] /\
  (exists st, store w' !! 3%nat = Some st /\
     last (stmt_columns st) = Some "reject_reason" /\
     last (stmt_values st) = Some (VStr "Duplicate ID") /\
     stmt_values st !! 0%nat = Some (VStr "2024-04-15") /\
     stmt_values st !! 2%nat = Some (VStr "ALICE")) /\
  files w' !! 0%nat
  = Some ("./target/data_reject_20240413120000.csv",
          CsvFile (column_names sample_frame)
            [[VStr " 04/15/2024 "; VInt 1; VStr "alice"; VInt 30; VFloat (float_of_Z 7);
              VStr "43"; VStr "[rock]"; VStr "2019"; VFloat (float_of_Z 2021);
              VInt 3; VInt 30; VStr "top50"; VStr "[t1]"]]).
Proof.
  vm_compute. repeat split; try reflexivity.
  eexists. repeat split; reflexivity.
Qed.

Section CodeBugs.
Context {rt : Runtime}.

(** C7 on the code. A numeral is coerced to its integer and a cell that
    cannot be read to 0; but a cell that reads [inf] is read as an infinity,
    [fillna] leaves it, and [astype(int)] refuses the column: the
    transformation raises. *)
Theorem coerce_integer_raises_on_infinity :
  coerce_integer (Object [VStr "42"; VStr "abc"; NaN; VStr ""; VNone]) = Ok (Int64 [42; 0; 0; 0; 0])
  /\ coerce_integer (Float64 [S754_infinity false]) = Raise IntCastingNaNError
  /\ coerce_integer (Object [VStr "n/a"; VStr "inf"]) = Raise IntCastingNaNError
  /\ snd (transform_data 0%nat (world_of infinite_frame)) = Raise IntCastingNaNError
  /\ snd (transform_data 0%nat (world_of infinite_text_frame)) = Raise IntCastingNaNError.
Proof. repeat split; vm_compute; reflexivity. Qed.

(** C10 on the code. The thirteen fields are written in the listed order; a
    null number is written as 0 and a null date, release or playlist as the
    empty string; but [ids] and [names] are written with [str] alone, so a
    null name is written as the text [nan]. *)
Theorem json_null_name_is_nan :
  map fst json_fields
  = ["dates"; "ids"; "names"; "monthly_listeners"; "popularity"; "followers"; "genres";
     "first_release"; "last_release"; "num_releases"; "num_tracks"; "playlists_found";
     "feat_track_ids"]
  /\ (forall r rec, json_record r = Ok rec -> map fst rec = map fst json_fields)
  /\ (forall r col, json_int ((col, NaN) :: r) col = Ok (JInt 0))
  /\ (forall r col, json_str_or_empty ((col, NaN) :: r) col = Ok (JStr ""))
  /\ (forall r col, json_release ((col, NaN) :: r) col = Ok (JStr ""))
  /\ (forall r col, json_str ((col, NaN) :: r) col = Ok (JStr "nan"))
  /\ (forall r col, json_str ((col, VNone) :: r) col = Ok (JStr "None")).
Proof.
  split; [reflexivity|]. split.
  - intros r rec H. unfold json_record in H. apply mapM_ok_inv in H.
    induction H as [|kf kv fs rec Hk _ IH]; [reflexivity|].
    cbn [map]. rewrite IH. f_equal.
    destruct (snd kf r (fst kf)); [|discriminate]. injection Hk as <-. reflexivity.
  - repeat split; intros r col; unfold json_int, json_str_or_empty, json_release, json_str;
      cbn [row_get]; rewrite String.eqb_refl; reflexivity.
Qed.

End CodeBugs.

(** C10 on the example run: the fourth row of the sample file has no name,
    and the JSON file gives the third clean record the name [nan]. *)
Example example_run_json_name :
  exists n data rec,
    files (fst (@run example_runtime example_env example_self empty_world)) !! 1%nat
    = Some ("./target/data_20240413120000.json", JsonFile n data) /\
    data !! 2%nat = Some rec /\
    rec !! 2%nat = Some ("names", JStr "nan") /\
    rec !! 0%nat = Some ("dates", JStr "").
Proof. vm_compute. eexists _, _, _. repeat split; reflexivity. Qed.

(* ===================================================================== *)
(** * Further properties: the database *)
(* ===================================================================== *)

Section Connection.
Context (env : Env).

Lemma connect_loop_fail (n : nat) (w : World) :
  (forall k, (k < n)%nat -> connect env (connections w + k) = false) ->
  connect_loop env n w = (after_attempts n w, Raise OperationalError).
Proof.
  revert w. induction n as [|n IH]; intros w Hfail.
  - unfold after_attempts. rewrite Nat.add_0_r. destruct w; reflexivity.
  - cbn [connect_loop]. unfold bindM, try_connect.
    pose proof (Hfail 0%nat (Nat.lt_0_succ n)) as H0. rewrite Nat.add_0_r in H0. rewrite H0.
    destruct n as [|n].
    + unfold raise, after_attempts. rewrite Nat.add_1_r. reflexivity.
    + rewrite IH.
      * unfold after_attempts. cbn [heap connections store files].
        replace (S (connections w) + S n)%nat with (connections w + S (S n))%nat by lia.
        reflexivity.
      * intros k Hk. cbn [connections]. rewrite Nat.add_succ_comm. apply Hfail. lia.
Qed.

Lemma connect_loop_ok (n k : nat) (w : World) :
  (k < n)%nat ->
  (forall j, (j < k)%nat -> connect env (connections w + j) = false) ->
  connect env (connections w + k) = true ->
  connect_loop env n w = (after_attempts (S k) w, Ok tt).
Proof.
  revert k w. induction n as [|n IH]; intros k w Hk Hfail Hok; [lia|].
  cbn [connect_loop]. unfold bindM, try_connect.
  destruct k as [|k].
  - rewrite Nat.add_0_r in Hok. rewrite Hok. unfold ret, after_attempts.
    rewrite Nat.add_1_r. reflexivity.
  - pose proof (Hfail 0%nat (Nat.lt_0_succ k)) as H0. rewrite Nat.add_0_r in H0. rewrite H0.
    destruct n as [|n]; [lia|].
    rewrite (IH k).
    + unfold after_attempts. cbn [heap connections store files].
      replace (S (connections w) + S k)%nat with (connections w + S (S k))%nat by lia.
      reflexivity.
    + lia.
    + intros j Hj. cbn [connections]. rewrite Nat.add_succ_comm. apply Hfail. lia.
    + cbn [connections]. rewrite Nat.add_succ_comm. exact Hok.
Qed.

(** X1. [get_db_connection] stops at the first attempt that succeeds, after
    at most five: when the attempt number [k] (counted from 0, [k < 5]) is
    the first to succeed it returns after [k + 1] attempts; when the next
    five attempts all fail it raises after exactly five. Nothing but the
    count of attempts changes. *)
Theorem get_db_connection_retries (w : World) :
  (forall k, (k < 5)%nat ->
     (forall j, (j < k)%nat -> connect env (connections w + j) = false) ->
     connect env (connections w + k) = true ->
     get_db_connection env w = (after_attempts (S k) w, Ok tt))
  /\ ((forall k, (k < 5)%nat -> connect env (connections w + k) = false) ->
      get_db_connection env w = (after_attempts 5 w, Raise OperationalError)).
Proof.
  split.
  - intros k Hk Hfail Hok. apply (connect_loop_ok 5 k w Hk Hfail Hok).
  - intros Hfail. apply (connect_loop_fail 5 w Hfail).
Qed.

(** Either case of the loop, by the first success among [n] attempts. *)
Lemma connect_loop_cases (n : nat) (w : World) :
  (exists k, (k < n)%nat /\ connect env (connections w + k) = true /\
             connect_loop env n w = (after_attempts (S k) w, Ok tt))
  \/ ((forall k, (k < n)%nat -> connect env (connections w + k) = false) /\
      connect_loop env n w = (after_attempts n w, Raise OperationalError)).
Proof.
  assert (H : forall m, (m <= n)%nat ->
            (exists k, (k < m)%nat /\ connect env (connections w + k) = true /\
                       forall j, (j < k)%nat -> connect env (connections w + j) = false)
            \/ (forall k, (k < m)%nat -> connect env (connections w + k) = false)).
  { induction m as [|m IH]; intros Hm; [right; intros k Hk; lia|].
    destruct (IH ltac:(lia)) as [(k & Hk & Hok & Hf) | Hf].
    - left. exists k. split; [lia | auto].
    - destruct (connect env (connections w + m)) eqn:E.
      + left. exists m. split; [lia | auto].
      + right. intros k Hk. destruct (decide (k = m)) as [-> | Hne]; [exact E | apply Hf; lia]. }
  destruct (H n (le_n n)) as [(k & Hk & Hok & Hf) | Hf].
  - left. exists k. split; [exact Hk|]. split; [exact Hok | apply connect_loop_ok; assumption].
  - right. split; [exact Hf | apply connect_loop_fail, Hf].
Qed.

(** X2. [get_table_count] never raises. When a connection is made within
    five attempts and none of [conn.cursor()], the query, [cursor.close()]
    and [conn.close()] raises, it returns the count the store gives; when no
    connection is made or any of these calls raises, it returns 0. It
    changes neither the objects, nor the store, nor the files. *)
Theorem get_table_count_never_raises (table_name : string) (w : World) :
  exists n,
    snd (get_table_count env table_name w) = Ok n /\
    (forall k m, (k < 5)%nat -> connect env (connections w + k) = true ->
       open_cursor env (store w) = None ->
       select_count env (store w) table_name = Some m ->
       close_cursor env (store w) = None -> close_connection env (store w) = None ->
       n = m) /\
    (n = 0 \/ select_count env (store w) table_name = Some n) /\
    ((forall k, (k < 5)%nat -> connect env (connections w + k) = false) -> n = 0) /\
    (open_cursor env (store w) <> None -> n = 0) /\
    (select_count env (store w) table_name = None -> n = 0) /\
    (close_cursor env (store w) <> None -> n = 0) /\
    (close_connection env (store w) <> None -> n = 0) /\
    heap (fst (get_table_count env table_name w)) = heap w /\
    store (fst (get_table_count env table_name w)) = store w /\
    files (fst (get_table_count env table_name w)) = files w.
Proof.
  unfold get_table_count, catch, get_db_connection, bindM, db_call.
  destruct (connect_loop_cases max_retries w) as [(k & Hk & _ & E) | [Hfail E]]; rewrite E.
  - cbn [store after_attempts].
    assert (Hconn : (forall j, (j < 5)%nat -> connect env (connections w + j) = false) -> False).
    { intros Hfail. rewrite (connect_loop_fail max_retries w Hfail) in E. discriminate. }
    destruct (open_cursor env (store w)) as [e1|] eqn:Ho; cbn [fst snd ret store after_attempts].
    { exists 0. repeat split; auto; congruence. }
    destruct (select_count env (store w) table_name) as [n|] eqn:Hs; cbn [fst snd ret store after_attempts].
    2:{ exists 0. repeat split; auto; congruence. }
    destruct (close_cursor env (store w)) as [e2|] eqn:Hcc; cbn [fst snd ret store after_attempts].
    { exists 0. repeat split; auto; congruence. }
    destruct (close_connection env (store w)) as [e3|] eqn:Hcl; cbn [fst snd ret store after_attempts].
    { exists 0. repeat split; auto; congruence. }
    exists n. repeat split; auto; try congruence; intros Hf; destruct (Hconn Hf).
  - cbn [fst snd ret]. exists 0. repeat split; auto.
    intros k m Hk Hok. rewrite (Hfail k Hk) in Hok. discriminate.
Qed.

End Connection.

(** X1 with a server that refuses the first two attempts. *)
Lemma get_db_connection_retries_witness :
  get_db_connection
    {| connect := fun n => (2 <=? n)%nat; execute := fun _ _ => true;
       select_count := fun _ _ => None;
       open_cursor := fun _ => None; commit := fun _ => None;
       close_cursor := fun _ => None; close_connection := fun _ => None;
       csv_source := fun _ => None; writable := fun _ => true |}
    empty_world
  = (after_attempts 3 empty_world, Ok tt).
Proof.
  apply (proj1 (get_db_connection_retries _ empty_world) 2%nat).
  - lia.
  - intros j Hj. destruct j as [|[|j]]; [reflexivity | reflexivity | lia].
  - reflexivity.
Defined.

Lemma map_lookup_Some_2 {A B} (f : A -> B) (l : list A) (i : nat) (x : A) :
  l !! i = Some x -> map f l !! i = Some (f x).
Proof. intros H. rewrite list_lookup_fmap, H. reflexivity. Qed.

Section Inserts.
Context {rt : Runtime} (env : Env).



(** X10. Every statement [insert_to_database] builds has as many values
    as columns; its columns are the row's, in the row's order, followed for a
    rejected row by [reject_reason] with the value [Duplicate ID]; under
    [genres] and [feat_track_ids] the value is always a list (the row's when
    it is one, the empty list otherwise) and under every other column it is
    the row's value. *)
Theorem insert_statement_columns_and_values (table_name : string) (is_reject : bool) (r : row) :
  let st := insert_statement table_name is_reject r in
  length (stmt_columns st) = length (stmt_values st) /\
  stmt_columns st = (map fst r ++ (if is_reject then ["reject_reason"] else []))%list /\
  (is_reject = true -> last (stmt_values st) = Some (VStr "Duplicate ID")) /\
  (forall i c v, r !! i = Some (c, v) ->
     stmt_columns st !! i = Some c /\
     exists v', stmt_values st !! i = Some v' /\
       (c = "genres" \/ c = "feat_track_ids" ->
          is_list v' = true /\ (is_list v = true -> v' = v) /\ (is_list v = false -> v' = VList [])) /\
       (c <> "genres" -> c <> "feat_track_ids" -> v' = v)).
Proof.
  cbn zeta. unfold insert_statement. cbn [stmt_columns stmt_values].
  split; [destruct is_reject; rewrite ?length_app, !length_map; reflexivity|].
  split; [destruct is_reject; rewrite ?app_nil_r; reflexivity|].
  split; [intros ->; apply last_snoc|].
  intros i c v Hi.
  assert (Hc : map fst r !! i = Some c) by exact (map_lookup_Some_2 fst r i (c, v) Hi).
  assert (Hv : map insert_value r !! i = Some (insert_value (c, v)))
    by exact (map_lookup_Some_2 insert_value r i (c, v) Hi).
  split.
  - destruct is_reject; [apply lookup_app_l_Some|]; exact Hc.
  - exists (insert_value (c, v)). split.
    + destruct is_reject; [apply lookup_app_l_Some|]; exact Hv.
    + unfold insert_value, array_columns. cbn [fst snd existsb]. split.
      * intros [-> | ->]; cbn; destruct (is_list v) eqn:E; repeat split; congruence.
      * intros H1 H2. apply String.eqb_neq in H1, H2.
        rewrite H1, H2. reflexivity.
Qed.

End Inserts.


(* ===================================================================== *)
(** * Further properties: the transformed frame *)
(* ===================================================================== *)

Section Shape.
Context {rt : Runtime}.

(** X3. A successful transformation keeps the shape of the frame: the same
    row labels, the same column names in the same order (no column is added
    or dropped), and a well-formed frame stays well formed. *)
Theorem transform_frame_keeps_shape (df df' : DataFrame) :
  transform_frame df = Ok df' ->
  index df' = index df /\ column_names df' = column_names df /\ (wf df -> wf df').
Proof.
  intros H.
  destruct (run_steps_shape transform_steps df df' (length (index df))
              transform_steps_lengths H) as (Hi & Hn & Hl).
  split; [exact Hi|]. split; [exact Hn|].
  intros (H1 & H2 & H3). split; [rewrite Hi; exact H1|]. split; [rewrite Hn; exact H2|].
  rewrite Hi. apply Hl, H3.
Qed.

(** The column a step of the transformation produced, and the one it was
    produced from. *)
Lemma transform_frame_column (df df' : DataFrame) (col : string)
      (f : Series -> result Series) (s' : Series) :
  transform_frame df = Ok df' ->
  In (col, f) transform_steps ->
  lookup_column col (columns df') = Some s' ->
  exists s, lookup_column col (columns df) = Some s /\ f s = Ok s'.
Proof.
  intros Hrun Hin Hs'.
  pose proof (run_steps_lookup transform_steps df df' col transform_steps_NoDup Hrun) as L.
  rewrite (step_for_in col f _ transform_steps_NoDup Hin) in L.
  destruct (lookup_column col (columns df)) as [s|]; [|congruence].
  destruct L as (s1 & Hf & Hs1). exists s. split; [reflexivity | congruence].
Qed.

(** X4. The transformation touches the eleven columns it names and no
    other: [ids] and [playlists_found], like every column that is not one
    of the eleven, are the same Series after it. *)
Theorem transform_frame_leaves_other_columns (df df' : DataFrame) :
  transform_frame df = Ok df' ->
  (forall col,
     ~ In col (["dates"; "names"] ++ numeric_columns
               ++ ["genres"; "feat_track_ids"; "first_release"; "last_release"]) ->
     lookup_column col (columns df') = lookup_column col (columns df))
  /\ lookup_column "ids" (columns df') = lookup_column "ids" (columns df)
  /\ lookup_column "playlists_found" (columns df') = lookup_column "playlists_found" (columns df).
Proof.
  intros Hrun.
  assert (H : forall col,
            ~ In col (["dates"; "names"] ++ numeric_columns
                      ++ ["genres"; "feat_track_ids"; "first_release"; "last_release"]) ->
            lookup_column col (columns df') = lookup_column col (columns df)).
  { intros col Hnot.
    pose proof (run_steps_lookup transform_steps df df' col transform_steps_NoDup Hrun) as L.
    rewrite (step_for_notin col transform_steps) in L by exact Hnot.
    destruct (lookup_column col (columns df)); exact L. }
  split; [exact H|]. split; apply H; cbn; intuition discriminate.
Qed.

(** X5. After a successful transformation each of the five numeric columns
    that is present is an int64 column. *)
Theorem transform_frame_numeric_int64 (df df' : DataFrame) (col : string) (s' : Series) :
  transform_frame df = Ok df' ->
  In col numeric_columns ->
  lookup_column col (columns df') = Some s' ->
  exists xs, s' = Int64 xs.
Proof.
  intros Hrun Hin Hs'.
  assert (Hstep : In (col, coerce_integer) transform_steps).
  { unfold transform_steps. apply in_or_app. right. apply in_or_app. left.
    apply (in_map (fun c => (c, coerce_integer)) _ _ Hin). }
  destruct (transform_frame_column df df' col _ s' Hrun Hstep Hs') as (s & _ & Hf).
  apply (coerce_integer_is_int64 _ _ Hf).
Qed.

Lemma parse_array_is_list (v v' : value) : _parse_array v = Ok v' -> is_list v' = true.
Proof.
  unfold _parse_array. destruct (truthy (isna v)) as [na|e]; [|discriminate]. cbn [bind].
  destruct (na || eq_str v ""); [intros [= <-]; reflexivity|].
  destruct v; try (intros [= <-]; reflexivity).
  destruct (nonempty _); intros [= <-]; reflexivity.
Qed.

Lemma parse_date_none_or_str (v v' : value) :
  _parse_date v = Ok v' -> v' = VNone \/ exists s, v' = VStr s.
Proof.
  unfold _parse_date. destruct (truthy (isna v)) as [na|e]; [|discriminate]. cbn [bind].
  destruct (na || eq_str v ""); [intros [= <-]; auto|].
  destruct (first_format _ _); [intros [= <-]; eauto|].
  destruct (bind _ _); intros [= <-]; eauto.
Qed.

Lemma apply_cells (f : value -> result value) (P : value -> Prop) (s s' : Series) :
  (forall v v', f v = Ok v' -> P v') ->
  apply f s = Ok s' -> values s <> [] -> Forall P (values s').
Proof.
  intros HP. unfold apply. destruct (values s) as [|v vs] eqn:E; [congruence|].
  destruct (mapM f (v :: vs)) as [ws|e] eqn:Hm; [|discriminate]. intros [= <-] _.
  cbn [values]. apply mapM_ok_inv in Hm. apply Forall_forall. intros y Hy.
  apply list_elem_of_lookup in Hy as [i Hi].
  destruct (Forall2_lookup_r _ _ _ _ _ Hm Hi) as (x & _ & Hx). exact (HP x y Hx).
Qed.

(** X6. After a successful transformation of a frame that has rows, every
    cell of [genres] and of [feat_track_ids] is a list, and every cell of
    [dates] is [None] or a string. *)
Theorem transform_frame_cell_types (df df' : DataFrame) (col : string) (s' : Series) :
  transform_frame df = Ok df' ->
  wf df -> index df <> [] ->
  lookup_column col (columns df') = Some s' ->
  (col = "genres" \/ col = "feat_track_ids" -> Forall (fun v => is_list v = true) (values s'))
  /\ (col = "dates" -> Forall (fun v => v = VNone \/ exists t, v = VStr t) (values s')).
Proof.
  intros Hrun Hwf Hrows Hs'.
  assert (Hne : forall s, lookup_column col (columns df) = Some s -> values s <> []).
  { intros s Hs E. apply Hrows. apply length_zero_iff_nil.
    rewrite <- (lookup_column_length _ col s _ (proj2 (proj2 Hwf)) Hs).
    unfold series_len. rewrite E. reflexivity. }
  split.
  - intros Hcol.
    assert (Hstep : In (col, apply _parse_array) transform_steps).
    { unfold transform_steps, numeric_columns. cbn [map app].
      destruct Hcol as [-> | ->]; cbn [In]; repeat (first [left; reflexivity | right]). }
    destruct (transform_frame_column df df' col _ s' Hrun Hstep Hs') as (s & Hs & Hf).
    apply (apply_cells _ _ s s' parse_array_is_list Hf (Hne s Hs)).
  - intros ->.
    assert (Hstep : In ("dates", apply _parse_date) transform_steps) by (left; reflexivity).
    destruct (transform_frame_column df df' "dates" _ s' Hrun Hstep Hs') as (s & Hs & Hf).
    apply (apply_cells _ _ s s' parse_date_none_or_str Hf (Hne s Hs)).
Qed.

(** X7. After a successful transformation every cell of [first_release]
    and of [last_release] is a string, and none of them reads [nan] or
    [None]. *)
Theorem transform_frame_release_strings (df df' : DataFrame) (col : string) (s' : Series) :
  transform_frame df = Ok df' ->
  col = "first_release" \/ col = "last_release" ->
  lookup_column col (columns df') = Some s' ->
  Forall (fun v => exists t, v = VStr t /\ t <> "nan" /\ t <> "None") (values s').
Proof.
  intros Hrun Hcol Hs'.
  assert (Hstep : In (col, blank_sentinels) transform_steps).
  { unfold transform_steps, numeric_columns. cbn [map app].
    destruct Hcol as [-> | ->]; cbn [In]; repeat (first [left; reflexivity | right]). }
  destruct (transform_frame_column df df' col _ s' Hrun Hstep Hs') as (s & _ & Hf).
  rewrite blank_sentinels_cells in Hf. injection Hf as <-. cbn [values].
  apply Forall_forall. intros v Hv. apply list_elem_of_fmap in Hv as (x & -> & _).
  unfold blank_cell.
  destruct (String.eqb (py_str x) "nan") eqn:E1; [eexists; repeat split; discriminate|].
  destruct (String.eqb (py_str x) "None") eqn:E2; [eexists; repeat split; discriminate|].
  apply String.eqb_neq in E1, E2. eauto.
Qed.

(** X8. [transform_data] works on a copy: whatever it does, and also when it
    raises, every object of the heap is as it was, one object is added, and
    the store, the files and the connection count are unchanged; when it
    succeeds the reference it returns is that of the added object, which
    holds the transformed frame. *)
Theorem transform_data_works_on_a_copy (l : loc) (w : World) (df : DataFrame) :
  heap w !! l = Some df ->
  let w' := fst (transform_data l w) in
  (forall l' d, heap w !! l' = Some d -> heap w' !! l' = Some d) /\
  length (heap w') = S (length (heap w)) /\
  store w' = store w /\ files w' = files w /\ connections w' = connections w /\
  (forall l1, snd (transform_data l w) = Ok l1 ->
     l1 = length (heap w) /\
     exists df', transform_frame df = Ok df' /\ heap w' !! l1 = Some df').
Proof.
  intros Hl. destruct (transform_data_eq l w df Hl) as (x & Hx & Hdf'). rewrite Hx.
  cbn [fst snd heap set_heap store files connections].
  split; [intros l' d Hd; rewrite lookup_app_l by (eapply lookup_lt_Some, Hd); exact Hd|].
  split; [rewrite length_app; simpl; lia|].
  repeat split; try reflexivity.
  - destruct (transform_frame df); congruence.
  - destruct (transform_frame df) as [df'|e]; [|discriminate].
    injection H as <-. exists df'. split; [reflexivity|].
    rewrite (Hdf' df' eq_refl). apply list_lookup_middle. reflexivity.
Qed.

End Shape.

Lemma wf_plain_frame : wf plain_frame.
Proof.
  split; [|split].
  - apply NoDup_ListNoDup. repeat constructor; simpl; intuition discriminate.
  - apply NoDup_ListNoDup. repeat constructor; simpl; intuition discriminate.
  - repeat constructor.
Qed.

Lemma wf_one_genre_frame : wf one_genre_frame.
Proof.
  split; [|split].
  - apply NoDup_ListNoDup. repeat constructor; simpl; intuition discriminate.
  - apply NoDup_ListNoDup. repeat constructor; simpl; intuition discriminate.
  - repeat constructor.
Qed.

Lemma transform_plain_frame :
  transform_frame (rt := example_runtime) plain_frame = Ok plain_frame_transformed.
Proof. vm_compute. reflexivity. Qed.

(** X3 on the frame without array columns. *)
Lemma transform_frame_keeps_shape_witness :
  index plain_frame_transformed = index plain_frame /\
  column_names plain_frame_transformed = column_names plain_frame /\
  (wf plain_frame -> wf plain_frame_transformed).
Proof.
  apply (transform_frame_keeps_shape (rt := example_runtime) plain_frame plain_frame_transformed
           transform_plain_frame).
Defined.

(** X4 on the same frame: its [ids] are as they were. *)
Lemma transform_frame_leaves_other_columns_witness :
  lookup_column "ids" (columns plain_frame_transformed) = lookup_column "ids" (columns plain_frame).
Proof.
  apply (transform_frame_leaves_other_columns (rt := example_runtime) plain_frame
           plain_frame_transformed transform_plain_frame).
Defined.

(** X5 on the same frame: [followers], read as text, is an int64 column. *)
Lemma transform_frame_numeric_int64_witness : exists xs, Int64 [42; 0] = Int64 xs.
Proof.
  apply (transform_frame_numeric_int64 (rt := example_runtime) plain_frame plain_frame_transformed
           "followers" (Int64 [42; 0]) transform_plain_frame).
  - cbn. auto.
  - reflexivity.
Defined.

(** X6 on a frame of one row with one genre. *)
Lemma transform_frame_cell_types_witness :
  Forall (fun v => is_list v = true) (values (Object [VList ["rock"]])).
Proof.
  refine (proj1 (transform_frame_cell_types (rt := example_runtime) one_genre_frame
                   {| index := [0]%nat;
                      columns := [("ids", Int64 [1]); ("genres", Object [VList ["rock"]])] |}
                   "genres" (Object [VList ["rock"]]) _ wf_one_genre_frame _ _) _).
  - vm_compute. reflexivity.
  - discriminate.
  - reflexivity.
  - left. reflexivity.
Defined.

(** X7 on the frame without array columns: the missing first release is
    the empty string. *)
Lemma transform_frame_release_strings_witness :
  Forall (fun v => exists t, v = VStr t /\ t <> "nan" /\ t <> "None")
         (values (Object [VStr "2019"; VStr ""])).
Proof.
  apply (transform_frame_release_strings (rt := example_runtime) plain_frame
           plain_frame_transformed "first_release" (Object [VStr "2019"; VStr ""])
           transform_plain_frame).
  - left. reflexivity.
  - reflexivity.
Defined.

(** X8 on a world that holds the frame without array columns. *)
Lemma transform_data_works_on_a_copy_witness :
  heap (fst (transform_data (rt := example_runtime) 0%nat (world_of plain_frame))) !! 0%nat
  = Some plain_frame.
Proof.
  apply (proj1 (transform_data_works_on_a_copy (rt := example_runtime) 0%nat
                  (world_of plain_frame) plain_frame eq_refl)).
  reflexivity.
Defined.

(* ===================================================================== *)
(** * Further properties: the partitions *)
(* ===================================================================== *)

Lemma select_all_true {A} (n : nat) (l : list A) :
  (length l <= n)%nat -> select (repeat true n) l = l.
Proof.
  revert l. induction n as [|n IH]; intros [|x l] H; simpl in *; try reflexivity; try lia.
  rewrite IH by lia. reflexivity.
Qed.

Lemma select_all_false {A} (n : nat) (l : list A) : select (repeat false n) l = [].
Proof.
  revert l. induction n as [|n IH]; intros [|x l]; simpl; try reflexivity. apply IH.
Qed.

Lemma select_length {A B} (mask : list bool) (l : list A) (l' : list B) :
  length l = length l' -> length (select mask l) = length (select mask l').
Proof.
  revert l l'. induction mask as [|b mask IH]; intros [|x l] [|y l'] H; simpl in *;
    try reflexivity; try discriminate.
  injection H as H. destruct b; simpl; rewrite (IH l l' H); reflexivity.
Qed.

Lemma map_negb_repeat (b : bool) (n : nat) : map negb (repeat b n) = repeat (negb b) n.
Proof. induction n as [|n IH]; simpl; [|rewrite IH]; reflexivity. Qed.

Lemma values_series_select (mask : list bool) (s : Series) :
  values (series_select mask s) = select mask (values s).
Proof. destruct s; cbn [series_select values]; rewrite ?select_map; reflexivity. Qed.

Lemma series_select_all_true (n : nat) (s : Series) :
  (series_len s <= n)%nat -> series_select (repeat true n) s = s.
Proof.
  unfold series_len. destruct s as [xs|xs|xs]; cbn [series_select values];
    rewrite ?length_map; intros H; rewrite select_all_true by exact H; reflexivity.
Qed.

Lemma lookup_column_getitem_mask (df : DataFrame) (mask : list bool) (col : string) :
  lookup_column col (columns (getitem_mask df mask))
  = series_select mask <$> lookup_column col (columns df).
Proof.
  cbn [getitem_mask columns]. induction (columns df) as [|[c s] cols IH]; [reflexivity|].
  cbn [map lookup_column fst snd]. destruct (String.eqb c col); [reflexivity | exact IH].
Qed.

(** The keys a first scan keeps are never marked by a second scan. *)
Lemma duplicated_from_kept (seen seen' keys : list value) :
  (forall x, In x seen' -> In x seen) ->
  duplicated_from seen' (select (map negb (duplicated_from seen keys)) keys)
  = repeat false (length (select (map negb (duplicated_from seen keys)) keys)).
Proof.
  revert seen seen'. induction keys as [|k keys IH]; intros seen seen' Hsub; [reflexivity|].
  cbn [duplicated_from map select]. destruct (existsb (key_eqb k) seen) eqn:E; cbn [negb].
  - apply IH. intros x Hx. right. apply Hsub, Hx.
  - cbn [duplicated_from length repeat]. f_equal.
    + destruct (existsb (key_eqb k) seen') eqn:E'; [|reflexivity].
      apply existsb_exists in E' as (x & Hx & Hk).
      rewrite <- E. symmetry. apply existsb_exists. exists x. split; [apply Hsub, Hx | exact Hk].
    + apply IH. intros x [-> | Hx]; [left; reflexivity | right; apply Hsub, Hx].
Qed.

Lemma wf_getitem_mask (df : DataFrame) (mask : list bool) : wf df -> wf (getitem_mask df mask).
Proof.
  intros (Hi & Hc & Hl). split; [|split].
  - cbn [getitem_mask index]. exact (sublist_NoDup _ _ Hi (select_sublist mask (index df))).
  - rewrite column_names_getitem_mask. exact Hc.
  - cbn [getitem_mask index columns]. apply Forall_forall. intros cs Hin.
    apply list_elem_of_fmap in Hin as ([c s] & -> & Hin). cbn [fst snd].
    rewrite Forall_forall in Hl. specialize (Hl _ Hin). cbn [snd] in Hl.
    unfold series_len in *. rewrite values_series_select. apply select_length, Hl.
Qed.

Lemma getitem_mask_all_true (df : DataFrame) : wf df -> getitem_mask df (repeat true (len df)) = df.
Proof.
  intros (_ & _ & Hl). destruct df as [idx cols]. unfold getitem_mask, len in *.
  cbn [index columns] in *. f_equal; [apply select_all_true; lia|].
  induction cols as [|[c s] cols IH]; [reflexivity|].
  apply Forall_cons in Hl as [H0 Hl]. cbn [map fst snd] in *.
  rewrite series_select_all_true by (rewrite H0; lia). rewrite (IH Hl). reflexivity.
Qed.

(** X11. The clean frame [clean_data] returns is well formed and holds no
    two rows with the same key, so that cleaning it again returns it whole
    with an empty frame of duplicates. *)
Theorem clean_data_again_keeps_all (w : World) (l : loc) (df : DataFrame) (ids : Series) :
  heap w !! l = Some df -> wf df -> getitem df "ids" = Ok ids ->
  exists w1 c d clean_frame,
    clean_data l w = (w1, Ok (c, d)) /\ heap w1 !! c = Some clean_frame /\
    wf clean_frame /\
    (exists kept, getitem clean_frame "ids" = Ok kept /\
       forall i, ~ seen_before (values kept) i) /\
    exists w2 c2 d2 duplicate_frame,
      clean_data c w1 = (w2, Ok (c2, d2)) /\
      heap w2 !! c2 = Some clean_frame /\ heap w2 !! d2 = Some duplicate_frame /\
      len duplicate_frame = 0%nat /\ empty duplicate_frame = true.
Proof.
  intros Hl Hwf Hids.
  set (mask := duplicated_from [] (values ids)).
  set (C := getitem_mask df (map negb mask)).
  pose proof (clean_data_eq w l df ids Hl Hids) as E1. cbn zeta in E1. fold mask in E1. fold C in E1.
  set (w1 := set_heap ((((heap w ++ [C]) ++ [C]) ++ [getitem_mask df mask])
                        ++ [getitem_mask df mask]) w) in *.
  assert (Hc : heap w1 !! S (length (heap w)) = Some C).
  { unfold w1. cbn [heap set_heap]. rewrite !lookup_app_l by (rewrite ?length_app; simpl; lia).
    apply list_lookup_middle. rewrite length_app. simpl. lia. }
  assert (HwfC : wf C) by apply wf_getitem_mask, Hwf.
  assert (HidsC : getitem C "ids" = Ok (series_select (map negb mask) ids)).
  { unfold getitem in *. unfold C. rewrite lookup_column_getitem_mask.
    destruct (lookup_column "ids" (columns df)); [|discriminate]. injection Hids as ->. reflexivity. }
  assert (Hmask2 : duplicated_from [] (values (series_select (map negb mask) ids))
                   = repeat false (len C)).
  { rewrite values_series_select. unfold mask. rewrite duplicated_from_kept by auto.
    f_equal. fold mask. unfold len, C. cbn [getitem_mask index]. apply select_length.
    pose proof (getitem_length df "ids" ids Hwf Hids) as H. exact H. }
  exists w1, (S (length (heap w))), (S (S (S (length (heap w))))), C.
  split; [exact E1|]. split; [exact Hc|]. split; [exact HwfC|]. split.
  - exists (series_select (map negb mask) ids). split; [exact HidsC|].
    intros i Hseen. pose proof Hseen as (j & kj & ki & _ & _ & Hi & _).
    apply (proj1 (duplicated_from_seen_before _ i ki Hi)) in Hseen.
    rewrite Hmask2 in Hseen. apply list_elem_of_lookup_2, list_elem_of_In, repeat_spec in Hseen.
    discriminate.
  - pose proof (clean_data_eq w1 _ C _ Hc HidsC) as E2. cbn zeta in E2.
    rewrite Hmask2, map_negb_repeat in E2. cbn [negb] in E2.
    rewrite (getitem_mask_all_true C HwfC) in E2.
    eexists _, _, _, (getitem_mask C (repeat false (len C))).
    split; [exact E2|]. split; [|split; [|split]].
    + cbn [heap set_heap]. rewrite !lookup_app_l by (rewrite ?length_app; simpl; lia).
      apply list_lookup_middle. rewrite length_app. simpl. lia.
    + cbn [heap set_heap]. apply list_lookup_middle. rewrite !length_app. simpl. lia.
    + unfold len. cbn [getitem_mask index]. rewrite select_all_false. reflexivity.
    + unfold empty, len. cbn [getitem_mask index]. rewrite select_all_false. reflexivity.
Qed.



(** X11 on the sample frame. *)
Lemma clean_data_again_keeps_all_witness :
  exists w1 c d clean_frame,
    clean_data 0%nat (world_of sample_frame) = (w1, Ok (c, d)) /\
    heap w1 !! c = Some clean_frame /\ wf clean_frame /\
    (exists kept, getitem clean_frame "ids" = Ok kept /\
       forall i, ~ seen_before (values kept) i) /\
    exists w2 c2 d2 duplicate_frame,
      clean_data c w1 = (w2, Ok (c2, d2)) /\
      heap w2 !! c2 = Some clean_frame /\ heap w2 !! d2 = Some duplicate_frame /\
      len duplicate_frame = 0%nat /\ empty duplicate_frame = true.
Proof.
  apply (clean_data_again_keeps_all (world_of sample_frame) 0%nat sample_frame
           (Int64 [1; 2; 1; 3]) eq_refl wf_sample_frame eq_refl).
Defined.


(* ===================================================================== *)
(** * Further properties: a run *)
(* ===================================================================== *)

Section RunOrder.
Context {rt : Runtime} (env : Env) (self : Self).

(** A run up to its first statement: the file is read, split and both parts
    are transformed before anything is sent or written. *)
Lemma run_to_sinks (w : World) (df : DataFrame) (ids : Series) :
  csv_source env (path_join (source_path self) "scrap.csv") = Some df ->
  getitem df "ids" = Ok ids ->
  let mask := duplicated_from [] (values ids) in
  let C := getitem_mask df (map negb mask) in
  let D := getitem_mask df mask in
  exists w0,
    store w0 = store w /\ files w0 = files w /\ connections w0 = connections w /\
    match transform_frame C with
    | Raise e => run env self w = (w0, Raise e)
    | Ok C1 =>
        match transform_frame D with
        | Raise e => run env self w = (w0, Raise e)
        | Ok D1 =>
            exists c1 d1 d,
              heap w0 !! c1 = Some C1 /\ heap w0 !! d1 = Some D1 /\ heap w0 !! d = Some D /\
              run env self w = run_sinks env self c1 d1 d w0
        end
    end.
Proof.
  intros Hsrc Hids mask C D.
  remember (run env self w) as r eqn:Hr. rewrite run_unfold in Hr.
  unfold read_csv in Hr at 1. rewrite Hsrc in Hr.
  rewrite (bindM_ok _ _ w (set_heap (heap w ++ [df]) w) (length (heap w))) in Hr by reflexivity.
  set (w1 := set_heap (heap w ++ [df]) w) in Hr.
  assert (Hl : heap w1 !! length (heap w) = Some df) by (apply list_lookup_middle; reflexivity).
  rewrite (bindM_ok _ _ _ _ _ (clean_data_eq w1 _ df ids Hl Hids)) in Hr.
  fold mask in Hr. fold C in Hr. fold D in Hr. cbn [fst snd] in Hr.
  set (w2 := set_heap ((((heap w1 ++ [C]) ++ [C]) ++ [D]) ++ [D]) w1) in Hr.
  assert (Hc : heap w2 !! S (length (heap w1)) = Some C).
  { unfold w2. cbn [heap set_heap]. rewrite !lookup_app_l by (rewrite ?length_app; simpl; lia).
    apply list_lookup_middle. rewrite length_app. simpl. lia. }
  assert (Hd : heap w2 !! S (S (S (length (heap w1)))) = Some D).
  { unfold w2. cbn [heap set_heap]. apply list_lookup_middle. rewrite !length_app. simpl. lia. }
  destruct (transform_data_eq _ w2 C Hc) as (x & Hx & HC1).
  unfold bindM in Hr at 1. rewrite Hx in Hr.
  destruct (transform_frame C) as [C1|e] eqn:HtC;
    [|exists (set_heap (heap w2 ++ [x]) w2); repeat split; exact Hr].
  rewrite (HC1 C1 eq_refl) in *. clear HC1 Hx x.
  set (w3 := set_heap (heap w2 ++ [C1]) w2) in Hr.
  assert (Hd3 : heap w3 !! S (S (S (length (heap w1)))) = Some D).
  { unfold w3. cbn [heap set_heap]. rewrite lookup_app_l by (eapply lookup_lt_Some, Hd). exact Hd. }
  destruct (transform_data_eq _ w3 D Hd3) as (y & Hy & HD1).
  unfold bindM in Hr at 1. rewrite Hy in Hr.
  destruct (transform_frame D) as [D1|e] eqn:HtD;
    [|exists (set_heap (heap w3 ++ [y]) w3); repeat split; exact Hr].
  rewrite (HD1 D1 eq_refl) in *. clear HD1 Hy y.
  exists (set_heap (heap w3 ++ [D1]) w3). split; [reflexivity|]. split; [reflexivity|].
  split; [reflexivity|].
  exists (length (heap w2)), (length (heap w3)), (S (S (S (length (heap w1))))).
  split; [|split; [|split; [|exact Hr]]].
  - unfold w3. cbn [heap set_heap]. rewrite lookup_app_l by (rewrite length_app; simpl; lia).
    apply list_lookup_middle. reflexivity.
  - cbn [heap set_heap]. apply list_lookup_middle. reflexivity.
  - cbn [heap set_heap]. rewrite lookup_app_l by (eapply lookup_lt_Some, Hd3). exact Hd3.
Qed.


(** X14. Both partitions are transformed before anything leaves the
    program: when the transformation of the clean rows or of the
    duplicates raises, the run raises the same exception and has sent no
    statement, written no file and opened no connection. *)
Theorem run_transform_failure_sends_nothing (w : World) (df : DataFrame) (ids : Series) (e : exn) :
  csv_source env (path_join (source_path self) "scrap.csv") = Some df ->
  getitem df "ids" = Ok ids ->
  let mask := duplicated_from [] (values ids) in
  transform_frame (getitem_mask df (map negb mask)) = Raise e
  \/ ((exists C1, transform_frame (getitem_mask df (map negb mask)) = Ok C1) /\
      transform_frame (getitem_mask df mask) = Raise e) ->
  snd (run env self w) = Raise e /\
  store (fst (run env self w)) = store w /\ files (fst (run env self w)) = files w /\
  connections (fst (run env self w)) = connections w.
Proof.
  intros Hsrc Hids mask Hfail.
  destruct (run_to_sinks w df ids Hsrc Hids) as (w0 & Hs & Hf & Hn & Hrun).
  fold mask in Hrun.
  destruct Hfail as [HC | [[C1 HC] HD]]; rewrite HC in Hrun; try rewrite HD in Hrun;
    rewrite Hrun; auto.
Qed.

Variables (C1 : DataFrame).

(** The sinks of a run without duplicates. *)
Lemma run_sinks_without_duplicates (c1 d1 d : loc) (D1 D : DataFrame) (w : World) :
  heap w !! c1 = Some C1 -> heap w !! d1 = Some D1 -> heap w !! d = Some D ->
  empty D1 = true -> empty D = true ->
  sinks_grow (fun st => exists ir, ir ∈ iterrows C1 /\ st = insert_statement "data" false (snd ir))
             (fun pf => exists n data, pf = (json_path self, JsonFile n data))
             w (fst (run_sinks env self c1 d1 d w)).
Proof.
  intros Hc1 Hd1 Hd HeD1 HeD.
  set (P := fun st => exists ir, ir ∈ iterrows C1 /\ st = insert_statement "data" false (snd ir)).
  set (Q := fun pf : string * file => exists n data, pf = (json_path self, JsonFile n data)).
  unfold run_sinks.
  rewrite (bindM_ok _ _ _ _ _ (deref_eq c1 w C1 Hc1)).
  assert (G1 : sinks_grow P Q w
                 (fst ((if negb (empty C1) then insert_to_database env c1 "data" false else ret tt) w))).
  { destruct (negb (empty C1)); [|apply sinks_grow_refl].
    apply (insert_to_database_sinks env P Q c1 "data" false w C1 Hc1).
    apply Forall_forall. intros ir Hir. exists ir. auto. }
  unfold bindM at 1.
  destruct ((if negb (empty C1) then insert_to_database env c1 "data" false else ret tt) w)
    as [w2 [[]|e]]; cbn [fst snd] in G1; [|exact G1].
  assert (Hd1' : heap w2 !! d1 = Some D1) by (rewrite (proj1 G1); exact Hd1).
  rewrite (bindM_ok _ _ _ _ _ (deref_eq d1 w2 D1 Hd1')). rewrite HeD1. cbn [negb].
  rewrite (bindM_ok _ _ w2 w2 tt) by reflexivity.
  assert (Hd' : heap w2 !! d = Some D) by (rewrite (proj1 G1); exact Hd).
  rewrite (bindM_ok _ _ _ _ _ (deref_eq d w2 D Hd')). rewrite HeD. cbn [negb].
  rewrite (bindM_ok _ _ w2 w2 tt) by reflexivity.
  assert (Hc1' : heap w2 !! c1 = Some C1) by (rewrite (proj1 G1); exact Hc1).
  pose proof (save_to_json_sinks env self P Q c1
                ("data_" ++ test_datetime self ++ ".json") w2 C1 Hc1'
                ltac:(intros n data; exists n, data; reflexivity)) as G4.
  unfold bindM at 1.
  destruct (save_to_json env self c1 ("data_" ++ test_datetime self ++ ".json") w2)
    as [w5 [[]|e]]; cbn [fst snd] in G4; [|exact (sinks_grow_trans _ _ _ _ _ G1 G4)].
  destruct (get_table_count_sinks env P Q "data" w5) as [G5 [n5 R5]].
  unfold bindM at 1.
  destruct (get_table_count env "data" w5) as [w6 r6]; cbn [fst snd] in G5, R5. subst r6.
  destruct (get_table_count_sinks env P Q "data_reject" w6) as [G6 [n6 R6]].
  unfold bindM at 1.
  destruct (get_table_count env "data_reject" w6) as [w7 r7]; cbn [fst snd] in G6, R6. subst r7.
  unfold ret. cbn [fst].
  exact (sinks_grow_trans _ _ _ _ _ G1
           (sinks_grow_trans _ _ _ _ _ G4 (sinks_grow_trans _ _ _ _ _ G5 G6))).
Qed.

End RunOrder.

Lemma lookup_repeat_lt {A} (x : A) (n i : nat) : (i < n)%nat -> repeat x n !! i = Some x.
Proof.
  revert i. induction n as [|n IH]; intros [|i] H; simpl; try lia; [reflexivity|].
  apply IH. lia.
Qed.

Lemma duplicated_from_none (keys : list value) :
  (forall i, ~ seen_before keys i) -> duplicated_from [] keys = repeat false (length keys).
Proof.
  intros Hno. apply list_eq. intros i.
  destruct (keys !! i) as [k|] eqn:Hk.
  - destruct (duplicated_from_seen_before keys i k Hk) as [_ Hf].
    rewrite (proj2 Hf (Hno i)). symmetry. apply lookup_repeat_lt.
    eapply lookup_lt_Some, Hk.
  - apply lookup_ge_None in Hk.
    rewrite (proj2 (lookup_ge_None _ _)) by (rewrite duplicated_from_length; exact Hk).
    symmetry. apply lookup_ge_None. rewrite repeat_length. exact Hk.
Qed.

Section RunClean.
Context {rt : Runtime} (env : Env) (self : Self).

(** X15. A run on a well-formed source in which no key occurs twice rejects
    nothing: every statement it sends goes to [data], with the columns of the
    source and no [reject_reason], and is the statement of a row of the
    transformed source; the only file it writes is the JSON file. *)
Theorem run_without_duplicates (w : World) (df : DataFrame) (ids : Series) :
  csv_source env (path_join (source_path self) "scrap.csv") = Some df ->
  wf df -> getitem df "ids" = Ok ids ->
  (forall i, ~ seen_before (values ids) i) ->
  exists sts fs,
    store (fst (run env self w)) = (store w ++ sts)%list /\
    files (fst (run env self w)) = (files w ++ fs)%list /\
    Forall (fun st =>
              table st = "data" /\ stmt_columns st = column_names df /\
              exists T ir, transform_frame df = Ok T /\ ir ∈ iterrows T /\
                           st = insert_statement "data" false (snd ir)) sts /\
    Forall (fun pf => exists n data, pf = (json_path self, JsonFile n data)) fs.
Proof.
  intros Hsrc Hwf Hids Hno.
  destruct (run_to_sinks env self w df ids Hsrc Hids) as (w0 & Hs & Hf & _ & Hrun).
  cbn zeta in Hrun. rewrite (duplicated_from_none _ Hno) in Hrun.
  rewrite map_negb_repeat in Hrun. cbn [negb] in Hrun.
  assert (Hn : length (values ids) = len df) by apply (getitem_length df "ids" ids Hwf Hids).
  rewrite Hn, (getitem_mask_all_true df Hwf) in Hrun.
  assert (Hstop : forall e, run env self w = (w0, Raise e) ->
            exists sts fs,
              store (fst (run env self w)) = (store w ++ sts)%list /\
              files (fst (run env self w)) = (files w ++ fs)%list /\
              Forall (fun st =>
                        table st = "data" /\ stmt_columns st = column_names df /\
                        exists T ir, transform_frame df = Ok T /\ ir ∈ iterrows T /\
                                     st = insert_statement "data" false (snd ir)) sts /\
              Forall (fun pf => exists n data, pf = (json_path self, JsonFile n data)) fs).
  { intros e E. exists [], []. rewrite E, !app_nil_r. cbn [fst]. auto. }
  destruct (transform_frame df) as [C1|e] eqn:HtC; [|exact (Hstop e Hrun)].
  destruct (transform_frame (getitem_mask df (repeat false (len df)))) as [D1|e] eqn:HtD;
    [|exact (Hstop e Hrun)].
  destruct Hrun as (c1 & d1 & d & Hc1 & Hd1 & Hd & Hrun).
  assert (HeD : empty (getitem_mask df (repeat false (len df))) = true).
  { unfold empty, len. cbn [getitem_mask index]. rewrite select_all_false. reflexivity. }
  assert (HeD1 : empty D1 = true).
  { destruct (run_steps_shape _ _ _ 0%nat transform_steps_lengths HtD) as (Hi & _ & _).
    unfold empty, len. rewrite Hi. cbn [getitem_mask index]. rewrite select_all_false. reflexivity. }
  pose proof (run_sinks_without_duplicates env self C1 c1 d1 d D1 _ w0 Hc1 Hd1 Hd HeD1 HeD) as G.
  rewrite <- Hrun in G. destruct G as (_ & sts & fs & Hst & Hfs & HP & HQ).
  exists sts, fs. rewrite Hst, Hfs, Hs, Hf. split; [reflexivity|]. split; [reflexivity|].
  split; [|exact HQ].
  eapply Forall_impl; [exact HP|]. intros st (ir & Hir & ->).
  split; [reflexivity|]. split; [|exists C1, ir; auto].
  cbn [insert_statement stmt_columns]. rewrite (iterrows_columns C1 ir Hir).
  destruct (run_steps_shape _ _ _ 0%nat transform_steps_lengths HtC) as (_ & Hcn & _). exact Hcn.
Qed.

End RunClean.

(** X14 on a source whose only row has an infinite [followers] cell. *)
Lemma run_transform_failure_sends_nothing_witness :
  let env := {| connect := fun _ => true; execute := fun _ _ => true;
                select_count := fun _ _ => None;
                open_cursor := fun _ => None; commit := fun _ => None;
                close_cursor := fun _ => None; close_connection := fun _ => None;
                csv_source := fun _ => Some infinite_frame; writable := fun _ => true |} in
  snd (run (rt := example_runtime) env example_self empty_world) = Raise IntCastingNaNError /\
  store (fst (run (rt := example_runtime) env example_self empty_world)) = [] /\
  files (fst (run (rt := example_runtime) env example_self empty_world)) = [] /\
  connections (fst (run (rt := example_runtime) env example_self empty_world)) = 0%nat.
Proof.
  intros env.
  apply (run_transform_failure_sends_nothing (rt := example_runtime) env example_self empty_world
           infinite_frame (Int64 [1]) IntCastingNaNError eq_refl eq_refl).
  left. vm_compute. reflexivity.
Defined.

(** X15 on a source of two rows with the ids 1 and 2. *)
Lemma run_without_duplicates_witness :
  let env := {| connect := fun _ => true; execute := fun _ _ => true;
                select_count := fun _ _ => None;
                open_cursor := fun _ => None; commit := fun _ => None;
                close_cursor := fun _ => None; close_connection := fun _ => None;
                csv_source := fun _ => Some plain_frame; writable := fun _ => true |} in
  exists sts fs,
    store (fst (run (rt := example_runtime) env example_self empty_world)) = ([] ++ sts)%list /\
    files (fst (run (rt := example_runtime) env example_self empty_world)) = ([] ++ fs)%list /\
    Forall (fun st =>
              table st = "data" /\ stmt_columns st = column_names plain_frame /\
              exists T ir, transform_frame (rt := example_runtime) plain_frame = Ok T /\
                           ir ∈ iterrows T /\
                           st = insert_statement "data" false (snd ir)) sts /\
    Forall (fun pf => exists n data, pf = (json_path example_self, JsonFile n data)) fs.
Proof.
  intros env.
  apply (run_without_duplicates (rt := example_runtime) env example_self empty_world
           plain_frame (Int64 [1; 2]) eq_refl wf_plain_frame eq_refl).
  intros i Hs. pose proof Hs as (j & kj & ki & _ & _ & Hi & _).
  apply (proj1 (duplicated_from_seen_before _ i ki Hi)) in Hs.
  destruct i as [|[|i]]; discriminate.
Defined.

(* ===================================================================== *)
(** * Further properties: the files *)
(* ===================================================================== *)

Lemma mapM_raises {A B} (f : A -> result B) (l : list A) (x : A) (e : exn) :
  In x l -> f x = Raise e -> exists e', mapM f l = Raise e'.
Proof.
  induction l as [|y l IH]; intros Hin Hx; [destruct Hin|]. cbn [mapM].
  destruct Hin as [-> | Hin].
  - rewrite Hx. eauto.
  - destruct (f y) as [b|e0]; [|eauto]. cbn [bind].
    destruct (IH Hin Hx) as [e' ->]. eauto.
Qed.

Lemma row_get_missing (cells : list (string * value)) (col : string) :
  existsb (String.eqb col) (map fst cells) = false -> row_get cells col = Raise (KeyError col).
Proof.
  induction cells as [|[c v] cells IH]; [reflexivity|]. cbn [map fst existsb row_get].
  intros H. apply orb_false_iff in H as [H1 H2]. rewrite String.eqb_sym, H1. exact (IH H2).
Qed.

Section Files.
Context {rt : Runtime} (env : Env) (self : Self).

Lemma json_record_keys (r : row) (rec : list (string * json)) :
  json_record r = Ok rec -> map fst rec = map fst json_fields.
Proof.
  unfold json_record. generalize json_fields. intros fields. revert rec.
  induction fields as [|[k f] fields IH]; intros rec; cbn [mapM map fst snd].
  - intros [= <-]. reflexivity.
  - destruct (f r k) as [j|e]; [|discriminate]. cbn [bind].
    destruct (mapM _ fields) as [rest|e]; [|discriminate]. cbn [bind]. intros [= <-].
    cbn [map fst]. rewrite (IH rest eq_refl). reflexivity.
Qed.

Lemma json_field_needs_column (r : row) (k : string) (f : row -> string -> result json) (e : exn) :
  In (k, f) json_fields -> row_get r k = Raise e -> f r k = Raise e.
Proof.
  unfold json_fields. cbn [In]. intros Hin Hr.
  repeat (destruct Hin as [Hin | Hin];
          [injection Hin as <- <-;
           unfold json_str_or_empty, json_str, json_int, json_array, json_release;
           rewrite Hr; reflexivity |]).
  destruct Hin.
Qed.

(** X16. [save_to_json] writes at most one file, [filename] under the
    target directory, and touches nothing else. When it succeeds the file
    holds one record per row of the frame, in the order of the rows, each
    with the thirteen keys in their fixed order, and [row_count] is the
    number of rows and of records. A frame that has rows and lacks one of the
    thirteen columns is not written: the call raises. A frame without rows is
    written with [row_count] 0 and no record, whatever its columns are. *)
Theorem save_to_json_outcome (l : loc) (filename : string) (w : World) (d : DataFrame) :
  heap w !! l = Some d ->
  let w' := fst (save_to_json env self l filename w) in
  let r := snd (save_to_json env self l filename w) in
  let path := path_join (target_path self) filename in
  heap w' = heap w /\ store w' = store w /\ connections w' = connections w /\
  ((r = Ok tt /\
    exists data, files w' = (files w ++ [(path, JsonFile (len d) data)])%list /\
                 length data = len d /\
                 Forall (fun rec => map fst rec = map fst json_fields) data)
   \/ (exists e, r = Raise e /\ files w' = files w)) /\
  (forall col, In col (map fst json_fields) -> has_column col d = false -> index d <> [] ->
     exists e, r = Raise e) /\
  (index d = [] -> writable env path = true ->
     r = Ok tt /\ files w' = (files w ++ [(path, JsonFile 0 [])])%list).
Proof.
  intros Hl. cbn zeta. unfold save_to_json.
  rewrite (bindM_ok _ _ _ _ _ (deref_eq l w d Hl)). unfold bindM, lift, write_file.
  destruct (mapM (fun ir => json_record (snd ir)) (iterrows d)) as [data|e] eqn:Hm.
  - assert (Hlen : length data = len d).
    { rewrite (mapM_length _ _ _ Hm). apply length_iterrows. }
    assert (Hkeys : Forall (fun rec => map fst rec = map fst json_fields) data).
    { apply mapM_ok_inv in Hm. apply Forall_forall. intros rec Hrec.
      apply list_elem_of_lookup in Hrec as [i Hi].
      destruct (Forall2_lookup_r _ _ _ _ _ Hm Hi) as (ir & _ & Hir).
      apply (json_record_keys _ _ Hir). }
    assert (Hcols : forall col, In col (map fst json_fields) -> has_column col d = false ->
              index d <> [] -> False).
    { intros col Hcol Hno Hrows.
      destruct (index d) as [|lbl idx] eqn:Hidx; [congruence|].
      assert (Hrow : In (lbl, row_at d 0) (iterrows d)).
      { unfold iterrows. rewrite Hidx. left. reflexivity. }
      apply in_map_iff in Hcol as ([k f] & <- & Hkf). cbn [fst] in Hno.
      assert (Hget : row_get (row_at d 0) k = Raise (KeyError k)).
      { apply row_get_missing. unfold row_at. rewrite map_map. exact Hno. }
      assert (Hrec : exists e, json_record (row_at d 0) = Raise e).
      { unfold json_record.
        apply (mapM_raises _ json_fields (k, f) (KeyError k) Hkf).
        cbn [fst snd]. rewrite (json_field_needs_column _ k f _ Hkf Hget). reflexivity. }
      destruct Hrec as [e Hrec].
      destruct (mapM_raises (fun ir => json_record (snd ir)) (iterrows d) _ e Hrow Hrec)
        as [e' He'].
      congruence. }
    destruct (writable env (path_join (target_path self) filename)) eqn:Hw;
      cbn [fst snd heap store connections files].
    + split; [reflexivity|]. split; [reflexivity|]. split; [reflexivity|].
      split; [left; split; [reflexivity|]; exists data; auto|].
      split; [intros col Hcol Hno Hrows; destruct (Hcols col Hcol Hno Hrows)|].
      intros Hidx _. unfold len in *. rewrite Hidx in *. destruct data; [|discriminate]. auto.
    + split; [reflexivity|]. split; [reflexivity|]. split; [reflexivity|].
      split; [right; eauto|].
      split; [eauto | discriminate].
  - cbn [fst snd]. split; [reflexivity|]. split; [reflexivity|]. split; [reflexivity|].
    split; [right; eauto|]. split; [eauto|].
    intros Hidx _. exfalso. unfold iterrows in Hm. rewrite Hidx in Hm. discriminate.
Qed.

(** X17. [save_to_csv] writes the frame under the target directory, the
    header being the column names and the labels left out: one line per row
    of the frame, each with one cell per column. When the file cannot be
    written it raises [OSError] and nothing changes. *)
Theorem save_to_csv_outcome (l : loc) (filename : string) (w : World) (d : DataFrame) :
  heap w !! l = Some d ->
  let path := path_join (target_path self) filename in
  (writable env path = true ->
   exists rows,
     save_to_csv env self l filename w
     = ({| heap := heap w; connections := connections w; store := store w;
           files := (files w ++ [(path, CsvFile (column_names d) rows)])%list |}, Ok tt) /\
     length rows = len d /\
     Forall (fun cells => length cells = length (column_names d)) rows /\
     forall i j cs, (i < len d)%nat -> columns d !! j = Some cs ->
       rows !! i ≫= (fun cells => cells !! j) = Some (default VNone (values (snd cs) !! i)))
  /\ (writable env path = false -> save_to_csv env self l filename w = (w, Raise OSError)).
Proof.
  intros Hl path. unfold save_to_csv. rewrite (bindM_ok _ _ _ _ _ (deref_eq l w d Hl)).
  unfold write_file. fold path. split; intros Hw; rewrite Hw; [|reflexivity].
  exists (csv_rows d). split; [reflexivity|]. unfold csv_rows, column_names, len. split; [|split].
  - apply length_imap.
  - apply Forall_forall. intros cells Hin. apply list_elem_of_lookup in Hin as [i Hi].
    rewrite list_lookup_imap in Hi. destruct (index d !! i); [|discriminate].
    injection Hi as <-. rewrite !length_map. reflexivity.
  - intros i j cs Hi Hj. rewrite list_lookup_imap.
    destruct (lookup_lt_is_Some_2 (index d) i Hi) as [lbl ->]. cbn [fmap option_fmap option_map mbind option_bind].
    rewrite list_lookup_fmap, Hj. reflexivity.
Qed.

End Files.

(** X16 on a frame that has rows and no [genres] column. *)
Lemma save_to_json_outcome_witness :
  exists e,
    snd (save_to_json (rt := example_runtime) example_env example_self 0%nat "data.json"
           (world_of plain_frame)) = Raise e.
Proof.
  destruct (save_to_json_outcome (rt := example_runtime) example_env example_self 0%nat
              "data.json" (world_of plain_frame) plain_frame eq_refl)
    as (_ & _ & _ & _ & Hmissing & _).
  apply (Hmissing "genres").
  - cbn. auto 10.
  - reflexivity.
  - discriminate.
Defined.

(** X17 on the same frame. *)
Lemma save_to_csv_outcome_witness :
  exists rows,
    save_to_csv example_env example_self 0%nat "rejects.csv" (world_of plain_frame)
    = ({| heap := [plain_frame]; connections := 0; store := [];
          files := [("./target/rejects.csv", CsvFile (column_names plain_frame) rows)] |}, Ok tt) /\
    length rows = 2%nat.
Proof.
  destruct (proj1 (save_to_csv_outcome example_env example_self 0%nat "rejects.csv"
                     (world_of plain_frame) plain_frame eq_refl) eq_refl)
    as (rows & E & Hlen & _).
  exists rows. split; [exact E | exact Hlen].
Defined.

(* ===================================================================== *)
(** * Further properties: the numeric columns *)
(* ===================================================================== *)

Section Numbers.
Context {rt : Runtime}.

Lemma astype_int_filled (fs : list float) :
  astype_int (fillna0 (Float64 fs))
  = if forallb (fun f => is_nan f || is_finite f) fs
    then Ok (Int64 (map (fun f => int64_of_float (fill_float f)) fs))
    else Raise IntCastingNaNError.
Proof.
  cbn [fillna0 astype_int].
  assert (E : forallb is_finite (map fill_float fs)
              = forallb (fun f => is_nan f || is_finite f) fs).
  { induction fs as [|f fs IH]; [reflexivity|]. cbn [map forallb]. rewrite IH.
    f_equal. destruct f; reflexivity. }
  rewrite E, map_map. reflexivity.
Qed.

(** The floats a column is read as when it does not stay an integer
    column. *)
Lemma coerce_integer_floats (s : Series) :
  has_wide s = false ->
  (exists ns, s = Int64 ns /\ coerce_integer s = Ok s)
  \/ (forallb is_NInt (map to_numeric_cell (values s)) = true /\
      coerce_integer s = Ok (Int64 (map num_int (map to_numeric_cell (values s)))))
  \/ ((exists v f, v ∈ values s /\ to_numeric_cell v = NFloat f) /\
      coerce_integer s
      = astype_int (fillna0 (Float64 (map num_float (map to_numeric_cell (values s)))))).
Proof.
  intros Hw. destruct s as [xs|xs|xs].
  - left. eauto.
  - destruct xs as [|x xs].
    + right. left. split; reflexivity.
    + right. right. split.
      * exists (VFloat x), x. split; [left | reflexivity].
      * unfold coerce_integer. cbn [has_wide to_numeric values]. rewrite !map_map.
        cbn [to_numeric_cell num_float]. rewrite map_id. reflexivity.
  - unfold coerce_integer. rewrite Hw. cbn [to_numeric values].
    destruct (forallb is_NInt (map to_numeric_cell xs)) eqn:E.
    + right. left. split; reflexivity.
    + right. right. split; [|reflexivity].
      assert (H : ~ forallb is_NInt (map to_numeric_cell xs) = true) by congruence.
      rewrite forallb_forall in H.
      destruct (existsb (fun v => negb (is_NInt (to_numeric_cell v))) xs) eqn:Ex.
      * apply existsb_exists in Ex as (v & Hv & Hn).
        destruct (to_numeric_cell v) as [n|f] eqn:Hc; [discriminate|].
        exists v, f. split; [apply list_elem_of_In, Hv | exact Hc].
      * exfalso. apply H. intros x Hx. apply in_map_iff in Hx as (v & <- & Hv).
        destruct (is_NInt (to_numeric_cell v)) eqn:Hn; [reflexivity|].
        assert (existsb (fun v => negb (is_NInt (to_numeric_cell v))) xs = true)
          by (apply existsb_exists; exists v; rewrite Hn; auto).
        congruence.
Qed.

(** The numeric coercion fails on an infinity and on nothing else. *)
Lemma coerce_integer_raise_inv (s : Series) (e : exn) :
  has_wide s = false ->
  coerce_integer s = Raise e ->
  e = IntCastingNaNError /\
  exists v, v ∈ values s /\
    is_nan (num_float (to_numeric_cell v)) = false /\
    is_finite (num_float (to_numeric_cell v)) = false.
Proof.
  intros Hw. set (cells := map to_numeric_cell (values s)).
  destruct (coerce_integer_floats s Hw) as [(ns & -> & E) | [(Hall & E) | (Hex & E)]];
    [congruence | congruence |].
  fold cells in E. rewrite astype_int_filled in E. intros He. rewrite E in He.
  destruct (forallb _ (map num_float cells)) eqn:Hfb; [discriminate|].
  injection He as <-. split; [reflexivity|].
  destruct (existsb (fun v => negb (is_nan (num_float (to_numeric_cell v))
                                    || is_finite (num_float (to_numeric_cell v)))) (values s))
    eqn:Ex.
  - apply existsb_exists in Ex as (v & Hv & Hb). exists v.
    split; [apply list_elem_of_In, Hv|].
    apply negb_true_iff, orb_false_iff in Hb. exact Hb.
  - exfalso. assert (forallb (fun f => is_nan f || is_finite f) (map num_float cells) = true);
      [|congruence].
    apply forallb_forall. intros f Hf. unfold cells in Hf. rewrite map_map in Hf.
    apply in_map_iff in Hf as (v & <- & Hv).
    destruct (is_nan (num_float (to_numeric_cell v)) || is_finite (num_float (to_numeric_cell v)))
      eqn:Hb; [reflexivity|].
    assert (existsb (fun v => negb (is_nan (num_float (to_numeric_cell v))
                                    || is_finite (num_float (to_numeric_cell v)))) (values s)
            = true) by (apply existsb_exists; exists v; rewrite Hb; auto).
    congruence.
Qed.

(** X18. On a column with no integer beyond int64 that the converter
    keeps as an integer (a numeral from 2^63 to 2^64 - 1, or a Python [int]
    outside int64; what becomes of such a column is the runtime's matter),
    the numeric coercion of [transform_data] gives an int64 column of the
    same length in which a missing or unreadable cell is 0. When every cell
    reads as an int64 integer the column holds exactly these integers; when
    some cell does not, every cell goes through float64: the column holds
    the floats the cells read as, NaN made 0, cast to int64. It fails in one
    way only: it raises [IntCastingNaNError] when a cell reads as an
    infinity, and raises nothing else. *)
Theorem coerce_integer_outcome (s : Series) :
  has_wide s = false ->
  (forall v f, v ∈ values s -> to_numeric_cell v = NFloat f ->
     is_nan f = false -> is_finite f = false ->
     coerce_integer s = Raise IntCastingNaNError)
  /\ (forall e, coerce_integer s = Raise e ->
        e = IntCastingNaNError /\
        exists v, v ∈ values s /\
          is_nan (num_float (to_numeric_cell v)) = false /\
          is_finite (num_float (to_numeric_cell v)) = false)
  /\ (forall s', coerce_integer s = Ok s' ->
        exists ns, s' = Int64 ns /\ length ns = series_len s /\
          (forall i v, values s !! i = Some v -> to_numeric_cell v = NFloat nan ->
             ns !! i = Some 0) /\
          (forallb is_NInt (map to_numeric_cell (values s)) = true ->
             ns = map num_int (map to_numeric_cell (values s))) /\
          (forallb is_NInt (map to_numeric_cell (values s)) = false ->
             ns = map (fun c => int64_of_float (fill_float (num_float c)))
                      (map to_numeric_cell (values s)))).
Proof.
  intros Hw. set (cells := map to_numeric_cell (values s)).
  split; [|split; [intros e; apply (coerce_integer_raise_inv s e Hw)|]].
  - intros v f Hv Hc Hn Hf.
    destruct (coerce_integer_floats s Hw) as [(ns & -> & E) | [(Hall & E) | (Hex & E)]].
    + cbn [values] in Hv. apply list_elem_of_fmap in Hv as (n & -> & _). discriminate.
    + exfalso. rewrite forallb_forall in Hall.
      assert (H : In (NFloat f) (map to_numeric_cell (values s))).
      { rewrite <- Hc. apply in_map, list_elem_of_In, Hv. }
      specialize (Hall _ H). discriminate.
    + fold cells in E. rewrite astype_int_filled in E. rewrite E.
      assert (Hin : In f (map num_float cells)).
      { change f with (num_float (NFloat f)). rewrite <- Hc.
        apply in_map, in_map, list_elem_of_In, Hv. }
      destruct (forallb _ (map num_float cells)) eqn:Hfb; [|reflexivity].
      rewrite forallb_forall in Hfb. specialize (Hfb f Hin). rewrite Hn, Hf in Hfb. discriminate.
  - intros s' Hs'.
    destruct (coerce_integer_floats s Hw) as [(ns & -> & E) | [(Hall & E) | (Hex & E)]].
    + assert (Hints : forallb is_NInt (map to_numeric_cell (values (Int64 ns))) = true).
      { cbn [values]. rewrite map_map. apply forallb_forall. intros x Hx.
        apply in_map_iff in Hx as (n & <- & _). reflexivity. }
      exists ns. split; [congruence|].
      split; [unfold series_len; cbn [values]; rewrite length_map; reflexivity|].
      split; [|split].
      * intros i v Hv Hc. cbn [values] in Hv. rewrite list_lookup_fmap in Hv.
        destruct (ns !! i); [|discriminate]. injection Hv as <-. discriminate.
      * intros _. unfold cells. cbn [values]. rewrite !map_map. cbn [to_numeric_cell num_int].
        rewrite map_id. reflexivity.
      * unfold cells. rewrite Hints. discriminate.
    + fold cells in Hall, E. exists (map num_int cells). split; [congruence|].
      split; [unfold cells, series_len; rewrite !length_map; reflexivity|].
      split; [|split; [reflexivity | rewrite Hall; discriminate]].
      intros i v Hv Hc. exfalso. rewrite forallb_forall in Hall.
      assert (H : In (NFloat nan) cells).
      { rewrite <- Hc. apply in_map, list_elem_of_In. eapply list_elem_of_lookup_2, Hv. }
      specialize (Hall _ H). discriminate.
    + assert (Hmixed : forallb is_NInt (map to_numeric_cell (values s)) = false).
      { destruct Hex as (v & f & Hv & Hc).
        destruct (forallb is_NInt (map to_numeric_cell (values s))) eqn:Hall; [|reflexivity].
        rewrite forallb_forall in Hall.
        assert (H : In (NFloat f) (map to_numeric_cell (values s))).
        { rewrite <- Hc. apply in_map, list_elem_of_In, Hv. }
        specialize (Hall _ H). discriminate. }
      fold cells in E. rewrite astype_int_filled in E. rewrite E in Hs'.
      destruct (forallb _ (map num_float cells)) eqn:Hfb; [|discriminate].
      injection Hs' as <-. eexists. split; [reflexivity|].
      split; [unfold cells, series_len; rewrite !length_map; reflexivity|].
      split; [|split].
      * intros i v Hv Hc. unfold cells. rewrite !list_lookup_fmap, Hv. cbn. rewrite Hc. reflexivity.
      * unfold cells. rewrite Hmixed. discriminate.
      * intros _. rewrite map_map. reflexivity.
Qed.

End Numbers.

(** X18 on a column read as text: [42] and a word. *)
Lemma coerce_integer_outcome_witness :
  exists ns, Int64 [42; 0] = Int64 ns /\ length ns = 2%nat /\
    ns = map (fun c => @int64_of_float example_runtime (fill_float (num_float c)))
             (map (@to_numeric_cell example_runtime) [VStr "42"; VStr "abc"]).
Proof.
  destruct (proj2 (proj2 (coerce_integer_outcome (rt := example_runtime)
                            (Object [VStr "42"; VStr "abc"]) eq_refl))
              (Int64 [42; 0]) eq_refl) as (ns & E & L & _ & _ & Hmixed).
  exists ns. split; [exact E|]. split; [exact L|]. apply Hmixed. reflexivity.
Defined.
(* ===================================================================== *)
(** * Further properties: the array parser *)
(* ===================================================================== *)

Lemma mem_char_app (c : ascii) (a b : string) :
  mem_char c (a ++ b) = mem_char c a || mem_char c b.
Proof.
  induction a as [|d a IH]; [reflexivity|].
  rewrite append_cons. cbn [mem_char]. rewrite IH, orb_assoc. reflexivity.
Qed.

Lemma remove_char_app (c : ascii) (a b : string) :
  remove_char c (a ++ b) = remove_char c a ++ remove_char c b.
Proof.
  induction a as [|d a IH]; [reflexivity|].
  rewrite append_cons. cbn [remove_char]. rewrite IH.
  destruct (Ascii.eqb d c); [reflexivity | rewrite append_cons; reflexivity].
Qed.

Lemma remove_char_absent (c : ascii) (s : string) :
  mem_char c s = false -> remove_char c s = s.
Proof.
  induction s as [|d s IH]; [reflexivity|]. cbn [mem_char remove_char].
  intros H. apply orb_false_iff in H as [H1 H2]. rewrite Ascii.eqb_sym, H1, (IH H2). reflexivity.
Qed.

Lemma mem_char_remove_char (c : ascii) (s : string) : mem_char c (remove_char c s) = false.
Proof.
  induction s as [|d s IH]; [reflexivity|]. cbn [remove_char].
  destruct (Ascii.eqb d c) eqn:E; [exact IH|]. cbn [mem_char].
  rewrite Ascii.eqb_sym, E, IH. reflexivity.
Qed.

Lemma mem_char_remove_other (c d : ascii) (s : string) :
  mem_char d s = false -> mem_char d (remove_char c s) = false.
Proof.
  induction s as [|x s IH]; [reflexivity|]. cbn [mem_char remove_char].
  intros H. apply orb_false_iff in H as [H1 H2].
  destruct (Ascii.eqb x c); [exact (IH H2)|]. cbn [mem_char]. rewrite H1, (IH H2). reflexivity.
Qed.

Lemma split_cons (sep c : ascii) (r : string) :
  exists h t, split sep r = h :: t /\
    split sep (String c r) = if Ascii.eqb c sep then "" :: h :: t else String c h :: t.
Proof.
  assert (H : exists h t, split sep r = h :: t).
  { destruct r as [|d r]; cbn [split]; [eauto|].
    destruct (Ascii.eqb d sep); [eauto|]. destruct (split sep r); eauto. }
  destruct H as (h & t & E). exists h, t. split; [exact E|].
  cbn [split]. rewrite E. reflexivity.
Qed.

Lemma split_absent (sep : ascii) (s : string) : mem_char sep s = false -> split sep s = [s].
Proof.
  induction s as [|c s IH]; [reflexivity|]. cbn [mem_char split].
  intros H. apply orb_false_iff in H as [H1 H2].
  rewrite Ascii.eqb_sym, H1, (IH H2). reflexivity.
Qed.

Lemma split_app (sep : ascii) (a b : string) :
  mem_char sep a = false -> split sep (a ++ String sep b) = a :: split sep b.
Proof.
  induction a as [|c a IH].
  - intros _. rewrite append_nil_l. cbn [split]. rewrite Ascii.eqb_refl. reflexivity.
  - cbn [mem_char]. intros H. apply orb_false_iff in H as [H1 H2].
    rewrite append_cons. cbn [split]. rewrite Ascii.eqb_sym, H1, (IH H2). reflexivity.
Qed.

(** No piece of a split holds the separator, nor a character the text does
    not hold. *)
Lemma split_pieces (sep d : ascii) (s : string) :
  Forall (fun piece => mem_char sep piece = false /\
                       (mem_char d s = false -> mem_char d piece = false)) (split sep s).
Proof.
  induction s as [|c s IH]; [repeat constructor|].
  destruct (split_cons sep c s) as (h & t & E & ->). rewrite E in IH.
  apply Forall_cons in IH as [[Hh Hd] Ht].
  assert (Ht' : Forall (fun piece => mem_char sep piece = false /\
                          (mem_char d (String c s) = false -> mem_char d piece = false)) t).
  { eapply Forall_impl; [exact Ht|]. intros piece [P1 P2]. split; [exact P1|].
    cbn [mem_char]. intros H. apply orb_false_iff in H as [_ H]. exact (P2 H). }
  destruct (Ascii.eqb c sep) eqn:Ec.
  - constructor; [split; reflexivity|]. constructor; [|exact Ht'].
    split; [exact Hh|]. cbn [mem_char]. intros H. apply orb_false_iff in H as [_ H]. exact (Hd H).
  - constructor; [|exact Ht']. cbn [mem_char]. split.
    + rewrite Ascii.eqb_sym, Ec, Hh. reflexivity.
    + intros H. apply orb_false_iff in H as [H1 H2]. rewrite H1, (Hd H2). reflexivity.
Qed.

Lemma mem_char_strip_by (p : ascii -> bool) (d : ascii) (s : string) :
  mem_char d s = false -> mem_char d (strip_by p s) = false.
Proof.
  destruct (strip_by_decomp p s) as (a & b & E & _). intros H. rewrite E in H.
  rewrite !mem_char_app in H. apply orb_false_iff in H as [_ H].
  apply orb_false_iff in H as [H _]. exact H.
Qed.

Lemma clean_item_spec (item : string) :
  clean_item item = true <->
  nonempty item = true /\ mem_char "," item = false /\ mem_char quote item = false /\
  mem_char dquote item = false /\ head_in isspace item = false /\ last_in isspace item = false.
Proof.
  unfold clean_item. rewrite !andb_true_iff, !negb_true_iff. tauto.
Qed.

Section ArrayItems.
Context {rt : Runtime}.

Lemma pieces_clean (s : string) : Forall (fun item => clean_item item = true) (pieces s).
Proof.
  unfold pieces, remove_quotes. set (t := remove_char dquote (remove_char quote s)).
  assert (Hq : mem_char quote t = false)
    by (apply mem_char_remove_other, mem_char_remove_char).
  assert (Hd : mem_char dquote t = false) by apply mem_char_remove_char.
  apply Forall_forall. intros item Hin. apply list_elem_of_filter in Hin as [Hne Hin].
  apply list_elem_of_fmap in Hin as (piece & -> & Hin). apply clean_item_spec.
  pose proof (split_pieces "," quote t) as F1. pose proof (split_pieces "," dquote t) as F2.
  rewrite Forall_forall in F1, F2.
  destruct (F1 piece Hin) as [Hc Hq'].
  destruct (F2 piece Hin) as [_ Hd'].
  destruct (strip_by_decomp isspace piece) as (a & b & _ & _ & _ & Hh & Hl).
  split; [exact Hne|]. unfold strip.
  split; [apply mem_char_strip_by, Hc|]. split; [apply mem_char_strip_by, Hq', Hq|].
  split; [apply mem_char_strip_by, Hd', Hd|]. split; [exact Hh | exact Hl].
Qed.

(** X19. Whatever string the array parser is given, each item of the list
    it returns is not empty, holds no comma and no quote character, and
    neither starts nor ends with whitespace. *)
Theorem parse_array_items_are_clean (s : string) :
  exists items, _parse_array (VStr s) = Ok (VList items) /\
                Forall (fun item => clean_item item = true) items.
Proof.
  exists (pieces (strip_chars "[]" s)). split; [apply parse_array_str | apply pieces_clean].
Qed.

Lemma last_in_render_tail (a : string) (rest : list string) :
  last_in is_bracket (a ++ "'" ++ render_tail rest) = false.
Proof.
  revert a. induction rest as [|item rest IH]; intros a.
  - cbn [render_tail]. rewrite last_in_app by discriminate. reflexivity.
  - cbn [render_tail].
    replace (a ++ "'" ++ ", '" ++ item ++ "'" ++ render_tail rest)
      with ((a ++ "', '" ++ item) ++ "'" ++ render_tail rest)
      by (rewrite !append_assoc; reflexivity).
    apply IH.
Qed.

Lemma strip_chars_render (item : string) (rest : list string) :
  strip_chars "[]" (render_list (item :: rest)) = "'" ++ item ++ "'" ++ render_tail rest.
Proof.
  change (strip_chars "[]") with (strip_by is_bracket).
  apply (strip_by_unique is_bracket _ "[" _ "]").
  - cbn [render_list]. rewrite !append_assoc. reflexivity.
  - reflexivity.
  - reflexivity.
  - reflexivity.
  - apply (last_in_render_tail ("'" ++ item) rest).
Qed.

Lemma remove_quotes_render_tail (rest : list string) :
  Forall (fun item => clean_item item = true) rest ->
  remove_quotes (render_tail rest) = plain_tail rest.
Proof.
  unfold remove_quotes. induction 1 as [|item rest Hitem _ IH]; [reflexivity|].
  apply clean_item_spec in Hitem as (_ & _ & Hq & Hd & _).
  cbn [render_tail plain_tail].
  change (", '" ++ item ++ "'" ++ render_tail rest)
    with (", " ++ "'" ++ item ++ "'" ++ render_tail rest).
  rewrite !remove_char_app, (remove_char_absent quote item Hq), (remove_char_absent dquote item Hd).
  rewrite IH. reflexivity.
Qed.

Lemma split_plain_tail (a : string) (rest : list string) :
  mem_char "," a = false ->
  Forall (fun item => clean_item item = true) rest ->
  split "," (a ++ plain_tail rest) = a :: map (String " ") rest.
Proof.
  intros Ha Hrest. revert a Ha. induction Hrest as [|item rest Hitem _ IH]; intros a Ha.
  - cbn [plain_tail map]. rewrite append_nil_r. apply split_absent, Ha.
  - cbn [plain_tail map].
    change (a ++ ", " ++ item ++ plain_tail rest)
      with (a ++ String "," (String " " item ++ plain_tail rest)).
    rewrite (split_app "," a _ Ha). f_equal. apply IH.
    apply clean_item_spec in Hitem as (_ & Hc & _). cbn [mem_char]. rewrite Hc. reflexivity.
Qed.

(** X20. The array parser reads back a list written as text: for items
    that are not empty, hold no comma and no quote character and have no
    whitespace at either end, the parser gives the items of the rendered
    list, in their order. In particular it reads back every list it
    returned for a string. *)
Theorem parse_array_reads_rendered_list :
  (forall items, Forall (fun item => clean_item item = true) items ->
     _parse_array (VStr (render_list items)) = Ok (VList items))
  /\ (forall s items, _parse_array (VStr s) = Ok (VList items) ->
        _parse_array (VStr (render_list items)) = Ok (VList items)).
Proof.
  assert (H : forall items, Forall (fun item => clean_item item = true) items ->
            _parse_array (VStr (render_list items)) = Ok (VList items)).
  { intros items Hitems. rewrite parse_array_str. do 2 f_equal.
    destruct Hitems as [|item rest Hitem Hrest]; [reflexivity|].
    rewrite strip_chars_render. unfold pieces.
    pose proof Hitem as Hi. apply clean_item_spec in Hi as (Hne & Hc & Hq & Hd & Hh & Hl).
    assert (E : remove_quotes ("'" ++ item ++ "'" ++ render_tail rest) = item ++ plain_tail rest).
    { rewrite <- (remove_quotes_render_tail rest Hrest). unfold remove_quotes.
      rewrite !remove_char_app, (remove_char_absent quote item Hq),
        (remove_char_absent dquote item Hd). reflexivity. }
    rewrite E, (split_plain_tail item rest Hc Hrest). cbn [map].
    assert (Hstrip : forall x, clean_item x = true -> strip x = x /\ strip (String " " x) = x).
    { intros x Hx. apply clean_item_spec in Hx as (_ & _ & _ & _ & Hxh & Hxl). unfold strip. split.
      - apply strip_by_fixed; assumption.
      - apply (strip_by_unique isspace _ " " x ""); try reflexivity; try assumption.
        rewrite append_nil_r. reflexivity. }
    rewrite (proj1 (Hstrip item Hitem)).
    assert (Hrest' : filter (fun it => nonempty it = true) (map strip (map (String " ") rest))
                     = rest).
    { clear E. induction Hrest as [|x rest Hx _ IH]; [reflexivity|]. cbn [map].
      rewrite (proj2 (Hstrip x Hx)).
      apply clean_item_spec in Hx as (Hxne & _). rewrite filter_cons_True by exact Hxne.
      f_equal. exact IH. }
    rewrite filter_cons_True by exact Hne.
    f_equal. exact Hrest'. }
  split; [exact H|].
  intros s items Hs. apply H.
  rewrite parse_array_str in Hs. injection Hs as <-. apply pieces_clean.
Qed.

End ArrayItems.

(* ===================================================================== *)
(** * Further properties: the date parser *)
(* ===================================================================== *)

Lemma pad2_table : forallb (fun n => int_of_digits 0 (pad2 n) =? n) (seqZ 0 100) = true.
Proof. vm_compute. reflexivity. Qed.

Lemma pad2_digits (n : Z) : 0 <= n < 100 -> int_of_digits 0 (pad2 n) = n.
Proof.
  intros H. pose proof pad2_table as T. rewrite forallb_forall in T.
  apply Z.eqb_eq, T, list_elem_of_In, elem_of_seqZ. lia.
Qed.

Lemma pad4_digits (y : Z) : 0 <= y <= 9999 -> int_of_digits 0 (pad4 y) = y.
Proof. intros H. apply (year_digits y H). Qed.

Lemma match_lit (c : ascii) (ts : list tok) (r : string) :
  match_toks (Lit c :: ts) (String c r) = match_toks ts r.
Proof. cbn [match_toks]. rewrite Ascii.eqb_refl. reflexivity. Qed.

Lemma match_pad4 (y : Z) (rest : string) (ts : list tok) :
  match_toks (Dir FYear :: ts) (pad4 y ++ rest) =
  match match_toks ts rest with
  | Some (groups, r) => Some ((FYear, pad4 y) :: groups, r)
  | None => None
  end.
Proof.
  apply (match_year (digit_char (y / 1000 mod 10)) (digit_char (y / 100 mod 10))
           (digit_char (y / 10 mod 10)) (digit_char (y mod 10)) rest ts);
    apply isdigit_digit_char, Z.mod_pos_bound; lia.
Qed.

(** A day or a month written with two digits and followed by one of the
    separators is matched as such, whatever follows. *)
Lemma match_day_sep (dd : Z) (sep : ascii) (ts : list tok) (rest : string) :
  1 <= dd <= 31 -> In sep ["/"; "-"; "."]%char ->
  match_toks (Dir FDay :: Lit sep :: ts) (pad2 dd ++ String sep rest) =
  match match_toks ts rest with
  | Some (groups, r) => Some ((FDay, pad2 dd) :: groups, r)
  | None => None
  end.
Proof.
  intros Hd Hsep.
  assert (Hin : In dd (seqZ 1 31)) by (apply list_elem_of_In, elem_of_seqZ; lia).
  vm_compute in Hin.
  destruct Hsep as [<- | [<- | [<- | []]]];
    repeat (destruct Hin as [<- | Hin]; [reflexivity|]); destruct Hin.
Qed.

Lemma match_month_sep (m : Z) (sep : ascii) (ts : list tok) (rest : string) :
  1 <= m <= 12 -> In sep ["/"; "-"; "."]%char ->
  match_toks (Dir FMonth :: Lit sep :: ts) (pad2 m ++ String sep rest) =
  match match_toks ts rest with
  | Some (groups, r) => Some ((FMonth, pad2 m) :: groups, r)
  | None => None
  end.
Proof.
  intros Hm Hsep.
  assert (Hin : In m (seqZ 1 12)) by (apply list_elem_of_In, elem_of_seqZ; lia).
  vm_compute in Hin.
  destruct Hsep as [<- | [<- | [<- | []]]];
    repeat (destruct Hin as [<- | Hin]; [reflexivity|]); destruct Hin.
Qed.

(** No month is written with the two digits of a number above 12. *)
Lemma match_month_above_12 (dd : Z) (ts : list tok) (rest : string) :
  12 < dd <= 31 ->
  match_toks (Dir FMonth :: Lit "/" :: ts) (pad2 dd ++ String "/" rest) = None.
Proof.
  intros Hd.
  assert (Hin : In dd (seqZ 13 19)) by (apply list_elem_of_In, elem_of_seqZ; lia).
  vm_compute in Hin.
  repeat (destruct Hin as [<- | Hin]; [reflexivity|]); destruct Hin.
Qed.

(** Two digits and then a character that is not the separator: no day and
    no month followed by the separator is matched. *)
Lemma day_sep_mismatch (f : field) (sep x y c : ascii) (r : string) (ts : list tok) :
  f = FDay \/ f = FMonth ->
  Ascii.eqb y sep = false -> Ascii.eqb c sep = false ->
  match_toks (Dir f :: Lit sep :: ts) (String x (String y (String c r))) = None.
Proof.
  intros Hf Ey Ec.
  destruct Hf as [-> | ->]; cbn [match_toks alternatives match_alt];
    repeat match goal with
           | |- context [if ?t then _ else _] =>
               first [rewrite Ey | rewrite Ec | destruct t eqn:?]; cbn [match_toks]
           end; reflexivity.
Qed.

(** No year starts with two characters and a third that is no digit. *)
Lemma year_mismatch (x y c : ascii) (r : string) (ts : list tok) :
  isdigit c = false ->
  match_toks (Dir FYear :: ts) (String x (String y (String c r))) = None.
Proof.
  intros Hc. cbn [match_toks alternatives match_alt].
  destruct (isdigit x); [|reflexivity]. destruct (isdigit y); [|reflexivity].
  rewrite Hc. reflexivity.
Qed.

Lemma pad2_chars (n : Z) :
  pad2 n = String (digit_char (n / 10 mod 10)) (String (digit_char (n mod 10)) "").
Proof. reflexivity. Qed.

Lemma pad4_chars (n : Z) :
  pad4 n = String (digit_char (n / 1000 mod 10)) (String (digit_char (n / 100 mod 10))
             (String (digit_char (n / 10 mod 10)) (String (digit_char (n mod 10)) ""))).
Proof. reflexivity. Qed.

Lemma digit_not_sep (n : Z) (sep : ascii) :
  isdigit sep = false -> Ascii.eqb (digit_char (n mod 10)) sep = false.
Proof.
  intros H. apply isdigit_not_sep; [|exact H].
  apply isdigit_digit_char, Z.mod_pos_bound. lia.
Qed.

Lemma match_lit_mismatch (c x : ascii) (ts : list tok) (r : string) :
  Ascii.eqb x c = false -> match_toks (Lit c :: ts) (String x r) = None.
Proof. intros H. cbn [match_toks]. rewrite H. reflexivity. Qed.

Lemma match_day_end (dd : Z) :
  1 <= dd <= 31 -> match_toks [Dir FDay] (pad2 dd ++ "") = Some ([(FDay, pad2 dd)], "").
Proof.
  intros Hd.
  assert (Hin : In dd (seqZ 1 31)) by (apply list_elem_of_In, elem_of_seqZ; lia).
  vm_compute in Hin.
  repeat (destruct Hin as [<- | Hin]; [reflexivity|]); destruct Hin.
Qed.

Lemma match_month_day_table :
  forallb (fun m => forallb (fun dd =>
     bool_decide (match_toks [Dir FMonth; Dir FDay] (pad2 m ++ pad2 dd ++ "")
                  = Some ([(FMonth, pad2 m); (FDay, pad2 dd)], ""))) (seqZ 1 31)) (seqZ 1 12)
  = true.
Proof. vm_compute. reflexivity. Qed.

Lemma match_month_day (m dd : Z) :
  1 <= m <= 12 -> 1 <= dd <= 31 ->
  match_toks [Dir FMonth; Dir FDay] (pad2 m ++ pad2 dd ++ "")
  = Some ([(FMonth, pad2 m); (FDay, pad2 dd)], "").
Proof.
  intros Hm Hd. pose proof match_month_day_table as T.
  rewrite forallb_forall in T. specialize (T m ltac:(apply list_elem_of_In, elem_of_seqZ; lia)).
  rewrite forallb_forall in T. specialize (T dd ltac:(apply list_elem_of_In, elem_of_seqZ; lia)).
  apply bool_decide_eq_true in T. exact T.
Qed.

Lemma strptime_no_match (s fmt : string) :
  match_toks (compile_format fmt) s = None -> strptime s fmt = None.
Proof. intros H. unfold strptime. rewrite H. reflexivity. Qed.

Lemma isdigit_not_space (c : ascii) : isdigit c = true -> isspace c = false.
Proof. revert c. intros [[] [] [] [] [] [] [] []]; vm_compute; congruence. Qed.

Lemma digit_char_not_space (n : Z) : isspace (digit_char (n mod 10)) = false.
Proof. apply isdigit_not_space, isdigit_digit_char, Z.mod_pos_bound. lia. Qed.

Lemma append_eq_nil (a b : string) : a ++ b = "" -> b = "".
Proof. destruct a; [rewrite append_nil_l; auto | rewrite append_cons; discriminate]. Qed.

Section Formats.
Variable d : date.
Hypothesis Hv : valid_date d = true.

Lemma strptime_day_first (sep : ascii) :
  In sep ["/"; "-"; "."]%char ->
  strptime (pad2 (day d) ++ String sep (pad2 (month d) ++ String sep (pad4 (year d) ++ "")))
           (String "%" (String "d" (String sep (String "%" (String "m" (String sep "%Y"))))))
  = Some d.
Proof.
  intros Hsep. destruct (valid_date_bounds d Hv) as (Hy & Hm & Hd).
  unfold strptime.
  assert (E : compile_format
                (String "%" (String "d" (String sep (String "%" (String "m" (String sep "%Y"))))))
              = [Dir FDay; Lit sep; Dir FMonth; Lit sep; Dir FYear]).
  { destruct Hsep as [<- | [<- | [<- | []]]]; reflexivity. }
  rewrite E, (match_day_sep _ sep _ _ Hd Hsep), (match_month_sep _ sep _ _ Hm Hsep), match_pad4.
  cbn [match_toks group field_eqb default].
  rewrite !pad2_digits, pad4_digits by lia.
  destruct d as [y m dd]. cbn [year month day] in *. unfold id. rewrite Hv. reflexivity.
Qed.

Lemma first_format_day_slash : first_format date_formats (date_text "%d/%m/%Y" d) = Some d.
Proof.
  unfold date_formats. cbn [first_format].
  rewrite (strptime_day_first "/" ltac:(left; reflexivity) : strptime (date_text "%d/%m/%Y" d) "%d/%m/%Y" = Some d).
  reflexivity.
Qed.

(** The text of a day-first date, for one of the separators. *)
Lemma day_first_chars (sep : ascii) :
  pad2 (day d) ++ String sep (pad2 (month d) ++ String sep (pad4 (year d) ++ ""))
  = String (digit_char (day d / 10 mod 10)) (String (digit_char (day d mod 10))
      (String sep (pad2 (month d) ++ String sep (pad4 (year d) ++ "")))).
Proof. reflexivity. Qed.

Lemma year_first_chars (rest : string) :
  pad4 (year d) ++ rest
  = String (digit_char (year d / 1000 mod 10)) (String (digit_char (year d / 100 mod 10))
      (String (digit_char (year d / 10 mod 10)) (String (digit_char (year d mod 10)) rest))).
Proof. reflexivity. Qed.

Lemma first_format_day_dash : first_format date_formats (date_text "%d-%m-%Y" d) = Some d.
Proof.
  assert (F : forall f ts, f = FDay \/ f = FMonth ->
            match_toks (Dir f :: Lit "/" :: ts) (date_text "%d-%m-%Y" d) = None).
  { intros f ts Hf. change (date_text "%d-%m-%Y" d)
      with (pad2 (day d) ++ String "-" (pad2 (month d) ++ String "-" (pad4 (year d) ++ ""))).
    rewrite day_first_chars. apply (day_sep_mismatch f "/"); [exact Hf | | reflexivity].
    apply digit_not_sep. reflexivity. }
  unfold date_formats. cbn [first_format].
  rewrite (strptime_no_match _ "%d/%m/%Y" (F FDay _ (or_introl eq_refl))).
  rewrite (strptime_no_match _ "%m/%d/%Y" (F FMonth _ (or_intror eq_refl))).
  rewrite (strptime_no_match (date_text "%d-%m-%Y" d) "%Y-%m-%d")
    by (apply (year_mismatch _ _ "-"); reflexivity).
  rewrite (strptime_day_first "-" ltac:(right; left; reflexivity)
           : strptime (date_text "%d-%m-%Y" d) "%d-%m-%Y" = Some d).
  reflexivity.
Qed.

Lemma first_format_day_dot : first_format date_formats (date_text "%d.%m.%Y" d) = Some d.
Proof.
  assert (F : forall f sep ts, f = FDay \/ f = FMonth -> sep = "/"%char \/ sep = "-"%char ->
            match_toks (Dir f :: Lit sep :: ts) (date_text "%d.%m.%Y" d) = None).
  { intros f sep ts Hf Hsep. change (date_text "%d.%m.%Y" d)
      with (pad2 (day d) ++ String "." (pad2 (month d) ++ String "." (pad4 (year d) ++ ""))).
    rewrite day_first_chars. apply (day_sep_mismatch f sep); [exact Hf | |].
    - apply digit_not_sep. destruct Hsep as [-> | ->]; reflexivity.
    - destruct Hsep as [-> | ->]; reflexivity. }
  unfold date_formats. cbn [first_format].
  rewrite (strptime_no_match _ "%d/%m/%Y" (F FDay "/"%char _ (or_introl eq_refl) (or_introl eq_refl))).
  rewrite (strptime_no_match _ "%m/%d/%Y" (F FMonth "/"%char _ (or_intror eq_refl) (or_introl eq_refl))).
  rewrite (strptime_no_match (date_text "%d.%m.%Y" d) "%Y-%m-%d")
    by (apply (year_mismatch _ _ "."); reflexivity).
  rewrite (strptime_no_match _ "%d-%m-%Y" (F FDay "-"%char _ (or_introl eq_refl) (or_intror eq_refl))).
  rewrite (strptime_no_match (date_text "%d.%m.%Y" d) "%Y/%m/%d")
    by (apply (year_mismatch _ _ "."); reflexivity).
  rewrite (strptime_day_first "." ltac:(right; right; left; reflexivity)
           : strptime (date_text "%d.%m.%Y" d) "%d.%m.%Y" = Some d).
  reflexivity.
Qed.

(** A text that starts with the four digits of a year matches no format
    that starts with a day or a month and a separator. *)
Lemma year_first_mismatch (f : field) (sep : ascii) (ts : list tok) (rest : string) :
  f = FDay \/ f = FMonth -> isdigit sep = false ->
  match_toks (Dir f :: Lit sep :: ts) (pad4 (year d) ++ rest) = None.
Proof.
  intros Hf Hsep. rewrite year_first_chars.
  apply (day_sep_mismatch f sep); [exact Hf | |]; apply digit_not_sep, Hsep.
Qed.

Lemma first_format_year_slash : first_format date_formats (date_text "%Y/%m/%d" d) = Some d.
Proof.
  destruct (valid_date_bounds d Hv) as (Hy & Hm & Hd).
  change (date_text "%Y/%m/%d" d)
    with (pad4 (year d) ++ String "/" (pad2 (month d) ++ String "/" (pad2 (day d) ++ ""))).
  unfold date_formats. cbn [first_format].
  rewrite (strptime_no_match _ "%d/%m/%Y") by (apply year_first_mismatch; auto).
  rewrite (strptime_no_match _ "%m/%d/%Y") by (apply year_first_mismatch; auto).
  rewrite (strptime_no_match _ "%Y-%m-%d")
    by (change (compile_format "%Y-%m-%d") with [Dir FYear; Lit "-"; Dir FMonth; Lit "-"; Dir FDay];
        rewrite match_pad4, match_lit_mismatch by reflexivity; reflexivity).
  rewrite (strptime_no_match _ "%d-%m-%Y") by (apply year_first_mismatch; auto).
  assert (E : strptime (pad4 (year d) ++ String "/" (pad2 (month d) ++ String "/" (pad2 (day d) ++ "")))
                "%Y/%m/%d" = Some d).
  { unfold strptime.
    change (compile_format "%Y/%m/%d") with [Dir FYear; Lit "/"; Dir FMonth; Lit "/"; Dir FDay].
    rewrite match_pad4, match_lit, (match_month_sep _ "/" _ _ Hm ltac:(left; reflexivity)),
      (match_day_end _ Hd).
    cbn [group field_eqb default]. rewrite !pad2_digits, pad4_digits by lia.
    destruct d as [y m dd]. cbn [year month day] in *. unfold id. rewrite Hv. reflexivity. }
  rewrite E. reflexivity.
Qed.

Lemma first_format_compact : first_format date_formats (date_text "%Y%m%d" d) = Some d.
Proof.
  destruct (valid_date_bounds d Hv) as (Hy & Hm & Hd).
  change (date_text "%Y%m%d" d) with (pad4 (year d) ++ pad2 (month d) ++ pad2 (day d) ++ "").
  assert (Hnext : forall c ts, isdigit c = false ->
            match_toks (Lit c :: ts) (pad2 (month d) ++ pad2 (day d) ++ "") = None).
  { intros c ts Hc. rewrite pad2_chars, append_cons. apply match_lit_mismatch.
    apply digit_not_sep, Hc. }
  unfold date_formats. cbn [first_format].
  rewrite (strptime_no_match _ "%d/%m/%Y") by (apply year_first_mismatch; auto).
  rewrite (strptime_no_match _ "%m/%d/%Y") by (apply year_first_mismatch; auto).
  rewrite (strptime_no_match _ "%Y-%m-%d")
    by (change (compile_format "%Y-%m-%d") with [Dir FYear; Lit "-"; Dir FMonth; Lit "-"; Dir FDay];
        rewrite match_pad4, Hnext by reflexivity; reflexivity).
  rewrite (strptime_no_match _ "%d-%m-%Y") by (apply year_first_mismatch; auto).
  rewrite (strptime_no_match _ "%Y/%m/%d")
    by (change (compile_format "%Y/%m/%d") with [Dir FYear; Lit "/"; Dir FMonth; Lit "/"; Dir FDay];
        rewrite match_pad4, Hnext by reflexivity; reflexivity).
  rewrite (strptime_no_match _ "%d.%m.%Y") by (apply year_first_mismatch; auto).
  assert (E : strptime (pad4 (year d) ++ pad2 (month d) ++ pad2 (day d) ++ "") "%Y%m%d" = Some d).
  { unfold strptime.
    change (compile_format "%Y%m%d") with [Dir FYear; Dir FMonth; Dir FDay].
    rewrite match_pad4, (match_month_day _ _ Hm Hd).
    cbn [group field_eqb default]. rewrite !pad2_digits, pad4_digits by lia.
    destruct d as [y m dd]. cbn [year month day] in *. unfold id. rewrite Hv. reflexivity. }
  rewrite E. reflexivity.
Qed.

Lemma first_format_year_dash : first_format date_formats (date_text "%Y-%m-%d" d) = Some d.
Proof.
  destruct (valid_date_bounds d Hv) as (Hy & Hm & Hd).
  change (date_text "%Y-%m-%d" d)
    with (pad4 (year d) ++ String "-" (pad2 (month d) ++ String "-" (pad2 (day d) ++ ""))).
  unfold date_formats. cbn [first_format].
  rewrite (strptime_no_match _ "%d/%m/%Y") by (apply year_first_mismatch; auto).
  rewrite (strptime_no_match _ "%m/%d/%Y") by (apply year_first_mismatch; auto).
  assert (E : strptime (pad4 (year d) ++ String "-" (pad2 (month d) ++ String "-" (pad2 (day d) ++ "")))
                "%Y-%m-%d" = Some d).
  { unfold strptime.
    change (compile_format "%Y-%m-%d") with [Dir FYear; Lit "-"; Dir FMonth; Lit "-"; Dir FDay].
    rewrite match_pad4, match_lit, (match_month_sep _ "-" _ _ Hm ltac:(right; left; reflexivity)),
      (match_day_end _ Hd).
    cbn [group field_eqb default]. rewrite !pad2_digits, pad4_digits by lia.
    destruct d as [y m dd]. cbn [year month day] in *. unfold id. rewrite Hv. reflexivity. }
  rewrite E. reflexivity.
Qed.

Lemma first_format_month_first :
  12 < day d -> first_format date_formats (date_text "%m/%d/%Y" d) = Some d.
Proof.
  intros Hlate. destruct (valid_date_bounds d Hv) as (Hy & Hm & Hd).
  change (date_text "%m/%d/%Y" d)
    with (pad2 (month d) ++ String "/" (pad2 (day d) ++ String "/" (pad4 (year d) ++ ""))).
  unfold date_formats. cbn [first_format].
  rewrite (strptime_no_match _ "%d/%m/%Y")
    by (change (compile_format "%d/%m/%Y") with [Dir FDay; Lit "/"; Dir FMonth; Lit "/"; Dir FYear];
        rewrite (match_day_sep (month d) "/" _ _ ltac:(lia) ltac:(left; reflexivity)),
          (match_month_above_12 (day d) _ _ ltac:(lia)); reflexivity).
  assert (E : strptime (pad2 (month d) ++ String "/" (pad2 (day d) ++ String "/" (pad4 (year d) ++ "")))
                "%m/%d/%Y" = Some d).
  { unfold strptime.
    change (compile_format "%m/%d/%Y") with [Dir FMonth; Lit "/"; Dir FDay; Lit "/"; Dir FYear].
    rewrite (match_month_sep _ "/" _ _ Hm ltac:(left; reflexivity)),
      (match_day_sep _ "/" _ _ Hd ltac:(left; reflexivity)), match_pad4.
    cbn [match_toks group field_eqb default]. rewrite !pad2_digits, pad4_digits by lia.
    destruct d as [y m dd]. cbn [year month day] in *. unfold id. rewrite Hv. reflexivity. }
  rewrite E. reflexivity.
Qed.

End Formats.

Lemma valid_swap_day_month (d : date) :
  valid_date d = true -> day d <= 12 -> valid_date (swap_day_month d) = true.
Proof.
  intros Hv Hd. destruct (valid_date_bounds d Hv) as (Hy & Hm & Hd').
  unfold valid_date, swap_day_month. cbn [year month day].
  repeat (apply andb_true_intro; split); apply Z.leb_le; try lia.
  unfold days_in_month. repeat match goal with |- context [if ?b then _ else _] => destruct b end; lia.
Qed.

(** The texts of the seven formats start and end with a digit. *)
Lemma date_text_ends (d : date) (fmt : string) :
  In fmt date_formats ->
  date_text fmt d <> "" /\
  head_in isspace (date_text fmt d) = false /\ last_in isspace (date_text fmt d) = false.
Proof.
  unfold date_formats. cbn [In]. intros Hin.
  repeat (destruct Hin as [<- | Hin];
          [split; [discriminate|];
           cbv [date_text compile_format render_toks pad4 pad2 String.append head_in last_in];
           split; apply digit_char_not_space |]).
  destruct Hin.
Qed.

Section ReadFormats.
Context {rt : Runtime}.

(** What [strftime('%Y-%m-%d')] writes: the date in full from the year 1000
    on, and before it the year as the platform writes it. *)
Lemma strftime_iso_text (d : date) :
  (1000 <= year d -> strftime_iso d = date_text "%Y-%m-%d" d)
  /\ (year d < 1000 ->
      strftime_iso d = short_year (year d) ++ "-" ++ pad2 (month d) ++ "-" ++ pad2 (day d)).
Proof.
  unfold strftime_iso, strftime_year. split; intros Hy.
  - rewrite (proj2 (Z.leb_le 1000 (year d)) Hy).
    change (date_text "%Y-%m-%d" d)
      with (pad4 (year d) ++ "-" ++ pad2 (month d) ++ "-" ++ (pad2 (day d) ++ "")).
    rewrite append_nil_r. reflexivity.
  - rewrite (proj2 (Z.leb_gt 1000 (year d)) Hy). reflexivity.
Qed.

Lemma parse_date_of_first_format (t a b : string) (d : date) :
  first_format date_formats t = Some d ->
  t <> "" -> head_in isspace t = false -> last_in isspace t = false ->
  all_chars isspace a = true -> all_chars isspace b = true ->
  _parse_date (VStr (a ++ t ++ b)) = Ok (VStr (strftime_iso d)).
Proof.
  intros Hf Hne Hh Hl Ha Hb.
  assert (Hs : a ++ t ++ b <> "").
  { intros E. apply append_eq_nil in E. destruct t; [contradiction | discriminate]. }
  rewrite (parse_date_str _ Hs). unfold strip.
  rewrite (strip_by_unique isspace _ a t b eq_refl Ha Hb Hh Hl), Hf. reflexivity.
Qed.

(** X21. [_parse_date] reads every valid date written in one of its
    formats, with two digits for the day and the month and four for the
    year, whatever whitespace surrounds the text: the day-first texts with
    [/], [-] and [.], the year-first texts with [-], [/] and without
    separators, and the month-first text with [/] when its day is above 12.
    It returns the date as [strftime('%Y-%m-%d')] writes it: as
    [YYYY-MM-DD] from the year 1000 on, and before it with the year as the
    platform writes it, which need not have four digits. *)
Theorem parse_date_reads_listed_formats (d : date) (fmt a b : string) :
  valid_date d = true ->
  In fmt ["%d/%m/%Y"; "%Y-%m-%d"; "%d-%m-%Y"; "%Y/%m/%d"; "%d.%m.%Y"; "%Y%m%d"]
  \/ (fmt = "%m/%d/%Y" /\ 12 < day d) ->
  all_chars isspace a = true -> all_chars isspace b = true ->
  _parse_date (VStr (a ++ date_text fmt d ++ b)) = Ok (VStr (strftime_iso d))
  /\ (1000 <= year d -> strftime_iso d = date_text "%Y-%m-%d" d)
  /\ (year d < 1000 ->
      strftime_iso d = short_year (year d) ++ "-" ++ pad2 (month d) ++ "-" ++ pad2 (day d)).
Proof.
  intros Hv Hfmt Ha Hb. split; [|apply strftime_iso_text].
  assert (Hin : In fmt date_formats).
  { unfold date_formats. destruct Hfmt as [Hin | [-> _]]; cbn [In] in *; intuition. }
  destruct (date_text_ends d fmt Hin) as (Hne & Hh & Hl).
  apply parse_date_of_first_format; try assumption.
  destruct Hfmt as [Hfmt | [-> Hlate]]; [|apply first_format_month_first; assumption].
  cbn [In] in Hfmt.
  destruct Hfmt as [<- | [<- | [<- | [<- | [<- | [<- | []]]]]]].
  - apply first_format_day_slash, Hv.
  - apply first_format_year_dash, Hv.
  - apply first_format_day_dash, Hv.
  - apply first_format_year_slash, Hv.
  - apply first_format_day_dot, Hv.
  - apply first_format_compact, Hv.
Qed.

(** X22. Between the two readings of a text with slashes, day-first wins:
    a valid date written month-first (two digits for the day and the month,
    four for the year) whose day is 12 or less is read with its day and its
    month exchanged. The result is that date as [strftime('%Y-%m-%d')]
    writes it: as [YYYY-MM-DD] from the year 1000 on, and before it with the
    year as the platform writes it. *)
Theorem parse_date_prefers_day_first (d : date) (a b : string) :
  valid_date d = true -> day d <= 12 ->
  all_chars isspace a = true -> all_chars isspace b = true ->
  _parse_date (VStr (a ++ date_text "%m/%d/%Y" d ++ b))
  = Ok (VStr (strftime_iso (swap_day_month d)))
  /\ (1000 <= year d ->
      strftime_iso (swap_day_month d) = date_text "%Y-%m-%d" (swap_day_month d))
  /\ (year d < 1000 ->
      strftime_iso (swap_day_month d)
      = short_year (year d) ++ "-" ++ pad2 (day d) ++ "-" ++ pad2 (month d)).
Proof.
  intros Hv Hd Ha Hb. split; [|exact (strftime_iso_text (swap_day_month d))].
  destruct (date_text_ends d "%m/%d/%Y") as (Hne & Hh & Hl);
    [unfold date_formats; cbn [In]; auto|].
  apply parse_date_of_first_format; try assumption.
  apply (first_format_day_slash (swap_day_month d) (valid_swap_day_month d Hv Hd)).
Qed.

End ReadFormats.

(** X21 at 13 April 2024, written without separators between two blanks. *)
Lemma parse_date_reads_listed_formats_witness :
  _parse_date (rt := example_runtime) (VStr " 20240413 ") = Ok (VStr "2024-04-13").
Proof.
  apply (parse_date_reads_listed_formats (rt := example_runtime) (Date 2024 4 13) "%Y%m%d" " " " ").
  - reflexivity.
  - left. cbn [In]. auto 10.
  - reflexivity.
  - reflexivity.
Defined.

(** X22 at 4 March 2024 written month-first, [03/04/2024]: it is read as
    3 April. *)
Lemma parse_date_prefers_day_first_witness :
  _parse_date (rt := example_runtime) (VStr "03/04/2024") = Ok (VStr "2024-04-03").
Proof.
  apply (parse_date_prefers_day_first (rt := example_runtime) (Date 2024 3 4) "" "").
  - reflexivity.
  - cbn. lia.
  - reflexivity.
  - reflexivity.
Defined.

(* ===================================================================== *)
(** * Further properties: when the transformation fails *)
(* ===================================================================== *)

Lemma mapM_raise_inv {A B} (f : A -> result B) (l : list A) (e : exn) :
  mapM f l = Raise e -> exists x, In x l /\ f x = Raise e.
Proof.
  induction l as [|x l IH]; [discriminate|]. cbn [mapM].
  destruct (f x) as [y|e0] eqn:Hx; cbn [bind].
  - destruct (mapM f l) as [ys|e1]; cbn [bind]; [discriminate|].
    intros [= <-]. destruct (IH eq_refl) as (x' & Hin & Hx'). exists x'. split; [right|]; assumption.
  - intros [= <-]. exists x. split; [left; reflexivity | exact Hx].
Qed.

(** A run of column updates fails only where a step fails on the column
    of the frame it was given. *)
Lemma run_steps_raise_inv (steps : list (string * (Series -> result Series)))
      (df : DataFrame) (e : exn) :
  NoDup (map fst steps) ->
  run_steps steps df = Raise e ->
  exists col f s, In (col, f) steps /\ lookup_column col (columns df) = Some s /\ f s = Raise e.
Proof.
  revert df. induction steps as [|[c f] steps IH]; intros df Hnd Hrun; [discriminate|].
  apply NoDup_cons in Hnd as [Hc Hnd]. cbn [run_steps] in Hrun.
  rewrite update_frame_lookup in Hrun.
  destruct (lookup_column c (columns df)) as [s0|] eqn:Hs0.
  - destruct (f s0) as [s1|e0] eqn:Hf; cbn [bind] in Hrun.
    + destruct (IH _ Hnd Hrun) as (col & g & s & Hin & Hs & Hg).
      exists col, g, s. split; [right; exact Hin|]. split; [|exact Hg].
      cbn [setitem columns] in Hs. rewrite lookup_set_column_ne in Hs; [exact Hs|].
      intros ->. apply Hc, list_elem_of_In. apply (in_map fst _ _ Hin).
    + injection Hrun as <-. exists c, f, s0. split; [left; reflexivity|]. auto.
  - cbn [bind] in Hrun. destruct (IH _ Hnd Hrun) as (col & g & s & Hin & Hs & Hg).
    exists col, g, s. split; [right; exact Hin|]. auto.
Qed.

Section Failures.
Context {rt : Runtime}.

Lemma apply_raise_inv (f : value -> result value) (s : Series) (e : exn) :
  apply f s = Raise e -> exists v, v ∈ values s /\ f v = Raise e.
Proof.
  unfold apply. destruct (values s) as [|v vs]; [discriminate|].
  destruct (mapM f (v :: vs)) as [ws|e0] eqn:Hm; cbn [bind]; [discriminate|].
  intros [= <-]. destruct (mapM_raise_inv _ _ _ Hm) as (x & Hin & Hx).
  exists x. split; [apply list_elem_of_In, Hin | exact Hx].
Qed.

Lemma truthy_isna_raise_inv (v : value) (e : exn) :
  truthy (isna v) = Raise e -> e = ValueError /\ is_list v = true.
Proof.
  destruct v as [|s|n|f|l]; cbn [isna truthy]; try discriminate.
  destruct l as [|x [|y l]]; cbn [map truthy].
  - destruct empty_array_truth; [discriminate|]. intros [= <-]. auto.
  - discriminate.
  - intros [= <-]. auto.
Qed.

Lemma parse_date_raise_inv (v : value) (e : exn) :
  _parse_date v = Raise e -> e = ValueError /\ is_list v = true.
Proof.
  unfold _parse_date. destruct (truthy (isna v)) as [na|e0] eqn:Hna; cbn [bind].
  - destruct (na || eq_str v ""); [discriminate|].
    destruct (first_format _ _); [discriminate|]. destruct (bind _ _); discriminate.
  - intros [= <-]. apply (truthy_isna_raise_inv v e0 Hna).
Qed.

Lemma parse_array_raise_inv (v : value) (e : exn) :
  _parse_array v = Raise e -> e = ValueError /\ is_list v = true.
Proof.
  unfold _parse_array. destruct (truthy (isna v)) as [na|e0] eqn:Hna; cbn [bind].
  - destruct (na || eq_str v ""); [discriminate|].
    destruct v; try discriminate. destruct (nonempty _); discriminate.
  - intros [= <-]. apply (truthy_isna_raise_inv v e0 Hna).
Qed.

Lemma coerce_integer_raise_cases (s : Series) (e : exn) :
  coerce_integer s = Raise e ->
  (has_wide s = false /\ e = IntCastingNaNError /\
   exists v, v ∈ values s /\
     is_nan (num_float (to_numeric_cell v)) = false /\
     is_finite (num_float (to_numeric_cell v)) = false)
  \/ (has_wide s = true /\ coerce_wide (values s) = Raise e).
Proof.
  intros H. destruct (has_wide s) eqn:Hw.
  - right. split; [reflexivity|]. unfold coerce_integer in H. rewrite Hw in H.
    destruct (coerce_wide (values s)) as [ns|e0]; [discriminate|]. cbn [bind] in H. congruence.
  - left. split; [reflexivity|]. apply (coerce_integer_raise_inv s e Hw H).
Qed.

(** The ways a transformation fails, each read off the frame it is
    given. *)
Lemma transform_frame_raise_inv (df : DataFrame) (e : exn) :
  transform_frame df = Raise e ->
  (e = ValueError /\
   exists col s v, In col ["dates"; "genres"; "feat_track_ids"] /\
     lookup_column col (columns df) = Some s /\ v ∈ values s /\ is_list v = true)
  \/ (e = AttributeError /\
      exists s, lookup_column "names" (columns df) = Some s /\
        (is_numeric s = true \/ exists xs, s = Object xs /\ numbers_only xs = true))
  \/ (e = IntCastingNaNError /\
      exists col s v, In col numeric_columns /\
        lookup_column col (columns df) = Some s /\ has_wide s = false /\ v ∈ values s /\
        is_nan (num_float (to_numeric_cell v)) = false /\
        is_finite (num_float (to_numeric_cell v)) = false)
  \/ (exists col s, In col numeric_columns /\
        lookup_column col (columns df) = Some s /\ has_wide s = true /\
        coerce_wide (values s) = Raise e).
Proof.
  intros Hrun.
  destruct (run_steps_raise_inv _ _ _ transform_steps_NoDup Hrun) as (col & f & s & Hin & Hs & Hf).
  unfold transform_steps, numeric_columns in Hin. cbn [map app In] in Hin.
  destruct Hin as [Hin | [Hin | Hin]].
  - injection Hin as <- <-. destruct (apply_raise_inv _ _ _ Hf) as (v & Hv & Hp).
    destruct (parse_date_raise_inv v e Hp) as [-> Hl].
    left. split; [reflexivity|]. exists "dates", s, v. cbn [In]. auto.
  - injection Hin as <- <-. right. left.
    assert (Hcases : e = AttributeError /\
              (is_numeric s = true \/ exists xs, s = Object xs /\ numbers_only xs = true)).
    { destruct s as [xs|xs|xs]; cbn [str_upper] in Hf;
        try (injection Hf as <-; split; [reflexivity | left; reflexivity]).
      destruct (numbers_only xs) eqn:Hn; [|discriminate]. injection Hf as <-.
      split; [reflexivity | right; eauto]. }
    destruct Hcases as [-> Hcases]. split; [reflexivity|]. exists s. auto.
  - destruct Hin as [Hin | [Hin | [Hin | [Hin | [Hin | Hin]]]]];
      try (injection Hin as <- <-;
           destruct (coerce_integer_raise_cases s e Hf)
             as [(Hw & -> & v & Hv & Hn & Hfin) | (Hw & Hc)];
           [ right; right; left; split; [reflexivity|];
             match type of Hs with lookup_column ?c _ = _ => exists c, s, v end;
             unfold numeric_columns; cbn [In]; split; [auto 10 | auto]
           | right; right; right;
             match type of Hs with lookup_column ?c _ = _ => exists c, s end;
             unfold numeric_columns; cbn [In]; split; [auto 10 | auto] ]).
    destruct Hin as [Hin | [Hin | [Hin | [Hin | []]]]].
    + injection Hin as <- <-. destruct (apply_raise_inv _ _ _ Hf) as (v & Hv & Hp).
      destruct (parse_array_raise_inv v e Hp) as [-> Hl].
      left. split; [reflexivity|]. exists "genres", s, v. cbn [In]. auto.
    + injection Hin as <- <-. destruct (apply_raise_inv _ _ _ Hf) as (v & Hv & Hp).
      destruct (parse_array_raise_inv v e Hp) as [-> Hl].
      left. split; [reflexivity|]. exists "feat_track_ids", s, v. cbn [In]. auto.
    + injection Hin as <- <-. rewrite blank_sentinels_cells in Hf. discriminate.
    + injection Hin as <- <-. rewrite blank_sentinels_cells in Hf. discriminate.
Qed.

(** X23. [transform_data] fails in these ways only, each read off the
    frame it is given: with [ValueError] on a list in a cell of [dates],
    [genres] or [feat_track_ids]; with [AttributeError] on a [names] column
    that is numeric, or that is an object column holding numbers and
    nothing else but nulls; with [IntCastingNaNError] on a cell of a numeric
    column that reads as an infinity; and with what the runtime raises on a
    numeric column that holds an integer beyond int64 which the converter
    keeps as an integer. A frame with none of these is transformed. *)
Theorem transform_frame_failures (df : DataFrame) :
  (forall e, transform_frame df = Raise e ->
     (e = ValueError /\
      exists col s v, In col ["dates"; "genres"; "feat_track_ids"] /\
        lookup_column col (columns df) = Some s /\ v ∈ values s /\ is_list v = true)
     \/ (e = AttributeError /\
         exists s, lookup_column "names" (columns df) = Some s /\
           (is_numeric s = true \/ exists xs, s = Object xs /\ numbers_only xs = true))
     \/ (e = IntCastingNaNError /\
         exists col s v, In col numeric_columns /\
           lookup_column col (columns df) = Some s /\ has_wide s = false /\ v ∈ values s /\
           is_nan (num_float (to_numeric_cell v)) = false /\
           is_finite (num_float (to_numeric_cell v)) = false)
     \/ (exists col s, In col numeric_columns /\
           lookup_column col (columns df) = Some s /\ has_wide s = true /\
           coerce_wide (values s) = Raise e))
  /\ ((forall col s v, In col ["dates"; "genres"; "feat_track_ids"] ->
         lookup_column col (columns df) = Some s -> v ∈ values s -> is_list v = false) ->
      (forall s, lookup_column "names" (columns df) = Some s ->
         is_numeric s = false /\ forall xs, s = Object xs -> numbers_only xs = false) ->
      (forall col s, In col numeric_columns ->
         lookup_column col (columns df) = Some s -> has_wide s = false) ->
      (forall col s v, In col numeric_columns ->
         lookup_column col (columns df) = Some s -> v ∈ values s ->
         is_nan (num_float (to_numeric_cell v)) || is_finite (num_float (to_numeric_cell v)) = true) ->
      exists df', transform_frame df = Ok df').
Proof.
  split; [exact (transform_frame_raise_inv df)|].
  intros Hlists Hnames Hwide Hnums.
  destruct (transform_frame df) as [df'|e] eqn:Hrun; [eauto|]. exfalso.
  destruct (transform_frame_raise_inv df e Hrun)
    as [(_ & col & s & v & Hc & Hs & Hv & Hl)
       | [(_ & s & Hs & Hn)
         | [(_ & col & s & v & Hc & Hs & _ & Hv & Hn & Hf) | (col & s & Hc & Hs & Hw & _)]]].
  - rewrite (Hlists col s v Hc Hs Hv) in Hl. discriminate.
  - destruct (Hnames s Hs) as [Hnum Hobj]. destruct Hn as [Hn | (xs & -> & Hn)].
    + rewrite Hnum in Hn. discriminate.
    + rewrite (Hobj xs eq_refl) in Hn. discriminate.
  - specialize (Hnums col s v Hc Hs Hv). rewrite Hn, Hf in Hnums. discriminate.
  - rewrite (Hwide col s Hc Hs) in Hw. discriminate.
Qed.

End Failures.

